(** * Workspace daemon: registry, orchestrator port and lifecycle handlers

    A shallow embedding of the Go packages of [workspace-daemon/internal]:
    [store] (the registry interface and its two SQLite implementations),
    [orchestrator] (the orchestrator port and the two versions of the Helm
    adapter)
    and [api/handlers] (the two generations of HTTP handlers,
    [WorkspaceHandler] and [WorkspaceHandlers]).

    Conventions of the embedding:
    - a Go [error] is an [option string]: [None] is [nil], [Some m] is an
      error whose [Error()] text is [m];
    - a Go [*T] that may be [nil] is an [option T]; dereferencing [None]
      is a panic, made explicit in the handler results;
    - a method that mutates the struct behind a pointer argument returns the
      struct as it is after the call;
    - [time.Time] is an instant in [Z]; the wall clock is a field of the
      database state;
    - Go strings are byte strings, as Rocq's [string]. *)

From stdpp Require Import base strings gmap list sorting.
From Stdlib Require Import ZArith Lia Ascii.

Definition error := option string.

(** ** Package [store] (store.go) *)

Module store.

Definition WorkspaceStatus := string.

Definition StatusPending : WorkspaceStatus := "pending"%string.
Definition StatusRunning : WorkspaceStatus := "running"%string.
Definition StatusStopped : WorkspaceStatus := "stopped"%string.
Definition StatusError : WorkspaceStatus := "error"%string.

Record Workspace := mkWorkspace {
  ID : string;
  Name : string;
  Status : WorkspaceStatus;
  DockerImage : string;
  DockerImageTag : string;
  HelmReleaseName : string;
  Namespace : string;
  IngressHost : string;
  CPURequest : string;
  MemoryRequest : string;
  CPULimit : string;
  MemoryLimit : string;
  DataSize : string;
  SrcSize : string;
  GitEnabled : bool;
  GitUserName : string;
  GitUserEmail : string;
  CreatedAt : Z;
  UpdatedAt : Z
}.

(** [ws.Status = s] on the struct behind a pointer. *)
Definition withStatus (ws : Workspace) (s : WorkspaceStatus) : Workspace :=
  mkWorkspace (ID ws) (Name ws) s (DockerImage ws) (DockerImageTag ws)
    (HelmReleaseName ws) (Namespace ws) (IngressHost ws)
    (CPURequest ws) (MemoryRequest ws) (CPULimit ws) (MemoryLimit ws)
    (DataSize ws) (SrcSize ws) (GitEnabled ws) (GitUserName ws)
    (GitUserEmail ws) (CreatedAt ws) (UpdatedAt ws).

Record WorkspaceSecret := mkSecret {
  SecretWorkspaceID : string;
  Key : string;
  Value : string
}.

Record WorkspaceEvent := mkEvent {
  EventID : Z;
  EventWorkspaceID : string;
  EventType : string;
  Message : string;
  Metadata : string;
  EventCreatedAt : Z
}.

(** The [Store] interface.  Reads leave the state alone; writes return the
    new state, the struct behind the pointer argument where the
    implementation may write to it, and the error. *)
Record Store (S : Type) := mkStore {
  CreateWorkspace : Workspace -> S -> S * Workspace * error;
  GetWorkspace : string -> S -> option Workspace * error;
  ListWorkspaces : S -> list Workspace * error;
  UpdateWorkspace : Workspace -> S -> S * Workspace * error;
  DeleteWorkspace : string -> S -> S * error;
  SetSecret : WorkspaceSecret -> S -> S * error;
  GetSecret : string -> string -> S -> string * error;
  GetSecrets : string -> S -> list WorkspaceSecret * error;
  DeleteSecrets : string -> S -> S * error;
  LogEvent : WorkspaceEvent -> S -> S * WorkspaceEvent * error;
  GetEvents : string -> Z -> S -> list WorkspaceEvent * error
}.

Arguments CreateWorkspace {S} _ _ _.
Arguments GetWorkspace {S} _ _ _.
Arguments ListWorkspaces {S} _ _.
Arguments UpdateWorkspace {S} _ _ _.
Arguments DeleteWorkspace {S} _ _ _.
Arguments SetSecret {S} _ _ _.
Arguments GetSecret {S} _ _ _ _.
Arguments GetSecrets {S} _ _ _.
Arguments DeleteSecrets {S} _ _ _.
Arguments LogEvent {S} _ _ _.
Arguments GetEvents {S} _ _ _ _.

End store.

(** ** The SQLite registry (two versions of sqlite.go)

    Both versions keep the same three tables.  The database is modelled by its
    contents: [workspaces] keyed by the primary key [id], with the rowid
    SQLite keeps for each row, [workspace_secrets] keyed by the primary key
    [(workspace_id, key)], and [workspace_events] in the order of its rowid,
    which is the AUTOINCREMENT [id], together with the AUTOINCREMENT
    high-water mark.  The constraints that can make a statement fail are the
    primary key of [workspaces] and the foreign keys of the two child tables
    (both versions open the database with foreign keys on); cascade delete
    is part of [DELETE FROM workspaces].  I/O failures of the driver are not
    modelled.  The [created_at] column of [workspace_secrets] (first version
    only) is never read and is left out. *)

Module sqlite.
Import store.

Record DB := mkDB {
  workspaces : gmap string Workspace;
  workspaces_rowid : gmap string Z;
  workspace_secrets : gmap (string * string) string;
  workspace_events : list WorkspaceEvent;
  sqlite_sequence : Z;
  clock : Z
}.

Definition empty : DB := mkDB ∅ ∅ ∅ [] 0%Z 0%Z.

(** The wall clock moves forward between statements. *)
Definition advance (t : Z) (db : DB) : DB :=
  mkDB (workspaces db) (workspaces_rowid db) (workspace_secrets db) (workspace_events db)
       (sqlite_sequence db) (Z.max (clock db) t).

Definition unique_failed : string := "UNIQUE constraint failed: workspaces.id"%string.
Definition foreign_key_failed : string := "FOREIGN KEY constraint failed"%string.

Definition with_workspaces (db : DB) (w : gmap string Workspace) : DB :=
  mkDB w (workspaces_rowid db) (workspace_secrets db) (workspace_events db)
       (sqlite_sequence db) (clock db).

Definition with_secrets (db : DB) (s : gmap (string * string) string) : DB :=
  mkDB (workspaces db) (workspaces_rowid db) s (workspace_events db)
       (sqlite_sequence db) (clock db).

(** The rowid of a new row of [workspaces], a table without AUTOINCREMENT:
    one more than the largest rowid in use, and 1 in an empty table. *)
Definition next_rowid (db : DB) : Z :=
  (1 + map_fold (λ _ r acc, Z.max r acc) 0 (workspaces_rowid db))%Z.

(** [INSERT INTO workspaces] of a complete row. *)
Definition insert_workspace (row : Workspace) (db : DB) : DB * error :=
  match workspaces db !! ID row with
  | Some _ => (db, Some unique_failed)
  | None =>
      (mkDB (<[ID row := row]> (workspaces db))
            (<[ID row := next_rowid db]> (workspaces_rowid db))
            (workspace_secrets db) (workspace_events db)
            (sqlite_sequence db) (clock db), None)
  end.

(** [DELETE FROM workspaces WHERE id = ?] with [ON DELETE CASCADE] on both
    child tables. *)
Definition delete_workspace (id : string) (db : DB) : DB :=
  match workspaces db !! id with
  | None => db
  | Some _ =>
      mkDB (delete id (workspaces db))
           (delete id (workspaces_rowid db))
           (filter (λ kv, kv.1.1 ≠ id) (workspace_secrets db))
           (filter (λ e, EventWorkspaceID e ≠ id) (workspace_events db))
           (sqlite_sequence db) (clock db)
  end.

(** Insert or overwrite one secret; the foreign key needs the workspace. *)
Definition upsert_secret (s : WorkspaceSecret) (db : DB) : DB * error :=
  match workspaces db !! SecretWorkspaceID s with
  | None => (db, Some foreign_key_failed)
  | Some _ =>
      (with_secrets db (<[(SecretWorkspaceID s, Key s) := Value s]> (workspace_secrets db)), None)
  end.

(** [ORDER BY], and the order of an index: a stable insertion sort, so rows
    that compare equal stay in the order in which they come in. *)
Fixpoint insert_by {A} (R : A → A → Prop) `{!∀ a b, Decision (R a b)}
    (x : A) (l : list A) : list A :=
  match l with
  | [] => [x]
  | y :: l' => if decide (R x y) then x :: l else y :: insert_by R x l'
  end.

Definition order_by {A} (R : A → A → Prop) `{!∀ a b, Decision (R a b)}
    (l : list A) : list A :=
  foldr (insert_by R) [] l.

(** The collation [BINARY] of a [TEXT] column: bytes compared as [memcmp]
    does, a proper prefix first. *)
Fixpoint binary_le (a b : string) : bool :=
  match a, b with
  | EmptyString, _ => true
  | String _ _, EmptyString => false
  | String x a', String y b' =>
      if (N_of_ascii x <? N_of_ascii y)%N then true
      else if (N_of_ascii y <? N_of_ascii x)%N then false
      else binary_le a' b'
  end.

Definition key_order (a b : WorkspaceSecret) : Prop := binary_le (Key a) (Key b) = true.

Global Instance key_order_dec a b : Decision (key_order a b).
Proof. unfold key_order. apply _. Defined.

(** [SELECT key, value FROM workspace_secrets WHERE workspace_id = ?]: the
    rows are found through the index of the primary key
    [(workspace_id, key)], so they come in the order of [key]. *)
Definition select_secrets (workspaceID : string) (db : DB) : list WorkspaceSecret :=
  order_by key_order
    ((λ kv, mkSecret workspaceID kv.1.2 kv.2) <$>
       map_to_list (filter (λ kv, kv.1.1 = workspaceID) (workspace_secrets db))).

Definition delete_secrets (workspaceID : string) (db : DB) : DB :=
  with_secrets db (filter (λ kv, kv.1.1 ≠ workspaceID) (workspace_secrets db)).

(** [INSERT INTO workspace_events]: the row gets the next AUTOINCREMENT id. *)
Definition insert_event (e : WorkspaceEvent) (createdAt : Z) (db : DB)
  : DB * Z * error :=
  match workspaces db !! EventWorkspaceID e with
  | None => (db, 0%Z, Some foreign_key_failed)
  | Some _ =>
      let id := (sqlite_sequence db + 1)%Z in
      let row := mkEvent id (EventWorkspaceID e) (EventType e) (Message e)
                         (Metadata e) createdAt in
      (mkDB (workspaces db) (workspaces_rowid db) (workspace_secrets db)
            (workspace_events db ++ [row]) id (clock db), id, None)
  end.

(** [LIMIT n]: a negative [n] means no limit in SQLite. *)
Definition sql_limit {A} (n : Z) (l : list A) : list A :=
  if (n <? 0)%Z then l else take (Z.to_nat n) l.

Definition newer_workspace (a b : Workspace) : Prop := (CreatedAt b ≤ CreatedAt a)%Z.
Definition newer_event (a b : WorkspaceEvent) : Prop := (EventCreatedAt b ≤ EventCreatedAt a)%Z.

Global Instance newer_workspace_dec a b : Decision (newer_workspace a b).
Proof. unfold newer_workspace. apply _. Defined.
Global Instance newer_event_dec a b : Decision (newer_event a b).
Proof. unfold newer_event. apply _. Defined.

(** The rowid of the row stored under [id]. *)
Definition rowid_of (db : DB) (id : string) : Z :=
  default 0%Z (workspaces_rowid db !! id).

Definition rowid_order (db : DB) (a b : string * Workspace) : Prop :=
  (rowid_of db a.1 ≤ rowid_of db b.1)%Z.

Global Instance rowid_order_dec db a b : Decision (rowid_order db a b).
Proof. unfold rowid_order. apply _. Defined.

(** The rows of [workspaces] as a scan of the table visits them, by rowid. *)
Definition scan_workspaces (db : DB) : list Workspace :=
  snd <$> order_by (rowid_order db) (map_to_list (workspaces db)).

(** [SELECT ... FROM workspaces ORDER BY created_at DESC]: no index covers
    [created_at], the scanned rows are sorted, and rows with equal
    [created_at] stay in rowid order. *)
Definition select_workspaces (db : DB) : list Workspace :=
  order_by newer_workspace (scan_workspaces db).

(** [SELECT ... FROM workspace_events WHERE workspace_id = ?
     ORDER BY created_at DESC LIMIT ?]: in the first version the rows come
    from the index [(workspace_id, created_at DESC)], whose entries with equal
    [created_at] are in rowid order; in the second version they are sorted
    from the index on [workspace_id], with the same order among equals. *)
Definition select_events (workspaceID : string) (limit : Z) (db : DB)
  : list WorkspaceEvent :=
  sql_limit limit
    (order_by newer_event
       (filter (λ e, EventWorkspaceID e = workspaceID) (workspace_events db))).

End sqlite.

(** *** [SQLiteStore], first version (journal mode WAL; a missing workspace
    or secret is an error).  [created_at] and [updated_at] are filled by the
    column default [CURRENT_TIMESTAMP]; [git_enabled] is written as 0 or 1
    and read back as [== 1], which is the identity on [bool]. *)

Module SQLiteStore1.
Import store sqlite.

Definition CreateWorkspace (ws : Workspace) (db : DB) : DB * Workspace * error :=
  let row :=
    mkWorkspace (ID ws) (Name ws) (Status ws) (DockerImage ws) (DockerImageTag ws)
      (HelmReleaseName ws) (Namespace ws) (IngressHost ws)
      (CPURequest ws) (MemoryRequest ws) (CPULimit ws) (MemoryLimit ws)
      (DataSize ws) (SrcSize ws) (GitEnabled ws) (GitUserName ws)
      (GitUserEmail ws) (clock db) (clock db) in
  let '(db', err) := insert_workspace row db in
  (db', ws, err).

Definition GetWorkspace (id : string) (db : DB) : option Workspace * error :=
  match workspaces db !! id with
  | None => (None, Some ("workspace not found: " +:+ id))
  | Some row => (Some row, None)
  end.

Definition ListWorkspaces (db : DB) : list Workspace * error :=
  (select_workspaces db, None).

(** The [UPDATE] lists neither [id], [helm_release_name], [namespace] nor
    [created_at]. *)
Definition UpdateWorkspace (ws : Workspace) (db : DB) : DB * Workspace * error :=
  match workspaces db !! ID ws with
  | None => (db, ws, None)
  | Some row =>
      let row' :=
        mkWorkspace (ID row) (Name ws) (Status ws) (DockerImage ws) (DockerImageTag ws)
          (HelmReleaseName row) (Namespace row) (IngressHost ws)
          (CPURequest ws) (MemoryRequest ws) (CPULimit ws) (MemoryLimit ws)
          (DataSize ws) (SrcSize ws) (GitEnabled ws) (GitUserName ws)
          (GitUserEmail ws) (CreatedAt row) (clock db) in
      (with_workspaces db (<[ID ws := row']> (workspaces db)), ws, None)
  end.

Definition DeleteWorkspace (id : string) (db : DB) : DB * error :=
  (delete_workspace id db, None).

Definition SetSecret (secret : WorkspaceSecret) (db : DB) : DB * error :=
  upsert_secret secret db.

Definition GetSecret (workspaceID key : string) (db : DB) : string * error :=
  match workspace_secrets db !! (workspaceID, key) with
  | None => (""%string, Some "secret not found"%string)
  | Some value => (value, None)
  end.

Definition GetSecrets (workspaceID : string) (db : DB) : list WorkspaceSecret * error :=
  (select_secrets workspaceID db, None).

Definition DeleteSecrets (workspaceID : string) (db : DB) : DB * error :=
  (delete_secrets workspaceID db, None).

Definition LogEvent (event : WorkspaceEvent) (db : DB) : DB * WorkspaceEvent * error :=
  let '(db', id, err) := insert_event event (clock db) db in
  match err with
  | Some _ => (db', event, err)
  | None =>
      (db', mkEvent id (EventWorkspaceID event) (EventType event) (Message event)
                    (Metadata event) (clock db), None)
  end.

Definition GetEvents (workspaceID : string) (limit : Z) (db : DB)
  : list WorkspaceEvent * error :=
  (select_events workspaceID limit db, None).

Definition impl : Store DB :=
  mkStore DB CreateWorkspace GetWorkspace ListWorkspaces UpdateWorkspace
    DeleteWorkspace SetSecret GetSecret GetSecrets DeleteSecrets LogEvent GetEvents.

End SQLiteStore1.

(** *** [SQLiteStore], second version (timestamps taken in Go; a missing
    workspace is [nil, nil], a missing secret is the empty string). *)

Module SQLiteStore2.
Import store sqlite.

Definition CreateWorkspace (ws : Workspace) (db : DB) : DB * Workspace * error :=
  let now := clock db in
  let status := if decide (Status ws = ""%string) then StatusPending else Status ws in
  let ws' :=
    mkWorkspace (ID ws) (Name ws) status (DockerImage ws) (DockerImageTag ws)
      (HelmReleaseName ws) (Namespace ws) (IngressHost ws)
      (CPURequest ws) (MemoryRequest ws) (CPULimit ws) (MemoryLimit ws)
      (DataSize ws) (SrcSize ws) (GitEnabled ws) (GitUserName ws)
      (GitUserEmail ws) now now in
  let '(db', err) := insert_workspace ws' db in
  (db', ws', err).

Definition GetWorkspace (id : string) (db : DB) : option Workspace * error :=
  match workspaces db !! id with
  | None => (None, None)
  | Some row => (Some row, None)
  end.

Definition ListWorkspaces (db : DB) : list Workspace * error :=
  (select_workspaces db, None).

(** The [UPDATE] lists every column except [id] and [created_at]. *)
Definition UpdateWorkspace (ws : Workspace) (db : DB) : DB * Workspace * error :=
  let ws' :=
    mkWorkspace (ID ws) (Name ws) (Status ws) (DockerImage ws) (DockerImageTag ws)
      (HelmReleaseName ws) (Namespace ws) (IngressHost ws)
      (CPURequest ws) (MemoryRequest ws) (CPULimit ws) (MemoryLimit ws)
      (DataSize ws) (SrcSize ws) (GitEnabled ws) (GitUserName ws)
      (GitUserEmail ws) (CreatedAt ws) (clock db) in
  match workspaces db !! ID ws with
  | None => (db, ws', None)
  | Some row =>
      let row' :=
        mkWorkspace (ID row) (Name ws) (Status ws) (DockerImage ws) (DockerImageTag ws)
          (HelmReleaseName ws) (Namespace ws) (IngressHost ws)
          (CPURequest ws) (MemoryRequest ws) (CPULimit ws) (MemoryLimit ws)
          (DataSize ws) (SrcSize ws) (GitEnabled ws) (GitUserName ws)
          (GitUserEmail ws) (CreatedAt row) (clock db) in
      (with_workspaces db (<[ID ws := row']> (workspaces db)), ws', None)
  end.

Definition DeleteWorkspace (id : string) (db : DB) : DB * error :=
  (delete_workspace id db, None).

Definition SetSecret (secret : WorkspaceSecret) (db : DB) : DB * error :=
  upsert_secret secret db.

Definition GetSecret (workspaceID key : string) (db : DB) : string * error :=
  match workspace_secrets db !! (workspaceID, key) with
  | None => (""%string, None)
  | Some value => (value, None)
  end.

Definition GetSecrets (workspaceID : string) (db : DB) : list WorkspaceSecret * error :=
  (select_secrets workspaceID db, None).

Definition DeleteSecrets (workspaceID : string) (db : DB) : DB * error :=
  (delete_secrets workspaceID db, None).

Definition LogEvent (event : WorkspaceEvent) (db : DB) : DB * WorkspaceEvent * error :=
  let event' :=
    mkEvent (EventID event) (EventWorkspaceID event) (EventType event)
            (Message event) (Metadata event) (clock db) in
  let '(db', id, err) := insert_event event' (clock db) db in
  match err with
  | Some _ => (db', event', err)
  | None =>
      (db', mkEvent id (EventWorkspaceID event) (EventType event) (Message event)
                    (Metadata event) (clock db), None)
  end.

Definition GetEvents (workspaceID : string) (limit : Z) (db : DB)
  : list WorkspaceEvent * error :=
  (select_events workspaceID limit db, None).

Definition impl : Store DB :=
  mkStore DB CreateWorkspace GetWorkspace ListWorkspaces UpdateWorkspace
    DeleteWorkspace SetSecret GetSecret GetSecrets DeleteSecrets LogEvent GetEvents.

End SQLiteStore2.

(** ** Package [orchestrator] (orchestrator.go) *)

Module orchestrator.
Import store.

Record WorkspaceStatus := mkStatus {
  Phase : string;
  Ready : bool;
  StatusMessage : string;
  PodIP : string;
  NodeName : string;
  StartTime : string
}.

(** The [Orchestrator] interface over a cluster state [C].  The four
    mutating operations return the new cluster state and the error;
    [GetWorkspaceStatus] only observes. *)
Record Orchestrator (C : Type) := mkOrchestrator {
  DeployWorkspace : Workspace -> list WorkspaceSecret -> C -> C * error;
  StopWorkspace : Workspace -> C -> C * error;
  StartWorkspace : Workspace -> C -> C * error;
  DeleteWorkspace : Workspace -> C -> C * error;
  GetWorkspaceStatus : Workspace -> C -> option WorkspaceStatus * error
}.

Arguments DeployWorkspace {C} _ _ _ _.
Arguments StopWorkspace {C} _ _ _.
Arguments StartWorkspace {C} _ _ _.
Arguments DeleteWorkspace {C} _ _ _.
Arguments GetWorkspaceStatus {C} _ _ _.

(** What the delete path of the Helm adapter asks of the release engine and
    of the Kubernetes client, over a cluster state [K]:
    [action.Configuration.Init] for a namespace, [action.Uninstall.Run] for a
    release of that namespace, and [Namespaces().Delete]. *)
Record Cluster (K : Type) := mkCluster {
  actionConfigInit : string -> K -> error;
  uninstallRun : string -> string -> K -> K * error;
  namespacesDelete : string -> K -> K * error
}.

Arguments actionConfigInit {K} _ _ _.
Arguments uninstallRun {K} _ _ _ _.
Arguments namespacesDelete {K} _ _ _.

(** [fmt.Errorf("...: %w", err)] around a failed [Init]. *)
Definition getActionConfig {K} (cl : Cluster K) (namespace : string) (k : K) : error :=
  match actionConfigInit cl namespace k with
  | Some err => Some ("failed to init helm action config: " +:+ err)
  | None => None
  end.

End orchestrator.

(** *** [HelmOrchestrator.DeleteWorkspace], the version that reads the stored
    names and returns a failed uninstall. *)

Module HelmOrchestrator1.
Import store orchestrator.

Definition DeleteWorkspace {K} (cl : Cluster K) (ws : Workspace) (k : K) : K * error :=
  match getActionConfig cl (Namespace ws) k with
  | Some err => (k, Some err)
  | None =>
      let '(k1, err) := uninstallRun cl (Namespace ws) (HelmReleaseName ws) k in
      match err with
      | Some e => (k1, Some ("failed to uninstall helm release: " +:+ e))
      | None =>
          (* a failed namespace deletion is logged only *)
          let '(k2, _) := namespacesDelete cl (Namespace ws) k1 in
          (k2, None)
      end
  end.

End HelmOrchestrator1.

(** *** [HelmOrchestrator.DeleteWorkspace] of helm.go, which derives both
    names from the id and logs a failed uninstall. *)

Module HelmOrchestrator2.
Import store orchestrator.

Definition DeleteWorkspace {K} (cl : Cluster K) (ws : Workspace) (k : K) : K * error :=
  let namespace := ("workspace-" +:+ ID ws)%string in
  let releaseName := ("hld-" +:+ ID ws)%string in
  match getActionConfig cl namespace k with
  | Some err => (k, Some err)
  | None =>
      (* a failed uninstall is logged; the namespace is deleted all the same *)
      let '(k1, _) := uninstallRun cl namespace releaseName k in
      (* a failed namespace deletion is logged only *)
      let '(k2, _) := namespacesDelete cl namespace k1 in
      (k2, None)
  end.

End HelmOrchestrator2.

(** *** Test doubles of the orchestrator port *)

Module doubles.
Import store orchestrator.

(** [MockOrchestrator] of the handler tests: [DeployWorkspace] returns the
    configured [deployError], everything else succeeds. *)
Definition MockOrchestrator (deployError : error) : Orchestrator unit :=
  mkOrchestrator unit
    (λ _ _ c, (c, deployError))
    (λ _ c, (c, None))
    (λ _ c, (c, None))
    (λ _ c, (c, None))
    (λ _ _, (Some (mkStatus "Running" true "" "" "" ""), None)).

(** A double with a fault to inject into each of the four mutating
    operations; the status call is unavailable. *)
Definition FaultyOrchestrator (deployError stopError startError deleteError : error)
  : Orchestrator unit :=
  mkOrchestrator unit
    (λ _ _ c, (c, deployError))
    (λ _ c, (c, stopError))
    (λ _ c, (c, startError))
    (λ _ c, (c, deleteError))
    (λ _ _, (None, Some "status unavailable"%string)).

(** A double whose deployment fails and quotes the secret values it was
    given in the error, as an engine that reports the rendered values
    would. *)
Definition QuotingOrchestrator : Orchestrator unit :=
  mkOrchestrator unit
    (λ _ secrets c,
       (c, Some ("values rejected: " +:+ String.concat ", " (Value <$> secrets))))
    (λ _ c, (c, None))
    (λ _ c, (c, None))
    (λ _ c, (c, None))
    (λ _ _, (None, None)).

(** An in-memory cluster: the installed releases (namespace, name) and the
    existing namespaces.  As in Helm and Kubernetes, uninstalling a release
    that is not installed and deleting a namespace that does not exist are
    errors. *)
Record FakeState := mkFake {
  releases : list (string * string);
  namespaces : list string
}.

Definition FakeCluster : Cluster FakeState :=
  mkCluster FakeState
    (λ _ _, None)
    (λ ns rel k,
       if decide ((ns, rel) ∈ releases k)
       then (mkFake (filter (λ r, r ≠ (ns, rel)) (releases k)) (namespaces k), None)
       else (k, Some ("uninstall: Release not loaded: " +:+ rel +:+ ": release: not found")))
    (λ ns k,
       if decide (ns ∈ namespaces k)
       then (mkFake (releases k) (filter (λ n, n ≠ ns) (namespaces k)), None)
       else (k, Some ("namespaces " +:+ ns +:+ " not found"))).

End doubles.

(** ** The Helm adapters beyond the delete path

    [helm] holds what both versions of [HelmOrchestrator] share with the
    libraries they call: the values handed to a chart (a Go
    [map[string]interface{}] whose leaves are strings and booleans), the
    fields of a pod that [GetWorkspaceStatus] reads, and the calls made on
    the release engine and on the Kubernetes client. *)

Module helm.
Import store orchestrator.

#[warnings="-register-all"] Inductive Val : Type :=
  | VString (s : string)
  | VBool (b : bool)
  | VMap (m : gmap string Val).

Definition Values := gmap string Val.

(** [release.Status] of Helm. *)
Inductive ReleaseStatus : Type :=
  | StatusUnknown
  | StatusDeployed
  | StatusUninstalled
  | StatusSuperseded
  | StatusFailed
  | StatusUninstalling
  | StatusPendingInstall
  | StatusPendingUpgrade
  | StatusPendingRollback.

(** [corev1.PodCondition], the four fields that are read. *)
Record PodCondition := mkCondition {
  Type_ : string;
  Status_ : string;
  Message_ : string;
  Reason_ : string
}.

Definition PodReady : string := "Ready"%string.
Definition ConditionTrue : string := "True"%string.

(** [corev1.ContainerStatus]: the waiting state's reason and message and the
    terminated state's reason, each behind a pointer. *)
Record ContainerStatus := mkContainerStatus {
  Waiting : option (string * string);
  Terminated : option string
}.

(** [corev1.Pod]; [PodStartTime] is the start time already rendered as
    RFC 3339 text, [None] for a nil pointer. *)
Record Pod := mkPod {
  PodPhase : string;
  PodStatusIP : string;
  SpecNodeName : string;
  PodStartTime : option string;
  Conditions : list PodCondition;
  ContainerStatuses : list ContainerStatus
}.

(** The calls beyond those of [Cluster], over a cluster state [K]:
    [loader.Load] of a chart path, [action.Install.RunWithContext] with
    [CreateNamespace] (namespace, release, values),
    [action.Upgrade.RunWithContext] (namespace, release, [ReuseValues],
    values), [action.GetValues.Run], [action.Status.Run] (both: namespace,
    release) and [Pods(namespace).List] with a label selector.  A call that
    returns a result and an error is a sum: [inl] the result, [inr] the
    error text. *)
Record Engine (K : Type) := mkEngine {
  cluster : Cluster K;
  loaderLoad : string -> K -> error;
  installRun : string -> string -> Values -> K -> K * error;
  upgradeRun : string -> string -> bool -> Values -> K -> K * error;
  getValuesRun : string -> string -> K -> Values + string;
  statusRun : string -> string -> K -> ReleaseStatus + string;
  podsList : string -> string -> K -> list Pod + string
}.

Arguments cluster {K} _.
Arguments loaderLoad {K} _ _ _.
Arguments installRun {K} _ _ _ _ _.
Arguments upgradeRun {K} _ _ _ _ _ _.
Arguments getValuesRun {K} _ _ _ _.
Arguments statusRun {K} _ _ _ _.
Arguments podsList {K} _ _ _ _.

(** The loop [for _, secret := range secrets] with its [break] at the first
    [gh_token]. *)
Fixpoint ghToken (secrets : list WorkspaceSecret) : option string :=
  match secrets with
  | [] => None
  | secret :: rest =>
      if decide (Key secret = "gh_token"%string) then Some (Value secret)
      else ghToken rest
  end.

(** The [git] block, which both versions build alike. *)
Definition gitValues (ws : Workspace) (secrets : list WorkspaceSecret) : gmap string Val :=
  let git : gmap string Val :=
    {[ "enabled"%string := VBool true;
       "userName"%string := VString (GitUserName ws);
       "userEmail"%string := VString (GitUserEmail ws) ]} in
  match ghToken secrets with
  | Some token => <["ghToken"%string := VString token]> git
  | None => git
  end.

(** The loop with the [switch] over the three API keys; a later secret with
    the same key overwrites an earlier one. *)
Fixpoint secretsMap (secrets : list WorkspaceSecret) (m : gmap string Val)
  : gmap string Val :=
  match secrets with
  | [] => m
  | secret :: rest =>
      let m :=
        if decide (Key secret = "humanlayer_api_key"%string)
        then <["humanlayerApiKey"%string := VString (Value secret)]> m
        else if decide (Key secret = "anthropic_api_key"%string)
        then <["anthropicApiKey"%string := VString (Value secret)]> m
        else if decide (Key secret = "openrouter_api_key"%string)
        then <["openrouterApiKey"%string := VString (Value secret)]> m
        else m in
      secretsMap rest m
  end.

(** [if v != "" { m[k] = v }]. *)
Definition setUnlessEmpty (k v : string) (m : gmap string Val) : gmap string Val :=
  if decide (v = ""%string) then m else <[k := VString v]> m.

(** [if len(sub) > 0 { m[k] = sub }]. *)
Definition setUnlessNone (k : string) (sub : gmap string Val) (m : Values) : Values :=
  if decide (0 < size sub) then <[k := VMap sub]> m else m.

End helm.

(** *** [HelmOrchestrator] with stored names, the other operations

    Deployment, stop, start and status of the version whose delete path is
    [HelmOrchestrator1.DeleteWorkspace]: every operation works on the
    release [ws.HelmReleaseName] in the namespace [ws.Namespace]. *)

Module HelmAdapter1.
Import store orchestrator helm.

Definition buildValues (ws : Workspace) (secrets : list WorkspaceSecret) : Values :=
  let values : Values :=
    {[ "workspace"%string :=
         VMap {[ "id"%string := VString (ID ws); "name"%string := VString (Name ws) ]};
       "image"%string :=
         VMap {[ "repository"%string := VString (DockerImage ws);
                 "tag"%string := VString (DockerImageTag ws) ]};
       "state"%string := VMap {[ "running"%string := VBool true ]} ]} in
  (* resource limits if specified *)
  let resources : gmap string Val := ∅ in
  let resources :=
    if decide (CPURequest ws ≠ ""%string ∨ MemoryRequest ws ≠ ""%string) then
      <["requests"%string :=
          VMap (setUnlessEmpty "memory" (MemoryRequest ws)
                  (setUnlessEmpty "cpu" (CPURequest ws) ∅))]> resources
    else resources in
  let resources :=
    if decide (CPULimit ws ≠ ""%string ∨ MemoryLimit ws ≠ ""%string) then
      <["limits"%string :=
          VMap (setUnlessEmpty "memory" (MemoryLimit ws)
                  (setUnlessEmpty "cpu" (CPULimit ws) ∅))]> resources
    else resources in
  let values := setUnlessNone "resources" resources values in
  (* storage sizes *)
  let values :=
    if decide (DataSize ws ≠ ""%string ∨ SrcSize ws ≠ ""%string) then
      <["storage"%string :=
          VMap (setUnlessEmpty "srcSize" (SrcSize ws)
                  (setUnlessEmpty "dataSize" (DataSize ws) ∅))]> values
    else values in
  (* git configuration *)
  let values :=
    if GitEnabled ws then <["git"%string := VMap (gitValues ws secrets)]> values
    else values in
  (* API secrets *)
  let values := setUnlessNone "secrets" (secretsMap secrets ∅) values in
  (* ingress if host is set *)
  if decide (IngressHost ws ≠ ""%string) then
    <["ingress"%string :=
        VMap {[ "enabled"%string := VBool true;
                "host"%string := VString (IngressHost ws) ]}]> values
  else values.

Definition releaseStatusToPhase (status : ReleaseStatus) : string :=
  match status with
  | StatusDeployed => "running"
  | StatusFailed => "error"
  | StatusPendingInstall | StatusPendingUpgrade | StatusPendingRollback => "pending"
  | StatusUninstalling => "stopping"
  | _ => "unknown"
  end.

(** The loop of [isPodReady] over [pod.Status.Conditions]. *)
Fixpoint anyReady (conditions : list PodCondition) : bool :=
  match conditions with
  | [] => false
  | cond :: rest =>
      if decide (Type_ cond = PodReady ∧ Status_ cond = ConditionTrue) then true
      else anyReady rest
  end.

Definition isPodReady (pod : Pod) : bool := anyReady (Conditions pod).

(** The loop of [getPodMessage]. *)
Fixpoint readyMessage (conditions : list PodCondition) : string :=
  match conditions with
  | [] => ""
  | cond :: rest =>
      if decide (Type_ cond = PodReady) then
        if decide (Message_ cond ≠ ""%string) then Message_ cond
        else if decide (Reason_ cond ≠ ""%string) then Reason_ cond
        else readyMessage rest
      else readyMessage rest
  end.

Definition getPodMessage (pod : Pod) : string := readyMessage (Conditions pod).

Definition getStartTime (pod : Pod) : string := default ""%string (PodStartTime pod).

Section adapter.
Context {K : Type}.
Variable e : Engine K.
Variable helmChartPath : string.

Definition DeployWorkspace (ws : Workspace) (secrets : list WorkspaceSecret) (k : K)
  : K * error :=
  match getActionConfig (cluster e) (Namespace ws) k with
  | Some err => (k, Some err)
  | None =>
      match loaderLoad e helmChartPath k with
      | Some err => (k, Some ("failed to load helm chart: " +:+ err))
      | None =>
          let values := buildValues ws secrets in
          let '(k1, err) :=
            installRun e (Namespace ws) (HelmReleaseName ws) values k in
          match err with
          | Some err => (k1, Some ("failed to install helm release: " +:+ err))
          | None => (k1, None)
          end
      end
  end.

Definition StopWorkspace (ws : Workspace) (k : K) : K * error :=
  match getActionConfig (cluster e) (Namespace ws) k with
  | Some err => (k, Some err)
  | None =>
      match loaderLoad e helmChartPath k with
      | Some err => (k, Some ("failed to load helm chart: " +:+ err))
      | None =>
          let values : Values :=
            {[ "state"%string := VMap {[ "running"%string := VBool false ]} ]} in
          let '(k1, err) :=
            upgradeRun e (Namespace ws) (HelmReleaseName ws) true values k in
          match err with
          | Some err => (k1, Some ("failed to stop workspace: " +:+ err))
          | None => (k1, None)
          end
      end
  end.

Definition StartWorkspace (ws : Workspace) (k : K) : K * error :=
  match getActionConfig (cluster e) (Namespace ws) k with
  | Some err => (k, Some err)
  | None =>
      match loaderLoad e helmChartPath k with
      | Some err => (k, Some ("failed to load helm chart: " +:+ err))
      | None =>
          let values : Values :=
            {[ "state"%string := VMap {[ "running"%string := VBool true ]} ]} in
          let '(k1, err) :=
            upgradeRun e (Namespace ws) (HelmReleaseName ws) true values k in
          match err with
          | Some err => (k1, Some ("failed to start workspace: " +:+ err))
          | None => (k1, None)
          end
      end
  end.

Definition GetWorkspaceStatus (ws : Workspace) (k : K) : option WorkspaceStatus * error :=
  match getActionConfig (cluster e) (Namespace ws) k with
  | Some err => (None, Some err)
  | None =>
      match statusRun e (Namespace ws) (HelmReleaseName ws) k with
      | inr err =>
          (Some (mkStatus "unknown" false ("failed to get release status: " +:+ err)
                   "" "" ""), None)
      | inl status =>
          match podsList e (Namespace ws)
                  ("app.kubernetes.io/instance=" +:+ HelmReleaseName ws) k with
          | inr err =>
              (Some (mkStatus (releaseStatusToPhase status) false
                       ("failed to list pods: " +:+ err) "" "" ""), None)
          | inl [] => (Some (mkStatus "stopped" false "No pods found" "" "" ""), None)
          | inl (pod :: _) =>
              (Some (mkStatus (PodPhase pod) (isPodReady pod) (getPodMessage pod)
                       (PodStatusIP pod) (SpecNodeName pod) (getStartTime pod)), None)
          end
      end
  end.

Definition impl : Orchestrator K :=
  mkOrchestrator K DeployWorkspace StopWorkspace StartWorkspace
    (HelmOrchestrator1.DeleteWorkspace (cluster e)) GetWorkspaceStatus.

End adapter.
End HelmAdapter1.

(** *** [HelmOrchestrator] of helm.go, the other operations

    Every operation derives the namespace [workspace-<id>] and the release
    [hld-<id>] from the id. *)

Module HelmAdapter2.
Import store orchestrator helm.

Definition buildHelmValues (ws : Workspace) (secrets : list WorkspaceSecret) : Values :=
  let values : Values :=
    {[ "workspace"%string :=
         VMap {[ "id"%string := VString (ID ws); "name"%string := VString (Name ws) ]};
       "state"%string :=
         VMap {[ "running"%string :=
                   VBool (bool_decide (Status ws = StatusRunning)
                          || bool_decide (Status ws = StatusPending)) ]};
       "resources"%string :=
         VMap {[ "requests"%string :=
                   VMap {[ "cpu"%string := VString (CPURequest ws);
                           "memory"%string := VString (MemoryRequest ws) ]};
                 "limits"%string :=
                   VMap {[ "cpu"%string := VString (CPULimit ws);
                           "memory"%string := VString (MemoryLimit ws) ]} ]};
       "storage"%string :=
         VMap {[ "dataSize"%string := VString (DataSize ws);
                 "srcSize"%string := VString (SrcSize ws) ]} ]} in
  let values :=
    if GitEnabled ws then <["git"%string := VMap (gitValues ws secrets)]> values
    else values in
  setUnlessNone "secrets" (secretsMap secrets ∅) values.

(** The update of [state.running] in [setWorkspaceRunning]: written into the
    [state] map when there is one, else a new [state] map replaces what was
    there. *)
Definition setRunning (running : bool) (existingValues : Values) : Values :=
  match existingValues !! "state"%string with
  | Some (VMap state) =>
      <["state"%string := VMap (<["running"%string := VBool running]> state)]> existingValues
  | _ =>
      <["state"%string := VMap {[ "running"%string := VBool running ]}]> existingValues
  end.

(** The readiness loop, which stops at the first condition of type
    [Ready]; the pair is [status.Ready] and [status.Message]. *)
Fixpoint readiness (conditions : list PodCondition) (status : bool * string)
  : bool * string :=
  match conditions with
  | [] => status
  | cond :: rest =>
      if decide (Type_ cond = PodReady) then
        (bool_decide (Status_ cond = ConditionTrue),
         if decide (Message_ cond ≠ ""%string) then Message_ cond else status.2)
      else readiness rest status
  end.

(** The loop over [pod.Status.ContainerStatuses], which overwrites the
    message. *)
Fixpoint containerMessage (statuses : list ContainerStatus) (message : string) : string :=
  match statuses with
  | [] => message
  | cs :: rest =>
      let message :=
        match Waiting cs with
        | Some (reason, text) =>
            if decide (reason ≠ ""%string) then reason +:+ ": " +:+ text else message
        | None => message
        end in
      let message :=
        match Terminated cs with
        | Some reason =>
            if decide (reason ≠ ""%string) then "Terminated: " +:+ reason else message
        | None => message
        end in
      containerMessage rest message
  end.

Section adapter.
Context {K : Type}.
Variable e : Engine K.
Variable chartPath : string.

Definition DeployWorkspace (ws : Workspace) (secrets : list WorkspaceSecret) (k : K)
  : K * error :=
  let namespace := ("workspace-" +:+ ID ws)%string in
  let releaseName := ("hld-" +:+ ID ws)%string in
  match getActionConfig (cluster e) namespace k with
  | Some err => (k, Some err)
  | None =>
      match loaderLoad e chartPath k with
      | Some err =>
          (k, Some ("failed to load helm chart from " +:+ chartPath +:+ ": " +:+ err))
      | None =>
          let values := buildHelmValues ws secrets in
          let '(k1, err) := installRun e namespace releaseName values k in
          match err with
          | Some err => (k1, Some ("failed to install helm release: " +:+ err))
          | None => (k1, None)
          end
      end
  end.

Definition setWorkspaceRunning (ws : Workspace) (running : bool) (k : K) : K * error :=
  let namespace := ("workspace-" +:+ ID ws)%string in
  let releaseName := ("hld-" +:+ ID ws)%string in
  match getActionConfig (cluster e) namespace k with
  | Some err => (k, Some err)
  | None =>
      match getValuesRun e namespace releaseName k with
      | inr err => (k, Some ("failed to get existing values: " +:+ err))
      | inl existingValues =>
          let existingValues := setRunning running existingValues in
          match loaderLoad e chartPath k with
          | Some err => (k, Some ("failed to load helm chart: " +:+ err))
          | None =>
              let '(k1, err) :=
                upgradeRun e namespace releaseName false existingValues k in
              match err with
              | Some err => (k1, Some ("failed to upgrade helm release: " +:+ err))
              | None => (k1, None)
              end
          end
      end
  end.

Definition StopWorkspace (ws : Workspace) (k : K) : K * error :=
  setWorkspaceRunning ws false k.

Definition StartWorkspace (ws : Workspace) (k : K) : K * error :=
  setWorkspaceRunning ws true k.

Definition GetWorkspaceStatus (ws : Workspace) (k : K) : option WorkspaceStatus * error :=
  let namespace := ("workspace-" +:+ ID ws)%string in
  let labelSelector := ("app.kubernetes.io/instance=hld-" +:+ ID ws)%string in
  match podsList e namespace labelSelector k with
  | inr err => (None, Some ("failed to list pods: " +:+ err))
  | inl [] => (Some (mkStatus "Stopped" false "No pods running" "" "" ""), None)
  | inl (pod :: _) =>
      let '(ready, message) := readiness (Conditions pod) (false, ""%string) in
      let message := containerMessage (ContainerStatuses pod) message in
      (Some (mkStatus (PodPhase pod) ready message (PodStatusIP pod) (SpecNodeName pod)
               (default ""%string (PodStartTime pod))), None)
  end.

Definition impl : Orchestrator K :=
  mkOrchestrator K DeployWorkspace StopWorkspace StartWorkspace
    (HelmOrchestrator2.DeleteWorkspace (cluster e)) GetWorkspaceStatus.

End adapter.
End HelmAdapter2.

(** *** A double of the release engine

    Every call succeeds.  The cluster state is the log of the releases
    installed and upgraded, with the values handed over; what the engine
    answers when asked for a release's values, for its status and for the
    pods is fixed in advance. *)

Module helm_doubles.
Import orchestrator helm.

Definition RecordingEngine (values : Values + string)
    (status : ReleaseStatus + string) (pods : list Pod + string)
  : Engine (list (string * string * Values)) :=
  mkEngine (list (string * string * Values))
    (mkCluster (list (string * string * Values))
       (λ _ _, None) (λ _ _ k, (k, None)) (λ _ k, (k, None)))
    (λ _ _, None)
    (λ namespace release vals k, (k ++ [(namespace, release, vals)], None))
    (λ namespace release _ vals k, (k ++ [(namespace, release, vals)], None))
    (λ _ _ _, values)
    (λ _ _ _, status)
    (λ _ _ _, pods).

End helm_doubles.

(** ** Go library functions the handlers call

    Modelled after the Go standard library's documented behaviour on byte
    strings. *)

Module strconv.

Definition byte_of (a : ascii) : Z := Z.of_N (N_of_ascii a).

Definition is_digit (a : ascii) : bool :=
  ((48 <=? byte_of a) && (byte_of a <=? 57))%Z.

(** Every byte must be a decimal digit. *)
Fixpoint parse_digits (s : string) (acc : Z) : option Z :=
  match s with
  | EmptyString => Some acc
  | String a r =>
      if is_digit a then parse_digits r (10 * acc + (byte_of a - 48))%Z else None
  end.

(** The range of Go's [int] on a 64-bit platform. *)
Definition in_int (n : Z) : bool := ((- 2 ^ 63 <=? n) && (n <=? 2 ^ 63 - 1))%Z.

(** [strconv.Atoi]: an optional sign and one or more decimal digits, within
    the range of [int]; anything else is an error ([None]). *)
Definition Atoi (s : string) : option Z :=
  let '(neg, body) :=
    match s with
    | String "+"%char r => (false, r)
    | String "-"%char r => (true, r)
    | _ => (false, s)
    end in
  match body with
  | EmptyString => None
  | _ =>
      match parse_digits body 0 with
      | None => None
      | Some n =>
          let v := if neg then (- n)%Z else n in
          if in_int v then Some v else None
      end
  end.

End strconv.

Module utf8.
Import strconv.

(** [utf8.RuneCountInString] on valid UTF-8 (which decoded JSON strings are):
    the bytes that are not continuation bytes. *)
Fixpoint RuneCountInString (s : string) : Z :=
  match s with
  | EmptyString => 0
  | String a r =>
      let b := byte_of a in
      ((if (128 <=? b) && (b <? 192) then 0 else 1) + RuneCountInString r)%Z
  end.

(** The rune of a well-formed two-byte encoding (first byte C2..DF). *)
Definition rune2 (b0 b1 : Z) : option Z :=
  if ((194 <=? b0) && (b0 <=? 223) && (128 <=? b1) && (b1 <=? 191))%Z
  then Some ((b0 - 192) * 64 + (b1 - 128))%Z
  else None.

(** The rune of a well-formed three-byte encoding (first byte E0..EF); the
    second byte is A0..BF after E0, which excludes overlong forms, and 80..9F
    after ED, which excludes surrogates. *)
Definition rune3 (b0 b1 b2 : Z) : option Z :=
  let lo := if (b0 =? 224)%Z then 160%Z else 128%Z in
  let hi := if (b0 =? 237)%Z then 159%Z else 191%Z in
  if ((224 <=? b0) && (b0 <=? 239) && (lo <=? b1) && (b1 <=? hi)
      && (128 <=? b2) && (b2 <=? 191))%Z
  then Some ((b0 - 224) * 4096 + (b1 - 128) * 64 + (b2 - 128))%Z
  else None.

End utf8.

Module fmt.
Import strconv.

(** [isSpace]: the table [space] of scan.go, U+0009..U+000D, U+0020, U+0085,
    U+00A0, U+1680, U+2000..U+200A, U+2028, U+2029, U+202F, U+205F and
    U+3000. *)
Definition isSpace (r : Z) : bool :=
  (((9 <=? r) && (r <=? 13)) || (r =? 32) || (r =? 133) || (r =? 160) || (r =? 5760)
   || ((8192 <=? r) && (r <=? 8202)) || (r =? 8232) || (r =? 8233) || (r =? 8239)
   || (r =? 8287) || (r =? 12288))%Z.

(** [ss.SkipSpace] of [Sscanf]: the input is read rune by rune, spaces are
    skipped and a newline is an error.  A space takes one, two or three bytes;
    bytes that are no well-formed encoding are read as U+FFFD, which is no
    space, and so is every rune of four bytes. *)
Fixpoint SkipSpace (s : string) : option string :=
  match s with
  | EmptyString => Some s
  | String a r =>
      let b := byte_of a in
      if (b =? 10)%Z then None
      else if (b <? 128)%Z then (if isSpace b then SkipSpace r else Some s)
      else
        match r with
        | EmptyString => Some s
        | String a1 r1 =>
            match utf8.rune2 b (byte_of a1) with
            | Some c => if isSpace c then SkipSpace r1 else Some s
            | None =>
                match r1 with
                | EmptyString => Some s
                | String a2 r2 =>
                    match utf8.rune3 b (byte_of a1) (byte_of a2) with
                    | Some c => if isSpace c then SkipSpace r2 else Some s
                    | None => Some s
                    end
                end
            end
        end
  end.

(** [ss.scanNumber]: the longest prefix of decimal digits, with its value and
    whether it is non-empty. *)
Fixpoint scanNumber (s : string) (acc : Z) (have : bool) : Z * bool :=
  match s with
  | EmptyString => (acc, have)
  | String a r =>
      if is_digit a then scanNumber r (10 * acc + (byte_of a - 48))%Z true
      else (acc, have)
  end.

(** [fmt.Sscanf(s, "%d", &n)] for an [int]: [Some v] when [v] is stored in
    [n], [None] when the scan fails and [n] is left as it was.  Input after
    the number is not looked at. *)
Definition Sscanf_d (s : string) : option Z :=
  match SkipSpace s with
  | None => None
  | Some s1 =>
      let '(neg, body) :=
        match s1 with
        | String "+"%char r => (false, r)
        | String "-"%char r => (true, r)
        | _ => (false, s1)
        end in
      let '(n, have) := scanNumber body 0 false in
      if have then
        let v := if neg then (- n)%Z else n in
        if in_int v then Some v else None
      else None
  end.

End fmt.

Module http.
Definition StatusOK : Z := 200.
Definition StatusCreated : Z := 201.
Definition StatusBadRequest : Z := 400.
Definition StatusNotFound : Z := 404.
Definition StatusInternalServerError : Z := 500.
End http.

(** ** [context.Context]

    Every store and orchestrator method takes the context of the request.
    While a handler runs, that context is taken to be live and is left out of
    the calls.  net/http cancels it when the handler returns, and the
    goroutine started by [WorkspaceHandler.Create] keeps it: for that
    goroutine a context is the number of store calls that still find it
    live.  Both [SQLiteStore]s go through [database/sql], whose
    [ExecContext] returns the context's error without running the statement
    once the context is done. *)

Module context.

Inductive Context : Type :=
  | CanceledAfter (calls : nat).

Definition Canceled : string := "context canceled"%string.

(** [ctx.Err()] as the next call finds it. *)
Definition Err (ctx : Context) : error :=
  match ctx with
  | CanceledAfter O => Some Canceled
  | CanceledAfter (S _) => None
  end.

(** The context as the call after the next finds it. *)
Definition later (ctx : Context) : Context :=
  match ctx with
  | CanceledAfter n => CanceledAfter (pred n)
  end.

End context.

(** What a handler leaves behind: the one [c.JSON(code, body)] it makes, or
    a panic from dereferencing a nil pointer (which [gin.Recovery] would
    turn into an empty 500). *)
Inductive Reply (B : Type) : Type :=
  | JSON (code : Z) (body : B)
  | Panic.

Arguments JSON {B} _ _.
Arguments Panic {B}.

(** ** The API types shared by both handler generations

    [WorkspaceDTO] repeats the nineteen fields of [store.Workspace], which
    [workspaceToDTO] and [ToDTO] copy one by one, and adds
    [DeploymentStatus]; it is kept as the copied workspace plus that field.
    [EventDTO] has exactly the fields of [store.WorkspaceEvent].  The second
    generation renders the two timestamps as RFC 3339 text; the instant is
    kept here.  A body is the Go value handed to [c.JSON]. *)

Module api.

Record WorkspaceDTO := mkDTO {
  Fields : store.Workspace;
  DeploymentStatus : option orchestrator.WorkspaceStatus
}.

Definition ToDTO (ws : store.Workspace) : WorkspaceDTO := mkDTO ws None.

Definition ToDTOWithStatus (ws : store.Workspace)
    (status : option orchestrator.WorkspaceStatus) : WorkspaceDTO :=
  mkDTO ws status.

(** [Secrets] is a Go map; its entries are listed in the order in which the
    handler's [range] visits them. *)
Record CreateWorkspaceRequest := mkRequest {
  Name : string;
  DockerImage : string;
  DockerImageTag : string;
  CPURequest : string;
  MemoryRequest : string;
  CPULimit : string;
  MemoryLimit : string;
  DataSize : string;
  SrcSize : string;
  GitUserName : string;
  GitUserEmail : string;
  Secrets : list (string * string)
}.

(** [_, ok := req.Secrets[key]]. *)
Definition has_secret (key : string) (req : CreateWorkspaceRequest) : bool :=
  bool_decide (key ∈ (fst <$> Secrets req)).

Inductive Body : Type :=
  | ErrorResponse (Error : string)
  | WorkspaceResponse (Data : option WorkspaceDTO) (Error : option string)
  | WorkspaceListResponse (Data : list WorkspaceDTO) (Error : option string)
  | EventListResponse (Data : list store.WorkspaceEvent) (Error : option string)
  | MessageResponse (Message : string) (Error : option string).

Definition required_tag : string :=
  "Key: 'CreateWorkspaceRequest.Name' Error:Field validation for 'Name' failed on the 'required' tag"%string.
Definition max_tag : string :=
  "Key: 'CreateWorkspaceRequest.Name' Error:Field validation for 'Name' failed on the 'max' tag"%string.

End api.

(** ** [WorkspaceHandler] (handlers/workspaces.go)

    The handler holds a store and an orchestrator that may be nil.  The id
    drawn by [uuid.New().String()[:8]] is an argument of [Create], and the
    request body arrives decoded: [inl e] is a body that is not JSON for the
    request struct, with the decoder's message [e]. *)

Module WorkspaceHandler.
Import store.

Definition workspaceToDTO (ws : Workspace) : api.WorkspaceDTO := api.mkDTO ws None.

Definition eventToDTO (event : WorkspaceEvent) : WorkspaceEvent := event.

(** [binding:"required,min=1,max=63"] on [Name]. *)
Definition ShouldBindJSON (body : string + api.CreateWorkspaceRequest)
  : api.CreateWorkspaceRequest + string :=
  match body with
  | inl e => inr e
  | inr req =>
      if decide (api.Name req = ""%string) then inr api.required_tag
      else if (63 <? utf8.RuneCountInString (api.Name req))%Z then inr api.max_tag
      else inl req
  end.

(** One pass of [sanitizeName] over the bytes of a UTF-8 string:
    [strings.ToLower], spaces to dashes, and only [a-z0-9-] kept.  Two runes
    outside ASCII have an ASCII lower case, U+0130 (bytes C4 B0, to [i]) and
    U+212A (bytes E2 84 AA, to [k]); every other rune outside ASCII is
    dropped. *)
Fixpoint sanitize_runes (s : string) : string :=
  match s with
  | EmptyString => EmptyString
  | String a r =>
      let b := strconv.byte_of a in
      let special :=
        match r with
        | String a1 r1 =>
            if ((b =? 196) && (strconv.byte_of a1 =? 176))%Z then Some "i"%char
            else
              match r1 with
              | String a2 _ =>
                  if ((b =? 226) && (strconv.byte_of a1 =? 132)
                      && (strconv.byte_of a2 =? 170))%Z
                  then Some "k"%char else None
              | EmptyString => None
              end
        | EmptyString => None
        end in
      match special with
      | Some x => String x (sanitize_runes r)
      | None =>
          let lower := if ((65 <=? b) && (b <=? 90))%Z then (b + 32)%Z else b in
          let dashed := if (lower =? 32)%Z then 45%Z else lower in
          if (((97 <=? dashed) && (dashed <=? 122))
              || ((48 <=? dashed) && (dashed <=? 57)) || (dashed =? 45))%Z
          then String (ascii_of_N (Z.to_N dashed)) (sanitize_runes r)
          else sanitize_runes r
      end
  end.

Definition sanitizeName (name : string) : string :=
  let name := sanitize_runes name in
  if decide (53 < String.length name) then String.substring 0 53 name else name.

(** The limit of [Events]: the default 50 unless the parameter is a number
    in 1..100. *)
Definition parseLimit (limitStr : string) : Z :=
  if decide (limitStr = ""%string) then 50%Z
  else
    match strconv.Atoi limitStr with
    | Some l => if ((0 <? l) && (l <=? 100))%Z then l else 50%Z
    | None => 50%Z
    end.

(** The workspace record [Create] builds from the request. *)
Definition newWorkspace (id : string) (req : api.CreateWorkspaceRequest) : Workspace :=
  let sanitizedName := sanitizeName (api.Name req) in
  let helmReleaseName := ("ws-" +:+ id)%string in
  let namespace := ("ws-" +:+ id)%string in
  let dockerImage :=
    if decide (api.DockerImage req = ""%string) then "hld"%string
    else api.DockerImage req in
  let dockerImageTag :=
    if decide (api.DockerImageTag req = ""%string) then "latest"%string
    else api.DockerImageTag req in
  let gitEnabled :=
    bool_decide (api.GitUserName req ≠ ""%string)
    || bool_decide (api.GitUserEmail req ≠ ""%string) in
  let gitEnabled := if api.has_secret "gh_token" req then true else gitEnabled in
  mkWorkspace id (api.Name req) StatusPending dockerImage dockerImageTag
    helmReleaseName namespace (sanitizedName +:+ ".workspaces.local")
    (api.CPURequest req) (api.MemoryRequest req) (api.CPULimit req)
    (api.MemoryLimit req) (api.DataSize req) (api.SrcSize req)
    gitEnabled (api.GitUserName req) (api.GitUserEmail req) 0%Z 0%Z.

(** What the goroutine started by [Create] holds on to. *)
Record Task := mkTask {
  task_id : string;
  task_ws : Workspace;
  task_secrets : list WorkspaceSecret
}.

Section handlers.
Context {S C : Type}.
Variable st : Store S.
Variable orch : option (orchestrator.Orchestrator C).

(** The DTO of one item of [List]: the deployment status is fetched for a
    running workspace when there is an orchestrator. *)
Definition listItem (c : C) (ws : Workspace) : api.WorkspaceDTO :=
  match orch with
  | Some o =>
      if decide (Status ws = StatusRunning) then
        match orchestrator.GetWorkspaceStatus o ws c with
        | (status, None) => api.mkDTO ws status
        | (_, Some _) => workspaceToDTO ws
        end
      else workspaceToDTO ws
  | None => workspaceToDTO ws
  end.

Definition List (s : S) (c : C) : Reply api.Body :=
  let '(workspaces, err) := ListWorkspaces st s in
  match err with
  | Some _ =>
      JSON http.StatusInternalServerError (api.ErrorResponse "Failed to list workspaces")
  | None =>
      JSON http.StatusOK (api.WorkspaceListResponse (listItem c <$> workspaces) None)
  end.

(** The loop over [req.Secrets]: a failed [SetSecret] is logged and the
    secret is appended all the same. *)
Fixpoint storeSecrets (id : string) (kvs : list (string * string)) (s : S)
  : S * list WorkspaceSecret :=
  match kvs with
  | [] => (s, [])
  | (key, value) :: rest =>
      let secret := mkSecret id key value in
      let '(s1, _) := SetSecret st secret s in
      let '(s2, secrets) := storeSecrets id rest s1 in
      (s2, secret :: secrets)
  end.

(** [Create] up to its response.  The deployment runs in a goroutine, which
    is returned as a task and run by [deploy]; the response is built from
    the stored row as it is before the goroutine has written to it. *)
Definition Create (id : string) (body : string + api.CreateWorkspaceRequest) (s : S)
  : S * Reply api.Body * option Task :=
  match ShouldBindJSON body with
  | inr e =>
      (s, JSON http.StatusBadRequest (api.ErrorResponse ("Invalid request: " +:+ e)), None)
  | inl req =>
      let ws := newWorkspace id req in
      let '(s1, ws, err) := CreateWorkspace st ws s in
      match err with
      | Some _ =>
          (s1, JSON http.StatusInternalServerError
                 (api.ErrorResponse "Failed to create workspace"), None)
      | None =>
          let '(s2, secrets) := storeSecrets id (api.Secrets req) s1 in
          let '(s3, _, _) :=
            LogEvent st (mkEvent 0 id "created"
                           ("Workspace '" +:+ api.Name req +:+ "' created") "" 0) s2 in
          let task :=
            match orch with
            | Some _ => Some (mkTask id ws secrets)
            | None => None
            end in
          match GetWorkspace st id s3 with
          | (Some ws', _) =>
              (s3, JSON http.StatusCreated
                     (api.WorkspaceResponse (Some (workspaceToDTO ws')) None), task)
          | (None, _) => (s3, Panic, task)
          end
      end
  end.

(** A store write made with a context that may be done: then the statement
    is not run and the context's error comes back. *)
Definition withContext {A} (ctx : context.Context) (write : S → S * A * error) (s : S)
  : S * error :=
  match context.Err ctx with
  | Some e => (s, Some e)
  | None => let '(s1, _, err) := write s in (s1, err)
  end.

(** The body of the goroutine of [Create], which makes its calls with the
    context [ctx] of the request that started it.  It drops the errors of
    its two store calls.  What the orchestrator makes of a context that is
    done is part of the orchestrator's answer.  The goroutine reads the
    struct through the variable that the handler reassigns when it reloads
    the row; the two structs differ in their timestamps only, which
    [UpdateWorkspace] does not write. *)
Definition deploy (ctx : context.Context) (o : orchestrator.Orchestrator C) (t : Task)
    (s : S) (c : C) : S * C :=
  let '(c1, err) := orchestrator.DeployWorkspace o (task_ws t) (task_secrets t) c in
  match err with
  | Some e =>
      let '(s1, _) :=
        withContext ctx (UpdateWorkspace st (withStatus (task_ws t) StatusError)) s in
      let '(s2, _) :=
        withContext (context.later ctx)
          (LogEvent st (mkEvent 0 (task_id t) "error" ("Deployment failed: " +:+ e) "" 0))
          s1 in
      (s2, c1)
  | None =>
      let '(s1, _) :=
        withContext ctx (UpdateWorkspace st (withStatus (task_ws t) StatusRunning)) s in
      let '(s2, _) :=
        withContext (context.later ctx)
          (LogEvent st (mkEvent 0 (task_id t) "started" "Workspace deployed successfully" "" 0))
          s1 in
      (s2, c1)
  end.

Definition Get (id : string) (s : S) (c : C) : Reply api.Body :=
  let '(ws, err) := GetWorkspace st id s in
  match err with
  | Some _ => JSON http.StatusNotFound (api.ErrorResponse "Workspace not found")
  | None =>
      match ws with
      | None => Panic
      | Some ws =>
          let dto := workspaceToDTO ws in
          let dto :=
            match orch with
            | Some o =>
                match orchestrator.GetWorkspaceStatus o ws c with
                | (status, None) => api.mkDTO ws status
                | (_, Some _) => dto
                end
            | None => dto
            end in
          JSON http.StatusOK (api.WorkspaceResponse (Some dto) None)
      end
  end.

(** With a nil workspace and no error from the store, the orchestrator is
    handed the nil pointer; the adapters of this repository read its fields
    at once, so that case ends in a panic there. *)
Definition Delete (id : string) (s : S) (c : C) : S * C * Reply api.Body :=
  let '(ws, err) := GetWorkspace st id s in
  match err with
  | Some _ => (s, c, JSON http.StatusNotFound (api.ErrorResponse "Workspace not found"))
  | None =>
      match ws, orch with
      | None, Some _ => (s, c, Panic)
      | None, None =>
          let '(s1, err) := DeleteWorkspace st id s in
          match err with
          | Some _ =>
              (s1, c, JSON http.StatusInternalServerError
                        (api.ErrorResponse "Failed to delete workspace"))
          | None => (s1, c, Panic)
          end
      | Some ws, _ =>
          let c1 :=
            match orch with
            | Some o => fst (orchestrator.DeleteWorkspace o ws c)
            | None => c
            end in
          let '(s1, err) := DeleteWorkspace st id s in
          match err with
          | Some _ =>
              (s1, c1, JSON http.StatusInternalServerError
                         (api.ErrorResponse "Failed to delete workspace"))
          | None =>
              (s1, c1, JSON http.StatusOK
                         (api.MessageResponse ("Workspace '" +:+ Name ws +:+ "' deleted") None))
          end
      end
  end.

(** The part of [Start] and [Stop] after a successful orchestrator call:
    write the new status, log the event, reload. *)
Definition transition (id : string) (ws : Workspace) (status : WorkspaceStatus)
    (eventType message : string) (s : S) : S * Reply api.Body :=
  let '(s1, _, _) := UpdateWorkspace st (withStatus ws status) s in
  let '(s2, _, _) := LogEvent st (mkEvent 0 id eventType message "" 0) s1 in
  match GetWorkspace st id s2 with
  | (Some ws', _) =>
      (s2, JSON http.StatusOK (api.WorkspaceResponse (Some (workspaceToDTO ws')) None))
  | (None, _) => (s2, Panic)
  end.

Definition Start (id : string) (s : S) (c : C) : S * C * Reply api.Body :=
  let '(ws, err) := GetWorkspace st id s in
  match err with
  | Some _ => (s, c, JSON http.StatusNotFound (api.ErrorResponse "Workspace not found"))
  | None =>
      match ws with
      | None => (s, c, Panic)
      | Some ws =>
          if decide (Status ws = StatusRunning) then
            (s, c, JSON http.StatusBadRequest (api.ErrorResponse "Workspace is already running"))
          else
            let '(c1, oerr) :=
              match orch with
              | Some o => orchestrator.StartWorkspace o ws c
              | None => (c, None)
              end in
            match oerr with
            | Some _ =>
                (s, c1, JSON http.StatusInternalServerError
                          (api.ErrorResponse "Failed to start workspace"))
            | None =>
                let '(s1, r) := transition id ws StatusRunning "started" "Workspace started" s in
                (s1, c1, r)
            end
      end
  end.

Definition Stop (id : string) (s : S) (c : C) : S * C * Reply api.Body :=
  let '(ws, err) := GetWorkspace st id s in
  match err with
  | Some _ => (s, c, JSON http.StatusNotFound (api.ErrorResponse "Workspace not found"))
  | None =>
      match ws with
      | None => (s, c, Panic)
      | Some ws =>
          if decide (Status ws = StatusStopped) then
            (s, c, JSON http.StatusBadRequest (api.ErrorResponse "Workspace is already stopped"))
          else
            let '(c1, oerr) :=
              match orch with
              | Some o => orchestrator.StopWorkspace o ws c
              | None => (c, None)
              end in
            match oerr with
            | Some _ =>
                (s, c1, JSON http.StatusInternalServerError
                          (api.ErrorResponse "Failed to stop workspace"))
            | None =>
                let '(s1, r) := transition id ws StatusStopped "stopped" "Workspace stopped" s in
                (s1, c1, r)
            end
      end
  end.

Definition Events (id limitStr : string) (s : S) : Reply api.Body :=
  let '(_, err) := GetWorkspace st id s in
  match err with
  | Some _ => JSON http.StatusNotFound (api.ErrorResponse "Workspace not found")
  | None =>
      let limit := parseLimit limitStr in
      let '(events, err) := GetEvents st id limit s in
      match err with
      | Some _ =>
          JSON http.StatusInternalServerError (api.ErrorResponse "Failed to get events")
      | None =>
          JSON http.StatusOK (api.EventListResponse (eventToDTO <$> events) None)
      end
  end.

End handlers.
End WorkspaceHandler.

(** ** [WorkspaceHandlers] (the handlers that deploy inside the request)

    The handler holds a store, an orchestrator and a logger; log lines are
    not part of the model. *)

Module WorkspaceHandlers.
Import store.

Definition defaultString (val def : string) : string :=
  if decide (val = ""%string) then def else val.

(** [binding:"required"] on [Name]. *)
Definition ShouldBindJSON (body : string + api.CreateWorkspaceRequest)
  : api.CreateWorkspaceRequest + string :=
  match body with
  | inl e => inr e
  | inr req =>
      if decide (api.Name req = ""%string) then inr api.required_tag else inl req
  end.

(** The workspace model [CreateWorkspace] builds, with defaults. *)
Definition newWorkspace (id : string) (req : api.CreateWorkspaceRequest) : Workspace :=
  mkWorkspace id (api.Name req) StatusPending
    (defaultString (api.DockerImage req) "la-nuc-1:30500/hld")
    (defaultString (api.DockerImageTag req) "latest")
    ("hld-" +:+ id) ("workspace-" +:+ id)
    ("workspace-" +:+ id +:+ ".workspaces.local")
    (defaultString (api.CPURequest req) "100m")
    (defaultString (api.MemoryRequest req) "256Mi")
    (defaultString (api.CPULimit req) "1")
    (defaultString (api.MemoryLimit req) "1Gi")
    (defaultString (api.DataSize req) "1Gi")
    (defaultString (api.SrcSize req) "5Gi")
    (bool_decide (api.GitUserName req ≠ ""%string)
     && bool_decide (api.GitUserEmail req ≠ ""%string))
    (api.GitUserName req) (api.GitUserEmail req) 0%Z 0%Z.

(** The limit of [GetEvents]: 50 unless [Sscanf] stores a number. *)
Definition parseLimit (l : string) : Z :=
  if decide (l = ""%string) then 50%Z
  else match fmt.Sscanf_d l with
       | Some n => n
       | None => 50%Z
       end.

Section handlers.
Context {S C : Type}.
Variable st : Store S.
Variable orch : orchestrator.Orchestrator C.

Definition ListWorkspaces (s : S) : Reply api.Body :=
  let '(workspaces, err) := store.ListWorkspaces st s in
  match err with
  | Some e => JSON http.StatusInternalServerError (api.WorkspaceListResponse [] (Some e))
  | None => JSON http.StatusOK (api.WorkspaceListResponse (api.ToDTO <$> workspaces) None)
  end.

Definition GetWorkspace (id : string) (s : S) (c : C) : Reply api.Body :=
  let '(ws, err) := store.GetWorkspace st id s in
  match err with
  | Some e => JSON http.StatusInternalServerError (api.WorkspaceResponse None (Some e))
  | None =>
      match ws with
      | None =>
          JSON http.StatusNotFound
            (api.WorkspaceResponse None (Some ("workspace not found: " +:+ id)))
      | Some ws =>
          (* a failed status call is logged; the request goes on *)
          let '(status, _) := orchestrator.GetWorkspaceStatus orch ws c in
          JSON http.StatusOK (api.WorkspaceResponse (Some (api.ToDTOWithStatus ws status)) None)
      end
  end.

Fixpoint saveSecrets (id : string) (kvs : list (string * string)) (s : S)
  : S * list WorkspaceSecret :=
  match kvs with
  | [] => (s, [])
  | (key, value) :: rest =>
      let secret := mkSecret id key value in
      let '(s1, _) := SetSecret st secret s in
      let '(s2, secrets) := saveSecrets id rest s1 in
      (s2, secret :: secrets)
  end.

Definition CreateWorkspace (id : string) (body : string + api.CreateWorkspaceRequest)
    (s : S) (c : C) : S * C * Reply api.Body :=
  match ShouldBindJSON body with
  | inr e =>
      (s, c, JSON http.StatusBadRequest
               (api.WorkspaceResponse None (Some ("invalid request: " +:+ e))))
  | inl req =>
      let ws := newWorkspace id req in
      let '(s1, ws, err) := store.CreateWorkspace st ws s in
      match err with
      | Some e =>
          (s1, c, JSON http.StatusInternalServerError (api.WorkspaceResponse None (Some e)))
      | None =>
          let '(s2, secrets) := saveSecrets id (api.Secrets req) s1 in
          let '(s3, _, _) :=
            LogEvent st (mkEvent 0 id "created"
                           ("Workspace " +:+ Name ws +:+ " created") "" 0) s2 in
          let '(c1, derr) := orchestrator.DeployWorkspace orch ws secrets c in
          match derr with
          | Some e =>
              let '(s4, _, _) := UpdateWorkspace st (withStatus ws StatusError) s3 in
              let '(s5, _, _) :=
                LogEvent st (mkEvent 0 id "error" ("Deployment failed: " +:+ e) "" 0) s4 in
              (s5, c1, JSON http.StatusInternalServerError
                         (api.WorkspaceResponse None (Some ("deployment failed: " +:+ e))))
          | None =>
              let '(s4, ws, _) := UpdateWorkspace st (withStatus ws StatusRunning) s3 in
              let '(s5, _, _) :=
                LogEvent st (mkEvent 0 id "deployed" "Helm release installed" "" 0) s4 in
              (s5, c1, JSON http.StatusCreated (api.WorkspaceResponse (Some (api.ToDTO ws)) None))
          end
      end
  end.

Definition DeleteWorkspace (id : string) (s : S) (c : C) : S * C * Reply api.Body :=
  let '(ws, err) := store.GetWorkspace st id s in
  match err with
  | Some e => (s, c, JSON http.StatusInternalServerError (api.MessageResponse "" (Some e)))
  | None =>
      match ws with
      | None =>
          (s, c, JSON http.StatusNotFound
                   (api.MessageResponse "" (Some ("workspace not found: " +:+ id))))
      | Some ws =>
          let '(c1, _) := orchestrator.DeleteWorkspace orch ws c in
          let '(s1, _) := DeleteSecrets st id s in
          let '(s2, err) := store.DeleteWorkspace st id s1 in
          match err with
          | Some e =>
              (s2, c1, JSON http.StatusInternalServerError (api.MessageResponse "" (Some e)))
          | None =>
              (s2, c1, JSON http.StatusOK
                         (api.MessageResponse ("Workspace " +:+ id +:+ " deleted") None))
          end
      end
  end.

(** The part of [StartWorkspace] and [StopWorkspace] after a successful
    orchestrator call. *)
Definition transition (id : string) (ws : Workspace) (status : WorkspaceStatus)
    (eventType message : string) (s : S) : S * Reply api.Body :=
  let '(s1, ws, _) := UpdateWorkspace st (withStatus ws status) s in
  let '(s2, _, _) := LogEvent st (mkEvent 0 id eventType message "" 0) s1 in
  (s2, JSON http.StatusOK (api.WorkspaceResponse (Some (api.ToDTO ws)) None)).

Definition StartWorkspace (id : string) (s : S) (c : C) : S * C * Reply api.Body :=
  let '(ws, err) := store.GetWorkspace st id s in
  match err with
  | Some e => (s, c, JSON http.StatusInternalServerError (api.WorkspaceResponse None (Some e)))
  | None =>
      match ws with
      | None =>
          (s, c, JSON http.StatusNotFound
                   (api.WorkspaceResponse None (Some ("workspace not found: " +:+ id))))
      | Some ws =>
          let '(c1, oerr) := orchestrator.StartWorkspace orch ws c in
          match oerr with
          | Some e =>
              (s, c1, JSON http.StatusInternalServerError
                        (api.WorkspaceResponse None (Some ("failed to start: " +:+ e))))
          | None =>
              let '(s1, r) := transition id ws StatusRunning "started" "Workspace started" s in
              (s1, c1, r)
          end
      end
  end.

Definition StopWorkspace (id : string) (s : S) (c : C) : S * C * Reply api.Body :=
  let '(ws, err) := store.GetWorkspace st id s in
  match err with
  | Some e => (s, c, JSON http.StatusInternalServerError (api.WorkspaceResponse None (Some e)))
  | None =>
      match ws with
      | None =>
          (s, c, JSON http.StatusNotFound
                   (api.WorkspaceResponse None (Some ("workspace not found: " +:+ id))))
      | Some ws =>
          let '(c1, oerr) := orchestrator.StopWorkspace orch ws c in
          match oerr with
          | Some e =>
              (s, c1, JSON http.StatusInternalServerError
                        (api.WorkspaceResponse None (Some ("failed to stop: " +:+ e))))
          | None =>
              let '(s1, r) := transition id ws StatusStopped "stopped" "Workspace stopped" s in
              (s1, c1, r)
          end
      end
  end.

Definition GetEvents (id l : string) (s : S) : Reply api.Body :=
  let limit := parseLimit l in
  let '(events, err) := store.GetEvents st id limit s in
  match err with
  | Some e => JSON http.StatusInternalServerError (api.EventListResponse [] (Some e))
  | None => JSON http.StatusOK (api.EventListResponse events None)
  end.

End handlers.
End WorkspaceHandlers.

(** ** [MockStore] of the handler tests

    The Go mock keeps the pointers it is given.  Every write a handler makes
    through such a pointer is followed by [UpdateWorkspace] on the same
    pointer, so keeping values gives the same contents between handler calls.
    [GetEvents] slices [events[:limit]], which panics in Go for a negative
    limit; that is reported as an error here. *)

Module MockStore.
Import store.

Record State := mkState {
  workspaces : gmap string Workspace;
  secrets : gmap string (list WorkspaceSecret);
  events : gmap string (list WorkspaceEvent)
}.

Definition NewMockStore : State := mkState ∅ ∅ ∅.

Definition impl : Store State :=
  mkStore State
    (λ ws m, (mkState (<[ID ws := ws]> (workspaces m)) (secrets m) (events m), ws, None))
    (λ id m, (workspaces m !! id, None))
    (λ m, (snd <$> map_to_list (workspaces m), None))
    (λ ws m, (mkState (<[ID ws := ws]> (workspaces m)) (secrets m) (events m), ws, None))
    (λ id m, (mkState (delete id (workspaces m)) (secrets m) (events m), None))
    (λ s m,
       (mkState (workspaces m)
          (<[SecretWorkspaceID s := default [] (secrets m !! SecretWorkspaceID s) ++ [s]]>
             (secrets m))
          (events m), None))
    (λ workspaceID key m,
       (default ""%string
          (Value <$> head (filter (λ s, Key s = key)
                             (default [] (secrets m !! workspaceID)))), None))
    (λ workspaceID m, (default [] (secrets m !! workspaceID), None))
    (λ workspaceID m, (mkState (workspaces m) (delete workspaceID (secrets m)) (events m), None))
    (λ e m,
       (mkState (workspaces m) (secrets m)
          (<[EventWorkspaceID e := default [] (events m !! EventWorkspaceID e) ++ [e]]>
             (events m)), e, None))
    (λ workspaceID limit m,
       let events := default [] (events m !! workspaceID) in
       if (limit <? 0)%Z then ([], Some "runtime error: slice bounds out of range"%string)
       else if (limit <? Z.of_nat (length events))%Z
            then (take (Z.to_nat limit) events, None)
            else (events, None)).

End MockStore.

(** ** The two daemons as transition systems

    A daemon is a registry, a cluster and, for the first generation, the
    goroutines that [Create] has started and that have not run yet.  One
    step is one HTTP request served to completion, the clock moving on, or
    a pending goroutine running to completion, with the request's context
    as that goroutine finds it. *)

Inductive Action : Type :=
  | ReqList
  | ReqCreate (id : string) (body : string + api.CreateWorkspaceRequest)
  | ReqGet (id : string)
  | ReqDelete (id : string)
  | ReqStart (id : string)
  | ReqStop (id : string)
  | ReqEvents (id limit : string)
  | Tick (t : Z)
  | Goroutine (n : nat) (ctx : context.Context).

(** [SQLiteStore] (first version) behind [WorkspaceHandler], which relies on
    that store reporting a missing workspace as an error. *)
Module Daemon1.
Section daemon.
Context {C : Type}.
Variable orch : option (orchestrator.Orchestrator C).

Record State := mkState {
  db : sqlite.DB;
  cluster : C;
  goroutines : list WorkspaceHandler.Task
}.

Definition init (c : C) : State := mkState sqlite.empty c [].

Definition step (a : Action) (σ : State) : State * option (Reply api.Body) :=
  let st := SQLiteStore1.impl in
  match a with
  | ReqList => (σ, Some (WorkspaceHandler.List st orch (db σ) (cluster σ)))
  | ReqCreate id body =>
      let '(s, r, t) := WorkspaceHandler.Create st orch id body (db σ) in
      (mkState s (cluster σ) (goroutines σ ++ option_list t), Some r)
  | ReqGet id => (σ, Some (WorkspaceHandler.Get st orch id (db σ) (cluster σ)))
  | ReqDelete id =>
      let '(s, c, r) := WorkspaceHandler.Delete st orch id (db σ) (cluster σ) in
      (mkState s c (goroutines σ), Some r)
  | ReqStart id =>
      let '(s, c, r) := WorkspaceHandler.Start st orch id (db σ) (cluster σ) in
      (mkState s c (goroutines σ), Some r)
  | ReqStop id =>
      let '(s, c, r) := WorkspaceHandler.Stop st orch id (db σ) (cluster σ) in
      (mkState s c (goroutines σ), Some r)
  | ReqEvents id limit => (σ, Some (WorkspaceHandler.Events st id limit (db σ)))
  | Tick t => (mkState (sqlite.advance t (db σ)) (cluster σ) (goroutines σ), None)
  | Goroutine n ctx =>
      match goroutines σ !! n, orch with
      | Some t, Some o =>
          let '(s, c) := WorkspaceHandler.deploy st ctx o t (db σ) (cluster σ) in
          (mkState s c (delete n (goroutines σ)), None)
      | _, _ => (σ, None)
      end
  end.

Definition run (acts : list Action) (σ : State) : State :=
  foldl (λ σ a, fst (step a σ)) σ acts.

End daemon.
End Daemon1.

(** [SQLiteStore] (second version) behind [WorkspaceHandlers], which tests
    for the nil workspace that store returns; this generation starts no
    goroutine. *)
Module Daemon2.
Section daemon.
Context {C : Type}.
Variable orch : orchestrator.Orchestrator C.

Record State := mkState {
  db : sqlite.DB;
  cluster : C
}.

Definition init (c : C) : State := mkState sqlite.empty c.

Definition step (a : Action) (σ : State) : State * option (Reply api.Body) :=
  let st := SQLiteStore2.impl in
  match a with
  | ReqList => (σ, Some (WorkspaceHandlers.ListWorkspaces st (db σ)))
  | ReqCreate id body =>
      let '(s, c, r) := WorkspaceHandlers.CreateWorkspace st orch id body (db σ) (cluster σ) in
      (mkState s c, Some r)
  | ReqGet id => (σ, Some (WorkspaceHandlers.GetWorkspace st orch id (db σ) (cluster σ)))
  | ReqDelete id =>
      let '(s, c, r) := WorkspaceHandlers.DeleteWorkspace st orch id (db σ) (cluster σ) in
      (mkState s c, Some r)
  | ReqStart id =>
      let '(s, c, r) := WorkspaceHandlers.StartWorkspace st orch id (db σ) (cluster σ) in
      (mkState s c, Some r)
  | ReqStop id =>
      let '(s, c, r) := WorkspaceHandlers.StopWorkspace st orch id (db σ) (cluster σ) in
      (mkState s c, Some r)
  | ReqEvents id limit => (σ, Some (WorkspaceHandlers.GetEvents st id limit (db σ)))
  | Tick t => (mkState (sqlite.advance t (db σ)) (cluster σ), None)
  | Goroutine _ _ => (σ, None)
  end.

Definition run (acts : list Action) (σ : State) : State :=
  foldl (λ σ a, fst (step a σ)) σ acts.

End daemon.
End Daemon2.

(** ** Vocabulary of the properties *)

Section vocabulary.
Import store sqlite.

(** Everything of the database but the secrets table. *)
Definition low (db : DB)
  : gmap string Workspace * gmap string Z * list WorkspaceEvent * Z * Z :=
  (workspaces db, workspaces_rowid db, workspace_events db, sqlite_sequence db, clock db).

(** The secrets a create request carries, as the handlers build them. *)
Definition request_secrets (id : string) (kvs : list (string * string)) : list WorkspaceSecret :=
  (λ kv, mkSecret id kv.1 kv.2) <$> kvs.

(** A request for a workspace called [demo] with the given committer and
    secrets and nothing else. *)
Definition bare (name email : string) (secrets : list (string * string))
  : api.CreateWorkspaceRequest :=
  api.mkRequest "demo" "" "" "" "" "" "" "" "" name email secrets.

(** A workspace struct with its two timestamps set. *)
Definition stamped (ws : Workspace) (created updated : Z) : Workspace :=
  mkWorkspace (ID ws) (Name ws) (Status ws) (DockerImage ws) (DockerImageTag ws)
    (HelmReleaseName ws) (Namespace ws) (IngressHost ws)
    (CPURequest ws) (MemoryRequest ws) (CPULimit ws) (MemoryLimit ws)
    (DataSize ws) (SrcSize ws) (GitEnabled ws) (GitUserName ws)
    (GitUserEmail ws) created updated.

(** The event row [LogEvent] inserts. *)
Definition event_row (db : DB) (workspaceID eventType message : string) : WorkspaceEvent :=
  mkEvent (sqlite_sequence db + 1) workspaceID eventType message "" (clock db).

(** A running workspace with the given id and names. *)
Definition demo_workspace (id release namespace : string) : Workspace :=
  mkWorkspace id "demo" StatusRunning "hld" "latest" release namespace ""
    "" "" "" "" "" "" false "" "" 0 0.

(** Every stored row sits under its own id and carries the two names derived
    from that id with the given prefixes. *)
Definition names_derived (release namespace : string) (db : DB) : Prop :=
  map_Forall (λ id ws, ID ws = id
                       ∧ HelmReleaseName ws = release +:+ id
                       ∧ Namespace ws = namespace +:+ id) (workspaces db).

(** A row present before and after has kept its two names. *)
Definition names_kept (db db' : DB) : Prop :=
  ∀ id ws ws',
    workspaces db !! id = Some ws → workspaces db' !! id = Some ws' →
    HelmReleaseName ws' = HelmReleaseName ws ∧ Namespace ws' = Namespace ws.

(** [needle] occurs in [hay]. *)
Definition contains (needle hay : string) : bool :=
  bool_decide (is_Some (String.index 0 needle hay)).

(** A secret with its value blanked, and a request with its secret values
    blanked. *)
Definition blank (s : WorkspaceSecret) : WorkspaceSecret :=
  mkSecret (SecretWorkspaceID s) (Key s) "".

Definition public (req : api.CreateWorkspaceRequest) : api.CreateWorkspaceRequest :=
  api.mkRequest (api.Name req) (api.DockerImage req) (api.DockerImageTag req)
    (api.CPURequest req) (api.MemoryRequest req) (api.CPULimit req)
    (api.MemoryLimit req) (api.DataSize req) (api.SrcSize req)
    (api.GitUserName req) (api.GitUserEmail req)
    ((λ kv, (kv.1, ""%string)) <$> api.Secrets req).

(** Two actions that are the same up to the secret values of a create
    request. *)
Definition same_public (a1 a2 : Action) : Prop :=
  match a1, a2 with
  | ReqCreate id1 (inr r1), ReqCreate id2 (inr r2) => id1 = id2 ∧ public r1 = public r2
  | _, _ => a1 = a2
  end.

(** An orchestrator whose answers do not depend on secret values; [R] relates
    the cluster states of the two runs. *)
Record discreet {C} (R : relation C) (o : orchestrator.Orchestrator C) : Prop := {
  discreet_deploy ws secs1 secs2 c1 c2 :
    R c1 c2 → blank <$> secs1 = blank <$> secs2 →
    (orchestrator.DeployWorkspace o ws secs1 c1).2 = (orchestrator.DeployWorkspace o ws secs2 c2).2
    ∧ R (orchestrator.DeployWorkspace o ws secs1 c1).1 (orchestrator.DeployWorkspace o ws secs2 c2).1;
  discreet_stop ws c1 c2 :
    R c1 c2 →
    (orchestrator.StopWorkspace o ws c1).2 = (orchestrator.StopWorkspace o ws c2).2
    ∧ R (orchestrator.StopWorkspace o ws c1).1 (orchestrator.StopWorkspace o ws c2).1;
  discreet_start ws c1 c2 :
    R c1 c2 →
    (orchestrator.StartWorkspace o ws c1).2 = (orchestrator.StartWorkspace o ws c2).2
    ∧ R (orchestrator.StartWorkspace o ws c1).1 (orchestrator.StartWorkspace o ws c2).1;
  discreet_delete ws c1 c2 :
    R c1 c2 →
    (orchestrator.DeleteWorkspace o ws c1).2 = (orchestrator.DeleteWorkspace o ws c2).2
    ∧ R (orchestrator.DeleteWorkspace o ws c1).1 (orchestrator.DeleteWorkspace o ws c2).1;
  discreet_status ws c1 c2 :
    R c1 c2 →
    orchestrator.GetWorkspaceStatus o ws c1 = orchestrator.GetWorkspaceStatus o ws c2
}.

(** Two states of the second daemon that differ in the secrets table only,
    with related clusters. *)
Definition sim2 {C} (R : relation C) (σ1 σ2 : Daemon2.State) : Prop :=
  low (Daemon2.db σ1) = low (Daemon2.db σ2)
  ∧ R (Daemon2.cluster σ1) (Daemon2.cluster σ2).

(** Two pending goroutines that differ in the secret values they hold. *)
Definition same_task (t1 t2 : WorkspaceHandler.Task) : Prop :=
  WorkspaceHandler.task_id t1 = WorkspaceHandler.task_id t2
  ∧ WorkspaceHandler.task_ws t1 = WorkspaceHandler.task_ws t2
  ∧ blank <$> WorkspaceHandler.task_secrets t1 = blank <$> WorkspaceHandler.task_secrets t2.

(** The same for the first daemon, goroutine by goroutine. *)
Definition sim1 {C} (R : relation C) (σ1 σ2 : Daemon1.State) : Prop :=
  low (Daemon1.db σ1) = low (Daemon1.db σ2)
  ∧ R (Daemon1.cluster σ1) (Daemon1.cluster σ2)
  ∧ Forall2 same_task (Daemon1.goroutines σ1) (Daemon1.goroutines σ2).

End vocabulary.

(** ** Vocabulary of the registry's own properties *)

Section registry_vocabulary.
Import store sqlite.

(** The foreign keys of the two child tables hold: every secret and every
    event belongs to a stored workspace. *)
Definition references_ok (db : DB) : Prop :=
  map_Forall (λ k _, is_Some (workspaces db !! k.1)) (workspace_secrets db)
  ∧ Forall (λ e, is_Some (workspaces db !! EventWorkspaceID e)) (workspace_events db).

(** Every row of [workspaces] sits under its own id. *)
Definition rows_keyed (db : DB) : Prop :=
  map_Forall (λ id ws, ID ws = id) (workspaces db).

(** One call of a mutating method of the store, or the clock moving on. *)
Inductive Call : Type :=
  | CallCreateWorkspace (ws : Workspace)
  | CallUpdateWorkspace (ws : Workspace)
  | CallDeleteWorkspace (id : string)
  | CallSetSecret (secret : WorkspaceSecret)
  | CallDeleteSecrets (workspaceID : string)
  | CallLogEvent (event : WorkspaceEvent)
  | CallTick (t : Z).

(** The database after a call, and the id a successful [LogEvent] has
    written to [event.ID]. *)
Definition call (st : Store DB) (c : Call) (db : DB) : DB * option Z :=
  match c with
  | CallCreateWorkspace ws => ((CreateWorkspace st ws db).1.1, None)
  | CallUpdateWorkspace ws => ((UpdateWorkspace st ws db).1.1, None)
  | CallDeleteWorkspace id => ((DeleteWorkspace st id db).1, None)
  | CallSetSecret secret => ((SetSecret st secret db).1, None)
  | CallDeleteSecrets workspaceID => ((DeleteSecrets st workspaceID db).1, None)
  | CallLogEvent event =>
      let '(db', event', err) := LogEvent st event db in
      (db', match err with None => Some (EventID event') | Some _ => None end)
  | CallTick t => (advance t db, None)
  end.

(** A sequence of calls: the final database and the event ids handed out on
    the way, in order. *)
Fixpoint calls (st : Store DB) (cs : list Call) (db : DB) : DB * list Z :=
  match cs with
  | [] => (db, [])
  | c :: cs =>
      let '(db1, i) := call st c db in
      let '(db2, ids) := calls st cs db1 in
      (db2, option_list i ++ ids)
  end.

(** The events of one workspace, in insertion order. *)
Definition events_of (workspaceID : string) (db : DB) : list WorkspaceEvent :=
  filter (λ e, EventWorkspaceID e = workspaceID) (workspace_events db).

End registry_vocabulary.

Section registry_decisions.
Import store sqlite.

Global Instance references_ok_dec db : Decision (references_ok db).
Proof. unfold references_ok. apply _. Defined.

Global Instance rows_keyed_dec db : Decision (rows_keyed db).
Proof. unfold rows_keyed. apply _. Defined.

End registry_decisions.

Section handler_vocabulary.

(** A create request that the first generation's binding refuses: a body
    that does not decode, an empty name, or a name of more than 63 runes. *)
Definition refused1 (body : string + api.CreateWorkspaceRequest) : Prop :=
  match body with
  | inl _ => True
  | inr req =>
      api.Name req = ""%string ∨ (63 < utf8.RuneCountInString (api.Name req))%Z
  end.

(** A create request that the second generation's binding refuses: a body
    that does not decode, or an empty name. *)
Definition refused2 (body : string + api.CreateWorkspaceRequest) : Prop :=
  match body with
  | inl _ => True
  | inr req => api.Name req = ""%string
  end.

(** The status code of a reply. *)
Definition code_of {B} (r : Reply B) : option Z :=
  match r with
  | JSON code _ => Some code
  | Panic => None
  end.

(** A request for a workspace with the given name and nothing else. *)
Definition named (name : string) : api.CreateWorkspaceRequest :=
  api.mkRequest name "" "" "" "" "" "" "" "" "" "" [].

End handler_vocabulary.

Section isolation_vocabulary.
Import store sqlite.

(** The workspace a store call is about. *)
Definition about (id : string) (c : Call) : Prop :=
  match c with
  | CallCreateWorkspace ws => ID ws = id
  | CallUpdateWorkspace ws => ID ws = id
  | CallDeleteWorkspace i => i = id
  | CallSetSecret secret => SecretWorkspaceID secret = id
  | CallDeleteSecrets i => i = id
  | CallLogEvent event => EventWorkspaceID event = id
  | CallTick _ => False
  end.

(** Nothing of a workspace is left in the registry: no row, no secret and
    no event. *)
Definition no_trace (id : string) (db : DB) : Prop :=
  workspaces db !! id = None
  ∧ (∀ key, workspace_secrets db !! (id, key) = None)
  ∧ events_of id db = [].

(** The two databases hold the same rows, secrets and events of every
    workspace but [id], the events in the same order. *)
Definition elsewhere (id : string) (db db' : DB) : Prop :=
  (∀ other, other ≠ id → workspaces db' !! other = workspaces db !! other)
  ∧ (∀ other key, other ≠ id →
       workspace_secrets db' !! (other, key) = workspace_secrets db !! (other, key))
  ∧ filter (λ e, EventWorkspaceID e ≠ id) (workspace_events db')
    = filter (λ e, EventWorkspaceID e ≠ id) (workspace_events db).

End isolation_vocabulary.

Section keyed_vocabulary.
Import store sqlite.

(** The store reports a workspace under the id it was asked for. *)
Definition keyed (st : Store DB) (id : string) (db : DB) : Prop :=
  ∀ ws e, GetWorkspace st id db = (Some ws, e) → ID ws = id.

(** [CreateWorkspace] returns the struct under the id it was given. *)
Definition keyed_create (st : Store DB) (id : string) : Prop :=
  ∀ ws db, ID ws = id → ID (CreateWorkspace st ws db).1.2 = id.

End keyed_vocabulary.

Section restore_vocabulary.
Import store sqlite.

(** The three tables hold the same rows, secrets and events; the
    AUTOINCREMENT mark and the clock may have moved. *)
Definition same_tables (db db' : DB) : Prop :=
  workspaces db' = workspaces db
  ∧ workspace_secrets db' = workspace_secrets db
  ∧ workspace_events db' = workspace_events db.

(** The registry after a start or stop that has gone through: the row with
    its new status and update time, and one more event. *)
Definition transitioned (db : DB) (id : string) (ws : Workspace)
    (status : WorkspaceStatus) (eventType message : string) : DB :=
  mkDB (<[id := stamped (withStatus ws status) (CreatedAt ws) (clock db)]> (workspaces db))
       (workspaces_rowid db) (workspace_secrets db)
       (workspace_events db ++ [event_row db id eventType message])
       (sqlite_sequence db + 1) (clock db).

End restore_vocabulary.

Section name_vocabulary.

(** A byte of a DNS label as [sanitizeName] keeps them: a lower-case letter,
    a digit or a dash. *)
Definition label_byte (a : ascii) : bool :=
  let b := strconv.byte_of a in
  (((97 <=? b) && (b <=? 122)) || ((48 <=? b) && (b <=? 57)) || (b =? 45))%Z.

(** Every byte of the string passes the test. *)
Fixpoint all_bytes (p : ascii → bool) (s : string) : bool :=
  match s with
  | EmptyString => true
  | String a r => p a && all_bytes p r
  end.

End name_vocabulary.

Section event_id_vocabulary.
Import store sqlite.

(** What one call does to the events table and to the AUTOINCREMENT mark. *)
Definition ids_step (db db' : DB) (i : option Z) : Prop :=
  match i with
  | Some n =>
      n = (sqlite_sequence db + 1)%Z ∧ sqlite_sequence db' = n
      ∧ ∃ e, workspace_events db' = workspace_events db ++ [e] ∧ EventID e = n
  | None =>
      sqlite_sequence db' = sqlite_sequence db
      ∧ workspace_events db' `sublist_of` workspace_events db
  end.

End event_id_vocabulary.

Section helm_vocabulary.
Import store helm.

(** The keys of the three API secrets. *)
Definition api_key (key : string) : Prop :=
  key = "humanlayer_api_key"%string ∨ key = "anthropic_api_key"%string
  ∨ key = "openrouter_api_key"%string.

(** The secrets that can reach the values of a workspace: the three API
    keys, and [gh_token] when git is enabled. *)
Definition rendered (ws : Workspace) (secret : WorkspaceSecret) : Prop :=
  api_key (Key secret) ∨ (GitEnabled ws = true ∧ Key secret = "gh_token"%string).

Global Instance api_key_dec key : Decision (api_key key).
Proof. unfold api_key. apply _. Defined.

Global Instance rendered_dec ws secret : Decision (rendered ws secret).
Proof. unfold rendered. apply _. Defined.

(** A workspace struct with other values in the fields that name the image,
    the release, the namespace and the ingress host, and other timestamps. *)
Definition redecorated (ws : Workspace)
    (dockerImage dockerImageTag helmReleaseName namespace ingressHost : string)
    (createdAt updatedAt : Z) : Workspace :=
  mkWorkspace (ID ws) (Name ws) (Status ws) dockerImage dockerImageTag
    helmReleaseName namespace ingressHost
    (CPURequest ws) (MemoryRequest ws) (CPULimit ws) (MemoryLimit ws)
    (DataSize ws) (SrcSize ws) (GitEnabled ws) (GitUserName ws)
    (GitUserEmail ws) createdAt updatedAt.

(** The entry [state.<key>] of a values map, when [state] is a map. *)
Definition state_entry (values : Values) (key : string) : option Val :=
  match values !! "state"%string with
  | Some (VMap state) => state !! key
  | _ => None
  end.

End helm_vocabulary.

Import store.

(** * Properties *)

(** ** The registry's tables under the statements the handlers issue *)

Section registry.
Import sqlite.


Lemma low_workspaces db db' : low db = low db' → workspaces db = workspaces db'.
Proof. unfold low. congruence. Qed.

Lemma upsert_secret_low s db : low (upsert_secret s db).1 = low db.
Proof. unfold upsert_secret. by destruct (workspaces db !! _). Qed.


Lemma storeSecrets_low id kvs db :
  low (WorkspaceHandler.storeSecrets SQLiteStore1.impl id kvs db).1 = low db
  ∧ (WorkspaceHandler.storeSecrets SQLiteStore1.impl id kvs db).2 = request_secrets id kvs.
Proof.
  revert db. induction kvs as [|[k v] kvs IH]; intros db; [done|].
  cbn [WorkspaceHandler.storeSecrets SetSecret SQLiteStore1.impl].
  unfold SQLiteStore1.SetSecret.
  pose proof (upsert_secret_low (mkSecret id k v) db) as Hup.
  destruct (upsert_secret (mkSecret id k v) db) as [db1 e].
  destruct (IH db1) as [IH1 IH2].
  destruct (WorkspaceHandler.storeSecrets SQLiteStore1.impl id kvs db1) as [db2 secs].
  cbn [fst snd] in *. split; [congruence|]. by rewrite IH2.
Qed.

Lemma saveSecrets_low id kvs db :
  low (WorkspaceHandlers.saveSecrets SQLiteStore2.impl id kvs db).1 = low db
  ∧ (WorkspaceHandlers.saveSecrets SQLiteStore2.impl id kvs db).2 = request_secrets id kvs.
Proof.
  revert db. induction kvs as [|[k v] kvs IH]; intros db; [done|].
  cbn [WorkspaceHandlers.saveSecrets SetSecret SQLiteStore2.impl].
  unfold SQLiteStore2.SetSecret.
  pose proof (upsert_secret_low (mkSecret id k v) db) as Hup.
  destruct (upsert_secret (mkSecret id k v) db) as [db1 e].
  destruct (IH db1) as [IH1 IH2].
  destruct (WorkspaceHandlers.saveSecrets SQLiteStore2.impl id kvs db1) as [db2 secs].
  cbn [fst snd] in *. split; [congruence|]. by rewrite IH2.
Qed.

Lemma insert_event_workspaces e t db :
  workspaces (insert_event e t db).1.1 = workspaces db.
Proof. unfold insert_event. by destruct (workspaces db !! _). Qed.

Lemma LogEvent1_workspaces e db :
  workspaces (SQLiteStore1.LogEvent e db).1.1 = workspaces db.
Proof.
  unfold SQLiteStore1.LogEvent. pose proof (insert_event_workspaces e (clock db) db) as H.
  destruct (insert_event e (clock db) db) as [[db' i] [err|]]; done.
Qed.

Lemma LogEvent2_workspaces e db :
  workspaces (SQLiteStore2.LogEvent e db).1.1 = workspaces db.
Proof.
  unfold SQLiteStore2.LogEvent.
  match goal with |- context [insert_event ?e' ?t db] =>
    pose proof (insert_event_workspaces e' t db) as H;
    destruct (insert_event e' t db) as [[db' i] [err|]] end; done.
Qed.

End registry.

(** ** The sort behind [ORDER BY] *)

Section ordering.
Import sqlite.
Context {A : Type} (R : A → A → Prop) `{!∀ a b, Decision (R a b)}.

Lemma insert_by_Permutation x l : insert_by R x l ≡ₚ x :: l.
Proof.
  induction l as [|y l IH]; cbn; [done|].
  case_decide; [done|]. by rewrite IH, Permutation_swap.
Qed.

Lemma order_by_Permutation l : order_by R l ≡ₚ l.
Proof.
  induction l as [|x l IH]; cbn; [done|].
  fold (order_by R l). by rewrite insert_by_Permutation, IH.
Qed.

Lemma elem_of_order_by x l : x ∈ order_by R l ↔ x ∈ l.
Proof. by rewrite order_by_Permutation. Qed.

Lemma length_order_by l : length (order_by R l) = length l.
Proof. by rewrite order_by_Permutation. Qed.

Lemma StronglySorted_insert_by `{!Total R, !Transitive R} x l :
  StronglySorted R l → StronglySorted R (insert_by R x l).
Proof.
  induction 1 as [|y l Hl IH Hy]; cbn.
  - repeat constructor.
  - case_decide as Hxy.
    + constructor; [by constructor|]. constructor; [done|].
      eapply Forall_impl; [exact Hy|]. intros z Hz. by etrans.
    + constructor; [done|].
      rewrite (insert_by_Permutation x l). constructor; [|done].
      by destruct (total R x y).
Qed.

Lemma StronglySorted_order_by `{!Total R, !Transitive R} l :
  StronglySorted R (order_by R l).
Proof.
  induction l as [|x l IH]; cbn; [constructor|].
  by apply StronglySorted_insert_by.
Qed.

(** Rows that are in order already stay as they are: the sort is stable. *)
Lemma order_by_sorted l : StronglySorted R l → order_by R l = l.
Proof.
  induction 1 as [|x l Hl IH Hx]; cbn; [done|].
  fold (order_by R l). rewrite IH. destruct l as [|y l]; [done|]. cbn.
  rewrite decide_True; [done|]. by inversion Hx.
Qed.

End ordering.

(** ** The goroutine of [Create] and the request's context *)

Section goroutine.
Context {S A : Type}.

Lemma withContext_keeps (P : S → Prop) ctx (write : S → S * A * error) s :
  P s → P (write s).1.1 → P (WorkspaceHandler.withContext ctx write s).1.
Proof.
  intros Hs Hw. unfold WorkspaceHandler.withContext.
  destruct (context.Err ctx); [done|]. by destruct (write s) as [[s1 a] e].
Qed.

End goroutine.

Section goroutine_invariant.
Context {S C : Type}.

(** What both store calls of the goroutine keep, the goroutine keeps,
    however it meets the context. *)
Lemma deploy_keeps (st : Store S) (P : S → Prop) ctx (o : orchestrator.Orchestrator C)
    t s c :
  (∀ status s', P s' →
     P (UpdateWorkspace st (withStatus (WorkspaceHandler.task_ws t) status) s').1.1) →
  (∀ e s', EventWorkspaceID e = WorkspaceHandler.task_id t → P s' →
     P (LogEvent st e s').1.1) →
  P s → P (WorkspaceHandler.deploy st ctx o t s c).1.
Proof.
  intros Hup Hlog Hs. unfold WorkspaceHandler.deploy.
  destruct (orchestrator.DeployWorkspace o _ _ c) as [c1 [e|]];
    (match goal with |- context [WorkspaceHandler.withContext ctx ?w s] =>
       pose proof (withContext_keeps P ctx w s Hs (Hup _ _ Hs)) as H1;
       destruct (WorkspaceHandler.withContext ctx w s) as [s1 e1] end);
    cbn [fst] in H1;
    (match goal with |- context [WorkspaceHandler.withContext ?k ?w ?x] =>
       assert (P (WorkspaceHandler.withContext k w x).1) as H2
         by (apply withContext_keeps; [done|by apply Hlog]);
       destruct (WorkspaceHandler.withContext k w x) as [s2 e2] end);
    done.
Qed.

End goroutine_invariant.

(** ** C7: what [UpdateWorkspace] leaves alone *)

Section update_frame.
Import sqlite.

(** C7 as stated fails on the second [SQLiteStore]: its [UPDATE] writes the
    helm release name and the namespace of the struct it is given. *)
Lemma C7_counterexample :
  let db := (SQLiteStore2.CreateWorkspace
               (demo_workspace "w1" "hld-w1" "workspace-w1") sqlite.empty).1.1 in
  let db' := (SQLiteStore2.UpdateWorkspace
                (demo_workspace "w1" "moved" "elsewhere") db).1.1 in
  HelmReleaseName <$> workspaces db !! "w1" = Some "hld-w1"%string
  ∧ Namespace <$> workspaces db !! "w1" = Some "workspace-w1"%string
  ∧ HelmReleaseName <$> workspaces db' !! "w1" = Some "moved"%string
  ∧ Namespace <$> workspaces db' !! "w1" = Some "elsewhere"%string.
Proof. by vm_compute. Qed.

(** C7 (as amended).  [UpdateWorkspace] of the first [SQLiteStore] returns no
    error, leaves the id, the helm release name, the namespace and the
    creation time of every row unchanged, touches no row but the one of the
    given id, and sets there the given status and the current time as
    updated-at.  [UpdateWorkspace] of the second [SQLiteStore] does the same
    for id and creation time, but replaces the helm release name and the
    namespace of that row by those of the struct it is given. *)
Theorem C7_update_frame (ws : Workspace) (db : DB) :
  (let '(db', _, err) := SQLiteStore1.UpdateWorkspace ws db in
   err = None
   ∧ (∀ id,
        ID <$> workspaces db' !! id = ID <$> workspaces db !! id
        ∧ HelmReleaseName <$> workspaces db' !! id = HelmReleaseName <$> workspaces db !! id
        ∧ Namespace <$> workspaces db' !! id = Namespace <$> workspaces db !! id
        ∧ CreatedAt <$> workspaces db' !! id = CreatedAt <$> workspaces db !! id)
   ∧ delete (ID ws) (workspaces db') = delete (ID ws) (workspaces db)
   ∧ Status <$> workspaces db' !! ID ws = (λ _, Status ws) <$> workspaces db !! ID ws
   ∧ UpdatedAt <$> workspaces db' !! ID ws = (λ _, clock db) <$> workspaces db !! ID ws)
  ∧
  (let '(db', _, err) := SQLiteStore2.UpdateWorkspace ws db in
   err = None
   ∧ (∀ id,
        ID <$> workspaces db' !! id = ID <$> workspaces db !! id
        ∧ CreatedAt <$> workspaces db' !! id = CreatedAt <$> workspaces db !! id)
   ∧ delete (ID ws) (workspaces db') = delete (ID ws) (workspaces db)
   ∧ HelmReleaseName <$> workspaces db' !! ID ws
     = (λ _, HelmReleaseName ws) <$> workspaces db !! ID ws
   ∧ Namespace <$> workspaces db' !! ID ws = (λ _, Namespace ws) <$> workspaces db !! ID ws
   ∧ Status <$> workspaces db' !! ID ws = (λ _, Status ws) <$> workspaces db !! ID ws
   ∧ UpdatedAt <$> workspaces db' !! ID ws = (λ _, clock db) <$> workspaces db !! ID ws).
Proof.
  split.
  - unfold SQLiteStore1.UpdateWorkspace.
    destruct (workspaces db !! ID ws) as [row|] eqn:E; cbn [workspaces with_workspaces].
    + split_and!; [done| |by rewrite delete_insert_eq|by rewrite lookup_insert_eq..].
      intros id. destruct (decide (ID ws = id)) as [<-|Hne];
        [rewrite lookup_insert_eq, E | rewrite lookup_insert_ne by done]; done.
    + rewrite E. done.
  - unfold SQLiteStore2.UpdateWorkspace.
    destruct (workspaces db !! ID ws) as [row|] eqn:E; cbn [workspaces with_workspaces].
    + split_and!; [done| |by rewrite delete_insert_eq|by rewrite lookup_insert_eq..].
      intros id. destruct (decide (ID ws = id)) as [<-|Hne];
        [rewrite lookup_insert_eq, E | rewrite lookup_insert_ne by done]; done.
    + rewrite E. done.
Qed.

End update_frame.

(** ** C4: the limit of the events listing *)

Section events_limit.
Import sqlite.

Lemma length_sql_limit {A} (limit : Z) (l : list A) :
  ((0 ≤ limit)%Z → Z.of_nat (length (sql_limit limit l)) = Z.min limit (Z.of_nat (length l)))
  ∧ ((limit < 0)%Z → sql_limit limit l = l).
Proof.
  unfold sql_limit. destruct (Z.ltb_spec limit 0) as [Hlt|Hge]; split; intros Hl; try lia; try done.
  rewrite length_take. lia.
Qed.

(** C4 as stated fails at [limit=101]: the first generation reads with 50, the
    second with 101, neither with 100; with 120 events stored, the first
    answers 50 of them and the second 101. *)
Lemma C4_counterexample :
  let ws := demo_workspace "a1b2c3d4" "" "" in
  let db1 :=
    (calls SQLiteStore1.impl
       (CallCreateWorkspace ws
        :: replicate 120 (CallLogEvent (mkEvent 0 "a1b2c3d4" "started" "" "" 0))) empty).1 in
  let db2 :=
    (calls SQLiteStore2.impl
       (CallCreateWorkspace ws
        :: replicate 120 (CallLogEvent (mkEvent 0 "a1b2c3d4" "started" "" "" 0))) empty).1 in
  strconv.Atoi "101" = Some 101%Z
  ∧ WorkspaceHandler.parseLimit "101" = 50%Z
  ∧ WorkspaceHandler.parseLimit "101" ≠ 100%Z
  ∧ WorkspaceHandlers.parseLimit "101" = 101%Z
  ∧ WorkspaceHandlers.parseLimit "101" ≠ 100%Z
  ∧ (∃ events,
       WorkspaceHandler.Events SQLiteStore1.impl "a1b2c3d4" "101" db1
       = JSON http.StatusOK (api.EventListResponse events None)
       ∧ length events = 50)
  ∧ (∃ events,
       WorkspaceHandlers.GetEvents SQLiteStore2.impl "a1b2c3d4" "101" db2
       = JSON http.StatusOK (api.EventListResponse events None)
       ∧ length events = 101).
Proof.
  intros ws db1 db2. split_and!; try by vm_compute.
  - destruct (WorkspaceHandler.Events _ _ _ db1) as [code body|] eqn:E;
      vm_compute in E; [|discriminate].
    injection E as <- <-. eexists. split; [reflexivity|]. vm_compute. reflexivity.
  - destruct (WorkspaceHandlers.GetEvents _ _ _ db2) as [code body|] eqn:E;
      vm_compute in E; [|discriminate].
    injection E as <- <-. eexists. split; [reflexivity|]. vm_compute. reflexivity.
Qed.

(** C4 (as amended).  [WorkspaceHandler.Events] reads the events with a limit
    between 1 and 100 whatever the [limit] parameter is: with the number of
    the parameter when that is in 1..100, and with the default 50 when the
    parameter is no number, a number below 1 or a number above 100; it does
    not clamp to 100.  [WorkspaceHandlers.GetEvents] reads with whatever
    number [Sscanf] stores, without an upper bound, and with 50 when [Sscanf]
    stores none.  [GetEvents] of either [SQLiteStore] does not clamp: for a
    limit that is not negative it returns that many events when the workspace
    has as many, and for a negative limit all of them. *)
Theorem C4_events_limit :
  (∀ limitStr : string,
     (1 ≤ WorkspaceHandler.parseLimit limitStr ≤ 100)%Z)
  ∧ (∀ (limitStr : string) (l : Z),
       strconv.Atoi limitStr = Some l → (100 < l)%Z →
       WorkspaceHandler.parseLimit limitStr = 50%Z)
  ∧ (∀ (limitStr : string) (l : Z),
       strconv.Atoi limitStr = Some l → (l ≤ 0)%Z →
       WorkspaceHandler.parseLimit limitStr = 50%Z)
  ∧ (∀ limitStr : string,
       strconv.Atoi limitStr = None → WorkspaceHandler.parseLimit limitStr = 50%Z)
  ∧ (∀ (limitStr : string) (l : Z),
       strconv.Atoi limitStr = Some l → (1 ≤ l ≤ 100)%Z →
       WorkspaceHandler.parseLimit limitStr = l)
  ∧ (∀ S (st : Store S) (id limitStr : string) (s : S) ws,
       GetWorkspace st id s = (ws, None) →
       WorkspaceHandler.Events st id limitStr s =
       match GetEvents st id (WorkspaceHandler.parseLimit limitStr) s with
       | (events, None) => JSON http.StatusOK (api.EventListResponse events None)
       | (_, Some _) =>
           JSON http.StatusInternalServerError (api.ErrorResponse "Failed to get events")
       end)
  ∧ (∀ (l : string) (n : Z),
       fmt.Sscanf_d l = Some n → WorkspaceHandlers.parseLimit l = n)
  ∧ (∀ l : string,
       fmt.Sscanf_d l = None → WorkspaceHandlers.parseLimit l = 50%Z)
  ∧ (∀ S (st : Store S) (id l : string) (s : S),
       WorkspaceHandlers.GetEvents st id l s =
       match GetEvents st id (WorkspaceHandlers.parseLimit l) s with
       | (events, None) => JSON http.StatusOK (api.EventListResponse events None)
       | (_, Some e) =>
           JSON http.StatusInternalServerError (api.EventListResponse [] (Some e))
       end)
  ∧ (∀ (st : Store DB) (id : string) (limit : Z) (db : DB),
       st = SQLiteStore1.impl ∨ st = SQLiteStore2.impl →
       ∃ events,
         GetEvents st id limit db = (events, None)
         ∧ ((0 ≤ limit)%Z →
            Z.of_nat (length events) = Z.min limit (Z.of_nat (length (events_of id db))))
         ∧ ((limit < 0)%Z → length events = length (events_of id db))).
Proof.
  split_and!.
  - intros limitStr. unfold WorkspaceHandler.parseLimit. case_decide; [lia|].
    destruct (strconv.Atoi limitStr) as [l|]; [|lia].
    destruct (0 <? l)%Z eqn:E1; destruct (l <=? 100)%Z eqn:E2; simpl; lia.
  - intros l n Hn Hl. unfold WorkspaceHandler.parseLimit.
    case_decide; [by subst|]. rewrite Hn.
    destruct (0 <? n)%Z eqn:E1; destruct (n <=? 100)%Z eqn:E2; simpl; try done; lia.
  - intros l n Hn Hl. unfold WorkspaceHandler.parseLimit.
    case_decide; [by subst|]. rewrite Hn.
    destruct (0 <? n)%Z eqn:E1; destruct (n <=? 100)%Z eqn:E2; simpl; try done; lia.
  - intros l Hn. unfold WorkspaceHandler.parseLimit.
    case_decide; [done|]. by rewrite Hn.
  - intros l n Hn Hl. unfold WorkspaceHandler.parseLimit.
    case_decide; [by subst|]. rewrite Hn.
    destruct (0 <? n)%Z eqn:E1; destruct (n <=? 100)%Z eqn:E2; simpl; try done; lia.
  - intros S st id limitStr s ws H. unfold WorkspaceHandler.Events. rewrite H.
    destruct (GetEvents st id _ s) as [events [e|]]; [done|].
    unfold WorkspaceHandler.eventToDTO. by rewrite list_fmap_id.
  - intros l n H. unfold WorkspaceHandlers.parseLimit.
    case_decide; [by subst|]. by rewrite H.
  - intros l H. unfold WorkspaceHandlers.parseLimit.
    case_decide; [done|]. by rewrite H.
  - intros S st id l s. unfold WorkspaceHandlers.GetEvents.
    by destruct (GetEvents st id _ s) as [events [e|]].
  - intros st id limit db Hst. exists (select_events id limit db).
    split; [by destruct Hst as [-> | ->]|].
    unfold select_events. fold (events_of id db).
    destruct (length_sql_limit limit (order_by newer_event (events_of id db))) as [Hpos Hneg].
    rewrite length_order_by in Hpos. split; [done|].
    intros Hlt. by rewrite (Hneg Hlt), length_order_by.
Qed.

(** C4 at [limit=250], at [limit=0], at [limit=abc] and at a limit of 7 after
    a no-break space, and for 101 events asked of the second [SQLiteStore]. *)
Lemma C4_events_limit_witness :
  WorkspaceHandler.parseLimit "250" = 50%Z
  ∧ WorkspaceHandler.parseLimit "0" = 50%Z
  ∧ WorkspaceHandler.parseLimit "abc" = 50%Z
  ∧ WorkspaceHandlers.parseLimit "250" = 250%Z
  ∧ WorkspaceHandlers.parseLimit (String "194" (String "160" "7")) = 7%Z
  ∧ WorkspaceHandlers.parseLimit "abc" = 50%Z
  ∧ ∃ events,
      SQLiteStore2.GetEvents "a1b2c3d4" 101 empty = (events, None)
      ∧ Z.of_nat (length events)
        = Z.min 101 (Z.of_nat (length (events_of "a1b2c3d4" empty))).
Proof.
  destruct C4_events_limit as (_ & H1 & H2 & H3 & _ & _ & H4 & H5 & _ & H6).
  split_and!.
  - apply (H1 "250"%string 250%Z); [reflexivity | lia].
  - apply (H2 "0"%string 0%Z); [reflexivity | lia].
  - apply (H3 "abc"%string). reflexivity.
  - apply (H4 "250"%string 250%Z). reflexivity.
  - apply (H4 (String "194" (String "160" "7")) 7%Z). reflexivity.
  - apply (H5 "abc"%string). reflexivity.
  - destruct (H6 SQLiteStore2.impl "a1b2c3d4"%string 101%Z empty) as (events & Hg & Hlen & _);
      [by right|].
    exists events. split; [exact Hg|]. apply Hlen. lia.
Defined.

End events_limit.

(** ** C5 *)

Section creation.
Import sqlite.




Lemma Create1_row C (orch : option (orchestrator.Orchestrator C)) id req db :
  WorkspaceHandler.ShouldBindJSON (inr req) = inl req →
  workspaces db !! id = None →
  let '(db', reply, task) := WorkspaceHandler.Create SQLiteStore1.impl orch id (inr req) db in
  let row := stamped (WorkspaceHandler.newWorkspace id req) (clock db) (clock db) in
  workspaces db' = <[id := row]> (workspaces db)
  ∧ reply = JSON http.StatusCreated
              (api.WorkspaceResponse (Some (WorkspaceHandler.workspaceToDTO row)) None)
  ∧ task = (λ _, WorkspaceHandler.mkTask id (WorkspaceHandler.newWorkspace id req)
                   (request_secrets id (api.Secrets req))) <$> orch.
Proof.
  intros Hbind Hfresh. unfold WorkspaceHandler.Create. rewrite Hbind.
  cbn [CreateWorkspace SQLiteStore1.impl LogEvent GetWorkspace].
  unfold SQLiteStore1.CreateWorkspace, insert_workspace.
  cbn [ID WorkspaceHandler.newWorkspace]. rewrite Hfresh.
  match goal with |- context [WorkspaceHandler.storeSecrets _ id ?kvs ?d] =>
    destruct (storeSecrets_low id kvs d) as [Hlow Hsecs];
    destruct (WorkspaceHandler.storeSecrets SQLiteStore1.impl id kvs d) as [db2 secs] end.
  apply low_workspaces in Hlow. cbn [fst snd workspaces with_workspaces] in Hlow, Hsecs.
  match goal with |- context [SQLiteStore1.LogEvent ?e db2] =>
    pose proof (LogEvent1_workspaces e db2) as Hev;
    destruct (SQLiteStore1.LogEvent e db2) as [[db3 ev] err] end.
  cbn [fst] in Hev. unfold SQLiteStore1.GetWorkspace.
  rewrite Hev, Hlow, lookup_insert_eq. subst secs.
  split_and!; [by rewrite Hev, Hlow | reflexivity | by destruct orch].
Qed.


Lemma LogEvent1_spec db id eventType message :
  is_Some (workspaces db !! id) →
  SQLiteStore1.LogEvent (mkEvent 0 id eventType message "" 0) db
  = (mkDB (workspaces db) (workspaces_rowid db) (workspace_secrets db)
          (workspace_events db ++ [event_row db id eventType message])
          (sqlite_sequence db + 1) (clock db),
     event_row db id eventType message, None).
Proof.
  intros [row Hrow]. unfold SQLiteStore1.LogEvent, insert_event. cbn [EventWorkspaceID].
  by rewrite Hrow.
Qed.

Lemma LogEvent2_spec db id eventType message :
  is_Some (workspaces db !! id) →
  SQLiteStore2.LogEvent (mkEvent 0 id eventType message "" 0) db
  = (mkDB (workspaces db) (workspaces_rowid db) (workspace_secrets db)
          (workspace_events db ++ [event_row db id eventType message])
          (sqlite_sequence db + 1) (clock db),
     event_row db id eventType message, None).
Proof.
  intros [row Hrow]. unfold SQLiteStore2.LogEvent, insert_event. cbn [EventWorkspaceID].
  by rewrite Hrow.
Qed.

Lemma low_inv db w r e q k :
  low db = (w, r, e, q, k) → db = mkDB w r (workspace_secrets db) e q k.
Proof. destruct db. unfold low. simpl. congruence. Qed.

Lemma Create2_result C (orch : orchestrator.Orchestrator C) id req db c :
  WorkspaceHandlers.ShouldBindJSON (inr req) = inl req →
  workspaces db !! id = None →
  let ws := stamped (WorkspaceHandlers.newWorkspace id req) (clock db) (clock db) in
  let '(c1, derr) :=
    orchestrator.DeployWorkspace orch ws (request_secrets id (api.Secrets req)) c in
  let '(db', c', reply) :=
    WorkspaceHandlers.CreateWorkspace SQLiteStore2.impl orch id (inr req) db c in
  let status := match derr with Some _ => StatusError | None => StatusRunning end in
  c' = c1
  ∧ workspaces db' = <[id := withStatus ws status]> (workspaces db)
  ∧ workspace_events db' =
      workspace_events db ++
      [mkEvent (sqlite_sequence db + 1) id "created"
         ("Workspace " +:+ api.Name req +:+ " created") "" (clock db);
       match derr with
       | Some e => mkEvent (sqlite_sequence db + 2) id "error"
                     ("Deployment failed: " +:+ e) "" (clock db)
       | None => mkEvent (sqlite_sequence db + 2) id "deployed"
                   "Helm release installed" "" (clock db)
       end]
  ∧ reply =
      match derr with
      | Some e => JSON http.StatusInternalServerError
                    (api.WorkspaceResponse None (Some ("deployment failed: " +:+ e)))
      | None => JSON http.StatusCreated
                  (api.WorkspaceResponse (Some (api.ToDTO (withStatus ws StatusRunning))) None)
      end.
Proof.
  intros Hbind Hfresh ws.
  destruct (orchestrator.DeployWorkspace orch ws _ c) as [c1 derr] eqn:Hdep.
  unfold WorkspaceHandlers.CreateWorkspace. rewrite Hbind.
  cbn [CreateWorkspace SQLiteStore2.impl LogEvent UpdateWorkspace].
  unfold SQLiteStore2.CreateWorkspace, insert_workspace.
  cbn [ID Status WorkspaceHandlers.newWorkspace]. rewrite Hfresh.
  rewrite decide_False by done.
  match goal with |- context [WorkspaceHandlers.saveSecrets _ id ?kvs ?d] =>
    destruct (saveSecrets_low id kvs d) as [Hlow Hsecs];
    destruct (WorkspaceHandlers.saveSecrets SQLiteStore2.impl id kvs d) as [db2 secs] end.
  cbn [fst snd] in Hlow, Hsecs. subst secs.
  apply low_inv in Hlow. cbn [workspaces with_workspaces workspace_events sqlite_sequence clock] in Hlow.
  rewrite Hlow. clear Hlow.
  rewrite LogEvent2_spec by (cbn [workspaces]; rewrite lookup_insert_eq; eauto).
  cbn [workspaces workspace_secrets workspace_events sqlite_sequence clock Name].
  change (mkWorkspace id _ _ _ _ _ _ _ _ _ _ _ _ _ _ _ _ (clock db) (clock db)) with ws.
  rewrite Hdep.
  destruct derr as [e|].
  - unfold SQLiteStore2.UpdateWorkspace.
    cbn [ID withStatus workspaces ws stamped WorkspaceHandlers.newWorkspace].
    rewrite lookup_insert_eq.
    rewrite LogEvent2_spec
      by (cbn [workspaces with_workspaces]; rewrite lookup_insert_eq; eauto).
    unfold event_row. simpl.
    rewrite insert_insert_eq, <- app_assoc.
    replace (sqlite_sequence db + 1 + 1)%Z with (sqlite_sequence db + 2)%Z by lia.
    split_and!; reflexivity.
  - unfold SQLiteStore2.UpdateWorkspace.
    cbn [ID withStatus workspaces ws stamped WorkspaceHandlers.newWorkspace].
    rewrite lookup_insert_eq.
    rewrite LogEvent2_spec
      by (cbn [workspaces with_workspaces]; rewrite lookup_insert_eq; eauto).
    unfold event_row. simpl.
    rewrite insert_insert_eq, <- app_assoc.
    replace (sqlite_sequence db + 1 + 1)%Z with (sqlite_sequence db + 2)%Z by lia.
    split_and!; reflexivity.
Qed.



End creation.

(** ** C3 and C8: Start and Stop *)

Section start_stop.
Context {S C : Type}.
Variable st : Store S.

(** C3 as stated fails on [WorkspaceHandler]: [Start] on a running workspace
    and [Stop] on a stopped one are answered with 400. *)
Lemma C3_counterexample :
  let orch := Some (doubles.MockOrchestrator None) in
  let started :=
    Daemon1.run orch [ReqCreate "a1b2c3d4" (inr (bare "" "" [])); ReqStart "a1b2c3d4"]
      (Daemon1.init tt) in
  let stopped := Daemon1.run orch [ReqStop "a1b2c3d4"] started in
  (* running, and [Start] is refused *)
  Status <$> sqlite.workspaces (Daemon1.db started) !! "a1b2c3d4" = Some StatusRunning
  ∧ (Daemon1.step orch (ReqStart "a1b2c3d4") started).2
    = Some (JSON http.StatusBadRequest (api.ErrorResponse "Workspace is already running"))
  (* stopped, and [Stop] is refused *)
  ∧ Status <$> sqlite.workspaces (Daemon1.db stopped) !! "a1b2c3d4" = Some StatusStopped
  ∧ (Daemon1.step orch (ReqStop "a1b2c3d4") stopped).2
    = Some (JSON http.StatusBadRequest (api.ErrorResponse "Workspace is already stopped")).
Proof. by vm_compute. Qed.

(** C3 (as amended).  [WorkspaceHandler.Stop] on a workspace whose declared
    status is already stopped, and [WorkspaceHandler.Start] on one already
    running, are refused with 400 before the orchestrator is asked and leave
    registry and cluster as they are.  [WorkspaceHandlers.StopWorkspace] and
    [StartWorkspace] do not look at the declared status and answer 200
    whenever the orchestrator call succeeds. *)
Theorem C3_repeated_start_stop :
  (* [WorkspaceHandler]: refused before the orchestrator is asked *)
  (∀ (orch : option (orchestrator.Orchestrator C)) (id : string) (s : S) (c : C) ws,
     GetWorkspace st id s = (Some ws, None) →
     (Status ws = StatusStopped →
      WorkspaceHandler.Stop st orch id s c
      = (s, c, JSON http.StatusBadRequest (api.ErrorResponse "Workspace is already stopped")))
     ∧ (Status ws = StatusRunning →
        WorkspaceHandler.Start st orch id s c
        = (s, c, JSON http.StatusBadRequest (api.ErrorResponse "Workspace is already running"))))
  (* [WorkspaceHandlers]: success when the orchestrator succeeds *)
  ∧ (∀ (orch : orchestrator.Orchestrator C) (id : string) (s : S) (c : C) ws,
       GetWorkspace st id s = (Some ws, None) →
       ((orchestrator.StopWorkspace orch ws c).2 = None →
        ∃ s' dto,
          WorkspaceHandlers.StopWorkspace st orch id s c
          = (s', (orchestrator.StopWorkspace orch ws c).1,
             JSON http.StatusOK (api.WorkspaceResponse (Some dto) None)))
       ∧ ((orchestrator.StartWorkspace orch ws c).2 = None →
          ∃ s' dto,
            WorkspaceHandlers.StartWorkspace st orch id s c
            = (s', (orchestrator.StartWorkspace orch ws c).1,
               JSON http.StatusOK (api.WorkspaceResponse (Some dto) None)))).
Proof.
  split.
  - intros orch id s c ws Hget. split; intros Hst.
    + unfold WorkspaceHandler.Stop. rewrite Hget. by rewrite decide_True.
    + unfold WorkspaceHandler.Start. rewrite Hget. by rewrite decide_True.
  - intros orch id s c ws Hget. split; intros Hok.
    + unfold WorkspaceHandlers.StopWorkspace, WorkspaceHandlers.transition. rewrite Hget.
      destruct (orchestrator.StopWorkspace orch ws c) as [c1 oerr]. simpl in Hok. subst oerr.
      destruct (UpdateWorkspace st _ s) as [[s1 ws1] e1].
      destruct (LogEvent st _ s1) as [[s2 ev] e2]. simpl. eauto.
    + unfold WorkspaceHandlers.StartWorkspace, WorkspaceHandlers.transition. rewrite Hget.
      destruct (orchestrator.StartWorkspace orch ws c) as [c1 oerr]. simpl in Hok. subst oerr.
      destruct (UpdateWorkspace st _ s) as [[s1 ws1] e1].
      destruct (LogEvent st _ s1) as [[s2 ev] e2]. simpl. eauto.
Qed.

(** C8.  When the orchestrator call of a Start or Stop request returns an
    error, the handler of either generation leaves the registry as it is (so
    the declared status is unchanged) and answers 500.  In [WorkspaceHandler]
    the call is made when the declared status is not already the requested
    one. *)
Theorem C8_orchestrator_error_keeps_status :
  (∀ (o : orchestrator.Orchestrator C) (id : string) (s : S) (c : C) ws e,
     GetWorkspace st id s = (Some ws, None) →
     (Status ws ≠ StatusRunning →
      (orchestrator.StartWorkspace o ws c).2 = Some e →
      WorkspaceHandler.Start st (Some o) id s c
      = (s, (orchestrator.StartWorkspace o ws c).1,
         JSON http.StatusInternalServerError (api.ErrorResponse "Failed to start workspace")))
     ∧ (Status ws ≠ StatusStopped →
        (orchestrator.StopWorkspace o ws c).2 = Some e →
        WorkspaceHandler.Stop st (Some o) id s c
        = (s, (orchestrator.StopWorkspace o ws c).1,
           JSON http.StatusInternalServerError (api.ErrorResponse "Failed to stop workspace"))))
  ∧ (∀ (o : orchestrator.Orchestrator C) (id : string) (s : S) (c : C) ws e,
       GetWorkspace st id s = (Some ws, None) →
       ((orchestrator.StartWorkspace o ws c).2 = Some e →
        WorkspaceHandlers.StartWorkspace st o id s c
        = (s, (orchestrator.StartWorkspace o ws c).1,
           JSON http.StatusInternalServerError
             (api.WorkspaceResponse None (Some ("failed to start: " +:+ e)))))
       ∧ ((orchestrator.StopWorkspace o ws c).2 = Some e →
          WorkspaceHandlers.StopWorkspace st o id s c
          = (s, (orchestrator.StopWorkspace o ws c).1,
             JSON http.StatusInternalServerError
               (api.WorkspaceResponse None (Some ("failed to stop: " +:+ e)))))).
Proof.
  split; intros o id s c ws e Hget; split.
  - intros Hst Herr. unfold WorkspaceHandler.Start. rewrite Hget, decide_False by done.
    destruct (orchestrator.StartWorkspace o ws c) as [c1 oerr]. simpl in *. by subst.
  - intros Hst Herr. unfold WorkspaceHandler.Stop. rewrite Hget, decide_False by done.
    destruct (orchestrator.StopWorkspace o ws c) as [c1 oerr]. simpl in *. by subst.
  - intros Herr. unfold WorkspaceHandlers.StartWorkspace. rewrite Hget.
    destruct (orchestrator.StartWorkspace o ws c) as [c1 oerr]. simpl in *. by subst.
  - intros Herr. unfold WorkspaceHandlers.StopWorkspace. rewrite Hget.
    destruct (orchestrator.StopWorkspace o ws c) as [c1 oerr]. simpl in *. by subst.
Qed.

End start_stop.

(** C3 for a second [Stop] after a create and a first [Stop]. *)
Lemma C3_repeated_start_stop_witness :
  let orch := Some (doubles.MockOrchestrator None) in
  let stopped :=
    Daemon1.db (Daemon1.run orch
                  [ReqCreate "a1b2c3d4" (inr (bare "" "" [])); ReqStop "a1b2c3d4"]
                  (Daemon1.init tt)) in
  WorkspaceHandler.Stop SQLiteStore1.impl orch "a1b2c3d4" stopped tt
  = (stopped, tt,
     JSON http.StatusBadRequest (api.ErrorResponse "Workspace is already stopped")).
Proof.
  intros orch stopped.
  edestruct (proj1 (C3_repeated_start_stop SQLiteStore1.impl)
               orch "a1b2c3d4"%string stopped tt) as [Hstop _].
  - vm_compute. reflexivity.
  - apply Hstop. reflexivity.
Defined.

(** C8 for a [Start] whose orchestrator call fails with [connection refused]. *)
Lemma C8_orchestrator_error_keeps_status_witness :
  let o := doubles.FaultyOrchestrator None None (Some "connection refused"%string) None in
  let db :=
    Daemon2.db (Daemon2.run o [ReqCreate "a1b2c3d4" (inr (bare "" "" []))] (Daemon2.init tt)) in
  WorkspaceHandlers.StartWorkspace SQLiteStore2.impl o "a1b2c3d4" db tt
  = (db, tt,
     JSON http.StatusInternalServerError
       (api.WorkspaceResponse None (Some "failed to start: connection refused"%string))).
Proof.
  intros o db.
  edestruct (proj2 (C8_orchestrator_error_keeps_status SQLiteStore2.impl)
               o "a1b2c3d4"%string db tt) as [Hstart _].
  - vm_compute. reflexivity.
  - apply Hstart. reflexivity.
Defined.

(** ** C9: a nil workspace without an error *)

(** C9 as stated fails: [WorkspaceHandler.Get] dereferences a nil workspace
    that comes without an error, and [WorkspaceHandlers.GetWorkspace] answers
    an explicit not-found error with 500, not as it answers nil. *)
Lemma C9_counterexample :
  (* [MockStore] answers [nil, nil] for an unknown id, and [WorkspaceHandler.Get]
     dereferences the nil workspace *)
  GetWorkspace MockStore.impl "nonexistent" MockStore.NewMockStore = (None, None)
  ∧ WorkspaceHandler.Get MockStore.impl (Some (doubles.MockOrchestrator None))
      "nonexistent" MockStore.NewMockStore tt = Panic
  (* [WorkspaceHandlers.GetWorkspace] answers 404 to [nil, nil] and 500 to the
     explicit not-found error of the first [SQLiteStore] *)
  ∧ WorkspaceHandlers.GetWorkspace MockStore.impl (doubles.MockOrchestrator None)
      "nonexistent" MockStore.NewMockStore tt
    = JSON http.StatusNotFound
        (api.WorkspaceResponse None (Some "workspace not found: nonexistent"%string))
  ∧ WorkspaceHandlers.GetWorkspace SQLiteStore1.impl (doubles.MockOrchestrator None)
      "nonexistent" sqlite.empty tt
    = JSON http.StatusInternalServerError
        (api.WorkspaceResponse None (Some "workspace not found: nonexistent"%string)).
Proof. by vm_compute. Qed.

(** C9 (as amended).  [WorkspaceHandlers.GetWorkspace] answers 404 when the
    registry returns nil without an error, answers 500 when the registry
    returns an error, and never dereferences nil.  [WorkspaceHandler.Get]
    answers 404 to every registry error; over its own registry, which reports
    a missing workspace as an error and never as nil without error, it never
    dereferences nil and answers 404 exactly for the ids that are not
    stored. *)
Theorem C9_nil_workspace :
  (* [WorkspaceHandlers.GetWorkspace] over any store *)
  (∀ S C (st : Store S) (orch : orchestrator.Orchestrator C) (id : string) (s : S) (c : C),
     (GetWorkspace st id s = (None, None) →
      WorkspaceHandlers.GetWorkspace st orch id s c
      = JSON http.StatusNotFound
          (api.WorkspaceResponse None (Some ("workspace not found: " +:+ id))))
     ∧ (∀ ws e, GetWorkspace st id s = (ws, Some e) →
        WorkspaceHandlers.GetWorkspace st orch id s c
        = JSON http.StatusInternalServerError (api.WorkspaceResponse None (Some e)))
     ∧ WorkspaceHandlers.GetWorkspace st orch id s c ≠ Panic)
  (* [WorkspaceHandler.Get] over any store, and over its own store *)
  ∧ (∀ S C (st : Store S) (orch : option (orchestrator.Orchestrator C))
       (id : string) (s : S) (c : C) ws e,
       GetWorkspace st id s = (ws, Some e) →
       WorkspaceHandler.Get st orch id s c
       = JSON http.StatusNotFound (api.ErrorResponse "Workspace not found"))
  ∧ (∀ C (orch : option (orchestrator.Orchestrator C)) (id : string) (db : sqlite.DB) (c : C),
       GetWorkspace SQLiteStore1.impl id db ≠ (None, None)
       ∧ WorkspaceHandler.Get SQLiteStore1.impl orch id db c ≠ Panic
       ∧ (sqlite.workspaces db !! id = None ↔
          WorkspaceHandler.Get SQLiteStore1.impl orch id db c
          = JSON http.StatusNotFound (api.ErrorResponse "Workspace not found"))).
Proof.
  split_and!.
  - intros S C st orch id s c. split_and!.
    + intros H. unfold WorkspaceHandlers.GetWorkspace. by rewrite H.
    + intros ws e H. unfold WorkspaceHandlers.GetWorkspace. by rewrite H.
    + unfold WorkspaceHandlers.GetWorkspace.
      destruct (GetWorkspace st id s) as [[ws|] [e|]]; try done.
      by destruct (orchestrator.GetWorkspaceStatus orch ws c).
  - intros S C st orch id s c ws e H. unfold WorkspaceHandler.Get. by rewrite H.
  - intros C orch id db c.
    unfold WorkspaceHandler.Get. cbn [GetWorkspace SQLiteStore1.impl].
    unfold SQLiteStore1.GetWorkspace.
    destruct (sqlite.workspaces db !! id) as [row|]; split_and!; done.
Qed.

(** C9 for an unknown id on the empty second registry. *)
Lemma C9_nil_workspace_witness :
  WorkspaceHandlers.GetWorkspace SQLiteStore2.impl (doubles.MockOrchestrator None)
    "nonexistent" sqlite.empty tt
  = JSON http.StatusNotFound
      (api.WorkspaceResponse None (Some ("workspace not found: " +:+ "nonexistent"))).
Proof.
  apply (proj1 C9_nil_workspace sqlite.DB unit SQLiteStore2.impl
           (doubles.MockOrchestrator None) "nonexistent"%string sqlite.empty tt).
  reflexivity.
Defined.

(** ** C6: deleting a release that is not there *)

Section delete_release.
Import orchestrator.


(** C6 as stated fails on the version that returns a failed uninstall: the
    second of two deletes finds the release absent and returns an error. *)
Lemma C6_counterexample :
  let ws := demo_workspace "a1b2c3d4" "hld-a1b2c3d4" "workspace-a1b2c3d4" in
  let installed :=
    doubles.mkFake [("workspace-a1b2c3d4", "hld-a1b2c3d4")] ["workspace-a1b2c3d4"]%string in
  let first := HelmOrchestrator1.DeleteWorkspace doubles.FakeCluster ws installed in
  first.2 = None
  ∧ doubles.releases first.1 = []
  ∧ (HelmOrchestrator1.DeleteWorkspace doubles.FakeCluster ws first.1).2
    = Some ("failed to uninstall helm release: uninstall: Release not loaded: "
            +:+ "hld-a1b2c3d4: release: not found").
Proof. by vm_compute. Qed.

(** C6 (as amended).  [DeleteWorkspace] of helm.go returns an error only when
    the Helm action configuration cannot be initialised: with or without the
    release and the namespace it returns nil, so two deletes in a row both
    succeed.  The other version returns nil exactly when the initialisation
    and the uninstall both succeed; only a failed namespace deletion is
    tolerated there. *)
Theorem C6_delete_absent_release {K} (cl : Cluster K) (ws : Workspace) (k : K) :
  (* helm.go: only a failed [Init] is returned *)
  ((HelmOrchestrator2.DeleteWorkspace cl ws k).2 = None ↔
   actionConfigInit cl ("workspace-" +:+ ID ws) k = None)
  ∧ ((∀ k', actionConfigInit cl ("workspace-" +:+ ID ws) k' = None) →
     (HelmOrchestrator2.DeleteWorkspace cl ws k).2 = None
     ∧ (HelmOrchestrator2.DeleteWorkspace cl ws
          (HelmOrchestrator2.DeleteWorkspace cl ws k).1).2 = None)
  (* the other version: a failed uninstall is returned as well *)
  ∧ ((HelmOrchestrator1.DeleteWorkspace cl ws k).2 = None ↔
     actionConfigInit cl (Namespace ws) k = None
     ∧ (uninstallRun cl (Namespace ws) (HelmReleaseName ws) k).2 = None).
Proof.
  assert (∀ k0, (HelmOrchestrator2.DeleteWorkspace cl ws k0).2 = None ↔
                actionConfigInit cl ("workspace-" +:+ ID ws) k0 = None) as H2.
  { intros k0. unfold HelmOrchestrator2.DeleteWorkspace, getActionConfig.
    destruct (actionConfigInit cl _ k0) as [e|]; [done|].
    destruct (uninstallRun cl _ _ k0) as [k1 e1].
    by destruct (namespacesDelete cl _ k1) as [k2 e2]. }
  split_and!.
  - apply H2.
  - intros Hinit. split; by apply H2.
  - unfold HelmOrchestrator1.DeleteWorkspace, getActionConfig.
    destruct (actionConfigInit cl _ k) as [e|]; [by split; [|intros []]|].
    destruct (uninstallRun cl _ _ k) as [k1 [e1|]]; simpl; [by split; [|intros []]|].
    by destruct (namespacesDelete cl _ k1) as [k2 e2].
Qed.

(** C6 for two deletes on a cluster that has neither release nor namespace. *)
Lemma C6_delete_absent_release_witness :
  let ws := demo_workspace "a1b2c3d4" "hld-a1b2c3d4" "workspace-a1b2c3d4" in
  (HelmOrchestrator2.DeleteWorkspace doubles.FakeCluster ws (doubles.mkFake [] [])).2 = None
  ∧ (HelmOrchestrator2.DeleteWorkspace doubles.FakeCluster ws
       (HelmOrchestrator2.DeleteWorkspace doubles.FakeCluster ws (doubles.mkFake [] [])).1).2
    = None.
Proof.
  intros ws.
  apply (proj1 (proj2 (C6_delete_absent_release doubles.FakeCluster ws (doubles.mkFake [] [])))).
  intros k'. reflexivity.
Defined.

End delete_release.

(** ** C2: the outcome of the deployment *)

Section deployment.
Import sqlite.

(** The goroutine whose two store calls are made before the context is
    cancelled. *)
Lemma deploy1_result C (o : orchestrator.Orchestrator C) n t db c row :
  ID (WorkspaceHandler.task_ws t) = WorkspaceHandler.task_id t →
  workspaces db !! WorkspaceHandler.task_id t = Some row →
  let id := WorkspaceHandler.task_id t in
  let '(c1, derr) :=
    orchestrator.DeployWorkspace o (WorkspaceHandler.task_ws t)
      (WorkspaceHandler.task_secrets t) c in
  let '(db', c') :=
    WorkspaceHandler.deploy SQLiteStore1.impl (context.CanceledAfter (S (S n))) o t db c in
  c' = c1
  ∧ (∃ row', workspaces db' = <[id := row']> (workspaces db)
             ∧ Status row' = match derr with Some _ => StatusError | None => StatusRunning end
             ∧ ID row' = ID row
             ∧ HelmReleaseName row' = HelmReleaseName row
             ∧ Namespace row' = Namespace row)
  ∧ workspace_events db' =
      workspace_events db ++
      [match derr with
       | Some e => mkEvent (sqlite_sequence db + 1) id "error"
                     ("Deployment failed: " +:+ e) "" (clock db)
       | None => mkEvent (sqlite_sequence db + 1) id "started"
                   "Workspace deployed successfully" "" (clock db)
       end].
Proof.
  intros Hid Hrow id. unfold WorkspaceHandler.deploy, WorkspaceHandler.withContext.
  cbn [context.Err context.later Nat.pred].
  destruct (orchestrator.DeployWorkspace o _ _ c) as [c1 [e|]];
    cbn [UpdateWorkspace LogEvent SQLiteStore1.impl];
    unfold SQLiteStore1.UpdateWorkspace; cbn [ID withStatus]; rewrite Hid, Hrow;
    (rewrite LogEvent1_spec
       by (cbn [workspaces with_workspaces]; rewrite lookup_insert_eq; eauto));
    simpl; (split_and!; [done| |done]); eexists; split_and!; done.
Qed.

(** The goroutine whose context is cancelled before its first store call:
    both calls come back with the context's error, which is dropped. *)
Lemma deploy1_canceled C (o : orchestrator.Orchestrator C) t db c :
  WorkspaceHandler.deploy SQLiteStore1.impl (context.CanceledAfter 0) o t db c
  = (db, (orchestrator.DeployWorkspace o (WorkspaceHandler.task_ws t)
            (WorkspaceHandler.task_secrets t) c).1).
Proof.
  unfold WorkspaceHandler.deploy, WorkspaceHandler.withContext.
  by destruct (orchestrator.DeployWorkspace o _ _ c) as [c1 [e|]].
Qed.

(** C2 as stated fails on [WorkspaceHandler.Create]: a failed deployment is
    not returned to the caller, who has got 201 with status [pending], and
    however the goroutine of a successful deployment meets the request's
    context, no [deployed] event is logged. *)
Lemma C2_counterexample :
  let ok := Some (doubles.MockOrchestrator None) in
  let failing := Some (doubles.MockOrchestrator (Some "namespace already exists"%string)) in
  let body := inr (bare "" "" []) in
  (* a failing deployment is not returned to the caller of [Create] *)
  (∃ dto, (Daemon1.step failing (ReqCreate "a1b2c3d4" body) (Daemon1.init tt)).2
          = Some (JSON http.StatusCreated (api.WorkspaceResponse (Some dto) None))
          ∧ Status (api.Fields dto) = StatusPending)
  (* a successful background deployment logs no [deployed] event *)
  ∧ (∀ ctx,
       "deployed"%string ∉
       EventType <$>
         workspace_events
           (Daemon1.db (Daemon1.run ok [ReqCreate "a1b2c3d4" body; Goroutine 0 ctx]
                          (Daemon1.init tt))))
  (* when its two store calls are made in time, it logs [started] *)
  ∧ EventType <$>
      workspace_events
        (Daemon1.db (Daemon1.run ok [ReqCreate "a1b2c3d4" body;
                                     Goroutine 0 (context.CanceledAfter 2)]
                       (Daemon1.init tt)))
    = ["created"; "started"]%string.
Proof.
  split_and!; [by eexists; vm_compute | | by vm_compute].
  intros [[|[|n]]]; apply (bool_decide_unpack _); vm_compute; exact I.
Qed.

(** C2 (as amended).  [WorkspaceHandlers.CreateWorkspace]: when the deployment
    fails the declared status becomes [error], an [error] event carrying the
    orchestrator's error text is appended and the caller gets 500 with that
    text; when it succeeds the status becomes [running], a [deployed] event is
    appended and the caller gets 201.  [WorkspaceHandler.Create] answers 201
    with status [pending] whatever the orchestrator does, and leaves the
    deployment to a goroutine; when that makes its two store calls before the
    request's context is cancelled, on a registry that still has the
    workspace, a failure sets [error] and appends the [error] event with the
    error text, a success sets [running] and appends a [started] event. *)
Theorem C2_deploy_outcome :
  (* [WorkspaceHandlers.CreateWorkspace] deploys inside the request *)
  (∀ C (orch : orchestrator.Orchestrator C) (id : string) (req : api.CreateWorkspaceRequest)
     (db : DB) (c : C),
     api.Name req ≠ ""%string →
     workspaces db !! id = None →
     let ws := stamped (WorkspaceHandlers.newWorkspace id req) (clock db) (clock db) in
     let '(c1, derr) :=
       orchestrator.DeployWorkspace orch ws (request_secrets id (api.Secrets req)) c in
     let '(db', c', reply) :=
       WorkspaceHandlers.CreateWorkspace SQLiteStore2.impl orch id (inr req) db c in
     match derr with
     | Some e =>
         Status <$> workspaces db' !! id = Some StatusError
         ∧ last (workspace_events db')
           = Some (mkEvent (sqlite_sequence db + 2) id "error"
                     ("Deployment failed: " +:+ e) "" (clock db))
         ∧ reply = JSON http.StatusInternalServerError
                     (api.WorkspaceResponse None (Some ("deployment failed: " +:+ e)))
     | None =>
         Status <$> workspaces db' !! id = Some StatusRunning
         ∧ last (workspace_events db')
           = Some (mkEvent (sqlite_sequence db + 2) id "deployed"
                     "Helm release installed" "" (clock db))
         ∧ reply = JSON http.StatusCreated
                     (api.WorkspaceResponse
                        (Some (api.ToDTO (withStatus ws StatusRunning))) None)
     end)
  (* [WorkspaceHandler.Create] answers before the deployment and leaves it to a
     goroutine *)
  ∧ (∀ C (o : orchestrator.Orchestrator C) (id : string) (req : api.CreateWorkspaceRequest)
       (db : DB),
       WorkspaceHandler.ShouldBindJSON (inr req) = inl req →
       workspaces db !! id = None →
       let '(db1, reply, task) :=
         WorkspaceHandler.Create SQLiteStore1.impl (Some o) id (inr req) db in
       (∃ dto, reply = JSON http.StatusCreated (api.WorkspaceResponse (Some dto) None)
               ∧ Status (api.Fields dto) = StatusPending)
       ∧ task = Some (WorkspaceHandler.mkTask id (WorkspaceHandler.newWorkspace id req)
                        (request_secrets id (api.Secrets req))))
  ∧ (∀ C (o : orchestrator.Orchestrator C) (n : nat) (t : WorkspaceHandler.Task)
       (db : DB) (c : C) row,
       ID (WorkspaceHandler.task_ws t) = WorkspaceHandler.task_id t →
       workspaces db !! WorkspaceHandler.task_id t = Some row →
       let id := WorkspaceHandler.task_id t in
       let '(c1, derr) :=
         orchestrator.DeployWorkspace o (WorkspaceHandler.task_ws t)
           (WorkspaceHandler.task_secrets t) c in
       let '(db', c') :=
         WorkspaceHandler.deploy SQLiteStore1.impl (context.CanceledAfter (S (S n)))
           o t db c in
       match derr with
       | Some e =>
           Status <$> workspaces db' !! id = Some StatusError
           ∧ last (workspace_events db')
             = Some (mkEvent (sqlite_sequence db + 1) id "error"
                       ("Deployment failed: " +:+ e) "" (clock db))
       | None =>
           Status <$> workspaces db' !! id = Some StatusRunning
           ∧ last (workspace_events db')
             = Some (mkEvent (sqlite_sequence db + 1) id "started"
                       "Workspace deployed successfully" "" (clock db))
       end).
Proof.
  split_and!.
  - intros C orch id req db c Hname Hfresh ws.
    assert (WorkspaceHandlers.ShouldBindJSON (inr req) = inl req) as Hbind.
    { unfold WorkspaceHandlers.ShouldBindJSON. by rewrite decide_False. }
    pose proof (Create2_result C orch id req db c Hbind Hfresh) as H. cbn zeta in H.
    fold ws in H.
    destruct (orchestrator.DeployWorkspace orch ws _ c) as [c1 derr].
    destruct (WorkspaceHandlers.CreateWorkspace _ _ _ _ _ _) as [[db' c'] reply].
    destruct H as (_ & Hws & Hev & Hreply).
    rewrite Hws, Hev, lookup_insert_eq, last_app. by destruct derr.
  - intros C o id req db Hbind Hfresh.
    pose proof (Create1_row C (Some o) id req db Hbind Hfresh) as H.
    destruct (WorkspaceHandler.Create _ _ _ _ _) as [[db' reply] task].
    destruct H as (_ & -> & ->). split; [|done]. by eexists.
  - intros C o n t db c row Hid Hrow id.
    pose proof (deploy1_result C o n t db c row Hid Hrow) as H. cbn zeta in H.
    destruct (orchestrator.DeployWorkspace o _ _ c) as [c1 derr].
    destruct (WorkspaceHandler.deploy _ _ _ _ _ _) as [db' c'].
    destruct H as (_ & (row' & Hws & Hst & _) & Hev).
    rewrite Hws, Hev, lookup_insert_eq, last_app. simpl. rewrite Hst. by destruct derr.
Qed.

(** C2 for a deployment that fails with [namespace already exists]. *)
Lemma C2_deploy_outcome_witness :
  let '(db', c', reply) :=
    WorkspaceHandlers.CreateWorkspace SQLiteStore2.impl
      (doubles.MockOrchestrator (Some "namespace already exists"%string))
      "a1b2c3d4" (inr (bare "" "" [])) sqlite.empty tt in
  Status <$> workspaces db' !! "a1b2c3d4" = Some StatusError
  ∧ last (workspace_events db')
    = Some (mkEvent 2 "a1b2c3d4" "error"
              "Deployment failed: namespace already exists" "" 0)
  ∧ reply = JSON http.StatusInternalServerError
              (api.WorkspaceResponse None
                 (Some "deployment failed: namespace already exists"%string)).
Proof.
  apply (proj1 C2_deploy_outcome unit
           (doubles.MockOrchestrator (Some "namespace already exists"%string))
           "a1b2c3d4"%string (bare "" "" []) sqlite.empty tt).
  - vm_compute. discriminate.
  - reflexivity.
Defined.

End deployment.

(** ** C1: the derived names *)

Section derived_names.
Import sqlite.


Variables release namespace : string.
Local Abbreviation nd := (names_derived release namespace).

Lemma nd_same_workspaces db db' : workspaces db' = workspaces db → nd db → nd db'.
Proof. unfold names_derived. by intros ->. Qed.

Lemma nd_empty : nd sqlite.empty.
Proof. apply map_Forall_empty. Qed.

Lemma nd_LogEvent1 e db db' e' err :
  SQLiteStore1.LogEvent e db = (db', e', err) → nd db → nd db'.
Proof.
  intros H. apply nd_same_workspaces.
  pose proof (LogEvent1_workspaces e db) as Hw. by rewrite H in Hw.
Qed.

Lemma nd_LogEvent2 e db db' e' err :
  SQLiteStore2.LogEvent e db = (db', e', err) → nd db → nd db'.
Proof.
  intros H. apply nd_same_workspaces.
  pose proof (LogEvent2_workspaces e db) as Hw. by rewrite H in Hw.
Qed.

Lemma nd_delete id db : nd db → nd (delete_workspace id db).
Proof.
  unfold delete_workspace, names_derived. intros H.
  destruct (workspaces db !! id); [|done]. by apply map_Forall_delete.
Qed.

Lemma nd_delete_secrets id db : nd db → nd (delete_secrets id db).
Proof. by apply nd_same_workspaces. Qed.

Lemma nd_Update1 ws db db' ws' err :
  SQLiteStore1.UpdateWorkspace ws db = (db', ws', err) → nd db → nd db'.
Proof.
  unfold SQLiteStore1.UpdateWorkspace, names_derived.
  destruct (workspaces db !! ID ws) as [row|] eqn:E; intros [= <- _ _] H; [|done].
  apply map_Forall_insert_2; [|done]. by apply (H _ _ E).
Qed.

(** The second version writes the names of the struct it is given: they must
    be those of the row. *)
Lemma nd_Update2 row status db db' ws' err :
  workspaces db !! ID row = Some row →
  SQLiteStore2.UpdateWorkspace (withStatus row status) db = (db', ws', err) →
  nd db → nd db'.
Proof.
  unfold SQLiteStore2.UpdateWorkspace, names_derived. cbn [ID withStatus].
  intros E. rewrite E. intros [= <- _ _] H.
  apply map_Forall_insert_2; [|done]. by apply (H _ _ E).
Qed.

Lemma nd_lookup db id ws : nd db → workspaces db !! id = Some ws → ID ws = id.
Proof. intros H E. by apply (H _ _ E). Qed.


End derived_names.

Section daemons.
Import sqlite.
Context {C : Type}.

Lemma nd_step1 (orch : option (orchestrator.Orchestrator C)) a σ :
  names_derived "ws-" "ws-" (Daemon1.db σ) →
  names_derived "ws-" "ws-" (Daemon1.db (Daemon1.step orch a σ).1).
Proof.
  intros H. destruct a as [|id body|id|id|id|id|id limit|t|n]; cbn [Daemon1.step]; try done.
  - (* Create *)
    destruct (WorkspaceHandler.Create _ orch id body (Daemon1.db σ)) as [[s r] t] eqn:E.
    cbn [fst Daemon1.db]. revert E. unfold WorkspaceHandler.Create.
    destruct (WorkspaceHandler.ShouldBindJSON body) as [req|e]; [|by intros [= <- _ _]].
    cbn [CreateWorkspace SQLiteStore1.impl LogEvent GetWorkspace].
    unfold SQLiteStore1.CreateWorkspace, insert_workspace.
    cbn [ID WorkspaceHandler.newWorkspace].
    destruct (workspaces (Daemon1.db σ) !! id) eqn:Hid; [by intros [= <- _ _]|].
    match goal with |- context [WorkspaceHandler.storeSecrets _ id ?kvs ?d] =>
      destruct (storeSecrets_low id kvs d) as [Hlow _];
      destruct (WorkspaceHandler.storeSecrets SQLiteStore1.impl id kvs d) as [db2 secs] end.
    apply low_workspaces in Hlow. cbn [fst workspaces with_workspaces] in Hlow.
    match goal with |- context [SQLiteStore1.LogEvent ?e db2] =>
      destruct (SQLiteStore1.LogEvent e db2) as [[db3 ev] err] eqn:Hev end.
    assert (names_derived "ws-" "ws-" db3) as H3.
    { eapply nd_LogEvent1; [done|]. unfold names_derived. rewrite Hlow.
      by apply map_Forall_insert_2. }
    by destruct (SQLiteStore1.GetWorkspace id db3) as [[?|] ?]; intros [= <- _ _].
  - (* Delete *)
    destruct (WorkspaceHandler.Delete _ orch id _ _) as [[s c] r] eqn:E.
    cbn [fst Daemon1.db]. revert E. unfold WorkspaceHandler.Delete.
    cbn [GetWorkspace DeleteWorkspace SQLiteStore1.impl].
    unfold SQLiteStore1.GetWorkspace, SQLiteStore1.DeleteWorkspace.
    destruct (workspaces (Daemon1.db σ) !! id); [|by intros [= <- _ _]].
    intros [= <- _ _]. by apply nd_delete.
  - (* Start *)
    destruct (WorkspaceHandler.Start _ orch id _ _) as [[s c] r] eqn:E.
    cbn [fst Daemon1.db]. revert E. unfold WorkspaceHandler.Start, WorkspaceHandler.transition.
    cbn [GetWorkspace UpdateWorkspace LogEvent SQLiteStore1.impl].
    destruct (SQLiteStore1.GetWorkspace id _) as [[ws|] [e|]]; try by intros [= <- _ _].
    case_decide; [by intros [= <- _ _]|].
    destruct (match orch with Some o => _ | None => _ end) as [c1 [e|]];
      [by intros [= <- _ _]|].
    destruct (SQLiteStore1.UpdateWorkspace _ _) as [[s1 ws1] e1] eqn:E1.
    destruct (SQLiteStore1.LogEvent _ s1) as [[s2 ev] e2] eqn:E2.
    assert (names_derived "ws-" "ws-" s2)
      by (eapply nd_LogEvent1; [done|]; by eapply nd_Update1).
    by destruct (SQLiteStore1.GetWorkspace id s2) as [[?|] ?]; intros [= <- _ _].
  - (* Stop *)
    destruct (WorkspaceHandler.Stop _ orch id _ _) as [[s c] r] eqn:E.
    cbn [fst Daemon1.db]. revert E. unfold WorkspaceHandler.Stop, WorkspaceHandler.transition.
    cbn [GetWorkspace UpdateWorkspace LogEvent SQLiteStore1.impl].
    destruct (SQLiteStore1.GetWorkspace id _) as [[ws|] [e|]]; try by intros [= <- _ _].
    case_decide; [by intros [= <- _ _]|].
    destruct (match orch with Some o => _ | None => _ end) as [c1 [e|]];
      [by intros [= <- _ _]|].
    destruct (SQLiteStore1.UpdateWorkspace _ _) as [[s1 ws1] e1] eqn:E1.
    destruct (SQLiteStore1.LogEvent _ s1) as [[s2 ev] e2] eqn:E2.
    assert (names_derived "ws-" "ws-" s2)
      by (eapply nd_LogEvent1; [done|]; by eapply nd_Update1).
    by destruct (SQLiteStore1.GetWorkspace id s2) as [[?|] ?]; intros [= <- _ _].
  - (* Goroutine *)
    destruct (Daemon1.goroutines σ !! n) as [t|]; [|done].
    destruct orch as [o|]; [|done].
    pose proof (deploy_keeps SQLiteStore1.impl (names_derived "ws-" "ws-") ctx o t
                  (Daemon1.db σ) (Daemon1.cluster σ)) as Hk.
    destruct (WorkspaceHandler.deploy _ ctx o t _ _) as [s c].
    cbn [fst Daemon1.db] in *. apply Hk; [| |done].
    + intros status s' Hs'. cbn [UpdateWorkspace SQLiteStore1.impl].
      destruct (SQLiteStore1.UpdateWorkspace _ s') as [[s1 ws1] e1] eqn:E1.
      by eapply nd_Update1.
    + intros e s' _ Hs'. cbn [LogEvent SQLiteStore1.impl].
      destruct (SQLiteStore1.LogEvent e s') as [[s2 ev] e2] eqn:E2.
      by eapply nd_LogEvent1.
Qed.


Lemma nd_transition2 id ws status eventType message db s r :
  names_derived "hld-" "workspace-" db →
  workspaces db !! id = Some ws →
  WorkspaceHandlers.transition SQLiteStore2.impl id ws status eventType message db = (s, r) →
  names_derived "hld-" "workspace-" s.
Proof.
  intros H Hws. unfold WorkspaceHandlers.transition.
  cbn [UpdateWorkspace LogEvent SQLiteStore2.impl].
  destruct (SQLiteStore2.UpdateWorkspace _ _) as [[s1 ws1] e1] eqn:E1.
  destruct (SQLiteStore2.LogEvent _ s1) as [[s2 ev] e2] eqn:E2.
  intros [= <- _]. eapply nd_LogEvent2; [done|].
  eapply nd_Update2; [|done..]. by rewrite (nd_lookup _ _ _ _ _ H Hws).
Qed.

Lemma nd_step2 (orch : orchestrator.Orchestrator C) a σ :
  names_derived "hld-" "workspace-" (Daemon2.db σ) →
  names_derived "hld-" "workspace-" (Daemon2.db (Daemon2.step orch a σ).1).
Proof.
  intros H. destruct a as [|id body|id|id|id|id|id limit|t|n]; cbn [Daemon2.step]; try done.
  - (* CreateWorkspace *)
    destruct (WorkspaceHandlers.CreateWorkspace _ orch id body _ _) as [[s c] r] eqn:E.
    cbn [fst Daemon2.db]. revert E. unfold WorkspaceHandlers.CreateWorkspace.
    destruct (WorkspaceHandlers.ShouldBindJSON body) as [req|e]; [|by intros [= <- _ _]].
    cbn [CreateWorkspace SQLiteStore2.impl LogEvent UpdateWorkspace].
    unfold SQLiteStore2.CreateWorkspace, insert_workspace.
    cbn [ID WorkspaceHandlers.newWorkspace].
    destruct (workspaces (Daemon2.db σ) !! id) eqn:Hid; [by intros [= <- _ _]|].
    match goal with |- context [WorkspaceHandlers.saveSecrets _ id ?kvs ?d] =>
      destruct (saveSecrets_low id kvs d) as [Hlow _];
      destruct (WorkspaceHandlers.saveSecrets SQLiteStore2.impl id kvs d) as [db2 secs] end.
    apply low_workspaces in Hlow. cbn [fst workspaces with_workspaces] in Hlow.
    match goal with |- context [SQLiteStore2.LogEvent ?e db2] =>
      pose proof (LogEvent2_workspaces e db2) as Hw3;
      destruct (SQLiteStore2.LogEvent e db2) as [[db3 ev] err] eqn:Hev end.
    cbn [fst] in Hw3. rewrite Hlow in Hw3.
    assert (names_derived "hld-" "workspace-" db3) as H3.
    { unfold names_derived. rewrite Hw3. by apply map_Forall_insert_2. }
    match goal with |- context [orchestrator.DeployWorkspace orch ?w secs ?c] =>
      set (ws := w) in *;
      destruct (orchestrator.DeployWorkspace orch ws secs c) as [c1 [e|]] end.
    + destruct (SQLiteStore2.UpdateWorkspace _ db3) as [[s4 ws4] e4] eqn:E4.
      destruct (SQLiteStore2.LogEvent _ s4) as [[s5 ev5] e5] eqn:E5.
      intros [= <- _ _]. eapply nd_LogEvent2; [done|].
      eapply (nd_Update2 _ _ ws); [|done..]. by rewrite Hw3, lookup_insert_eq.
    + destruct (SQLiteStore2.UpdateWorkspace _ db3) as [[s4 ws4] e4] eqn:E4.
      destruct (SQLiteStore2.LogEvent _ s4) as [[s5 ev5] e5] eqn:E5.
      intros [= <- _ _]. eapply nd_LogEvent2; [done|].
      eapply (nd_Update2 _ _ ws); [|done..]. by rewrite Hw3, lookup_insert_eq.
  - (* DeleteWorkspace *)
    destruct (WorkspaceHandlers.DeleteWorkspace _ orch id _ _) as [[s c] r] eqn:E.
    cbn [fst Daemon2.db]. revert E. unfold WorkspaceHandlers.DeleteWorkspace.
    cbn [GetWorkspace DeleteWorkspace DeleteSecrets SQLiteStore2.impl].
    unfold SQLiteStore2.GetWorkspace, SQLiteStore2.DeleteWorkspace, SQLiteStore2.DeleteSecrets.
    destruct (workspaces (Daemon2.db σ) !! id) as [ws|]; [|by intros [= <- _ _]].
    destruct (orchestrator.DeleteWorkspace orch ws _) as [c1 e1].
    intros [= <- _ _]. by apply nd_delete, nd_delete_secrets.
  - (* StartWorkspace *)
    destruct (WorkspaceHandlers.StartWorkspace _ orch id _ _) as [[s c] r] eqn:E.
    cbn [fst Daemon2.db]. revert E. unfold WorkspaceHandlers.StartWorkspace.
    cbn [GetWorkspace SQLiteStore2.impl]. unfold SQLiteStore2.GetWorkspace.
    destruct (workspaces (Daemon2.db σ) !! id) as [ws|] eqn:Hws; [|by intros [= <- _ _]].
    destruct (orchestrator.StartWorkspace orch ws _) as [c1 [e|]]; [by intros [= <- _ _]|].
    destruct (WorkspaceHandlers.transition _ _ _ _ _ _ _) as [s1 r1] eqn:E1.
    intros [= <- _ _]. by eapply nd_transition2.
  - (* StopWorkspace *)
    destruct (WorkspaceHandlers.StopWorkspace _ orch id _ _) as [[s c] r] eqn:E.
    cbn [fst Daemon2.db]. revert E. unfold WorkspaceHandlers.StopWorkspace.
    cbn [GetWorkspace SQLiteStore2.impl]. unfold SQLiteStore2.GetWorkspace.
    destruct (workspaces (Daemon2.db σ) !! id) as [ws|] eqn:Hws; [|by intros [= <- _ _]].
    destruct (orchestrator.StopWorkspace orch ws _) as [c1 [e|]]; [by intros [= <- _ _]|].
    destruct (WorkspaceHandlers.transition _ _ _ _ _ _ _) as [s1 r1] eqn:E1.
    intros [= <- _ _]. by eapply nd_transition2.
Qed.

Lemma nd_run1 (orch : option (orchestrator.Orchestrator C)) acts σ :
  names_derived "ws-" "ws-" (Daemon1.db σ) →
  names_derived "ws-" "ws-" (Daemon1.db (Daemon1.run orch acts σ)).
Proof.
  revert σ. induction acts as [|a acts IH]; intros σ H; [done|].
  cbn [Daemon1.run foldl]. apply IH. by apply nd_step1.
Qed.

Lemma nd_run2 (orch : orchestrator.Orchestrator C) acts σ :
  names_derived "hld-" "workspace-" (Daemon2.db σ) →
  names_derived "hld-" "workspace-" (Daemon2.db (Daemon2.run orch acts σ)).
Proof.
  revert σ. induction acts as [|a acts IH]; intros σ H; [done|].
  cbn [Daemon2.run foldl]. apply IH. by apply nd_step2.
Qed.

End daemons.

Section derived_names_claim.
Import sqlite.


Lemma names_derived_kept release namespace db db' :
  names_derived release namespace db → names_derived release namespace db' →
  names_kept db db'.
Proof.
  intros H H' id ws ws' E E'.
  destruct (H _ _ E) as (_ & -> & ->). destruct (H' _ _ E') as (_ & -> & ->). done.
Qed.

Lemma Create1_created C (orch : option (orchestrator.Orchestrator C)) id body db b :
  (WorkspaceHandler.Create SQLiteStore1.impl orch id body db).1.2 = JSON http.StatusCreated b →
  ∃ req, body = inr req ∧ WorkspaceHandler.ShouldBindJSON (inr req) = inl req
         ∧ workspaces db !! id = None.
Proof.
  unfold WorkspaceHandler.Create.
  destruct (WorkspaceHandler.ShouldBindJSON body) as [req|e] eqn:Hbind; [|done].
  assert (body = inr req) as ->.
  { revert Hbind. unfold WorkspaceHandler.ShouldBindJSON.
    destruct body as [e|req']; [done|]. by repeat case_match; intros [= ->]. }
  cbn [CreateWorkspace SQLiteStore1.impl]. unfold SQLiteStore1.CreateWorkspace, insert_workspace.
  cbn [ID WorkspaceHandler.newWorkspace].
  destruct (workspaces db !! id) eqn:Hid; [done|]. eauto.
Qed.

Lemma Create2_created C (orch : orchestrator.Orchestrator C) id body db c b :
  (WorkspaceHandlers.CreateWorkspace SQLiteStore2.impl orch id body db c).2
  = JSON http.StatusCreated b →
  ∃ req, body = inr req ∧ WorkspaceHandlers.ShouldBindJSON (inr req) = inl req
         ∧ workspaces db !! id = None.
Proof.
  unfold WorkspaceHandlers.CreateWorkspace.
  destruct (WorkspaceHandlers.ShouldBindJSON body) as [req|e] eqn:Hbind; [|done].
  assert (body = inr req) as ->.
  { revert Hbind. unfold WorkspaceHandlers.ShouldBindJSON.
    destruct body as [e|req']; [done|]. by repeat case_match; intros [= ->]. }
  cbn [CreateWorkspace SQLiteStore2.impl]. unfold SQLiteStore2.CreateWorkspace, insert_workspace.
  cbn [ID WorkspaceHandlers.newWorkspace].
  destruct (workspaces db !! id) eqn:Hid; [done|]. eauto.
Qed.

(** C1 as stated fails on [WorkspaceHandler.Create]: both stored names are
    ["ws-" ++ id]. *)
Lemma C1_counterexample :
  let created :=
    Daemon1.step (Some (doubles.MockOrchestrator None))
      (ReqCreate "a1b2c3d4" (inr (bare "" "" []))) (Daemon1.init tt) in
  (∃ dto, created.2 = Some (JSON http.StatusCreated (api.WorkspaceResponse (Some dto) None)))
  ∧ HelmReleaseName <$> workspaces (Daemon1.db created.1) !! "a1b2c3d4" = Some "ws-a1b2c3d4"%string
  ∧ Namespace <$> workspaces (Daemon1.db created.1) !! "a1b2c3d4" = Some "ws-a1b2c3d4"%string
  ∧ "ws-a1b2c3d4"%string ≠ "hld-" +:+ "a1b2c3d4"
  ∧ "ws-a1b2c3d4"%string ≠ "workspace-" +:+ "a1b2c3d4".
Proof. split_and!; [by eexists; vm_compute | by vm_compute..]. Qed.

(** C1 (as amended).  From the empty registry and along any sequence of
    requests, clock ticks and goroutine runs, every row stored behind
    [WorkspaceHandlers] sits under its id with helm release name ["hld-" ++ id]
    and namespace ["workspace-" ++ id], and every row stored behind
    [WorkspaceHandler] has both names equal to ["ws-" ++ id]; a step does not
    change the two names of a row that is there before and after; and a
    create answered with 201 has stored such a row. *)
Theorem C1_derived_names :
  (* [WorkspaceHandlers] over its registry *)
  (∀ C (orch : orchestrator.Orchestrator C) (c : C) (acts : list Action) (a : Action),
     let σ := Daemon2.run orch acts (Daemon2.init c) in
     let σ' := (Daemon2.step orch a σ).1 in
     names_derived "hld-" "workspace-" (Daemon2.db σ)
     ∧ names_kept (Daemon2.db σ) (Daemon2.db σ')
     ∧ ∀ id body b,
         a = ReqCreate id body →
         (Daemon2.step orch a σ).2 = Some (JSON http.StatusCreated b) →
         ∃ ws, workspaces (Daemon2.db σ') !! id = Some ws
               ∧ HelmReleaseName ws = "hld-" +:+ id
               ∧ Namespace ws = "workspace-" +:+ id)
  (* [WorkspaceHandler] over its registry *)
  ∧ (∀ C (orch : option (orchestrator.Orchestrator C)) (c : C) (acts : list Action)
       (a : Action),
       let σ := Daemon1.run orch acts (Daemon1.init c) in
       let σ' := (Daemon1.step orch a σ).1 in
       names_derived "ws-" "ws-" (Daemon1.db σ)
       ∧ names_kept (Daemon1.db σ) (Daemon1.db σ')
       ∧ ∀ id body b,
           a = ReqCreate id body →
           (Daemon1.step orch a σ).2 = Some (JSON http.StatusCreated b) →
           ∃ ws, workspaces (Daemon1.db σ') !! id = Some ws
                 ∧ HelmReleaseName ws = "ws-" +:+ id
                 ∧ Namespace ws = "ws-" +:+ id).
Proof.
  split.
  - intros C orch c acts a σ σ'.
    assert (names_derived "hld-" "workspace-" (Daemon2.db σ)) as H
      by (apply nd_run2, nd_empty).
    assert (names_derived "hld-" "workspace-" (Daemon2.db σ')) as H'
      by by apply nd_step2.
    split_and!; [done | by eapply names_derived_kept |].
    intros id body b -> Hr. subst σ'. revert H' Hr. cbn [Daemon2.step].
    pose proof (Create2_created C orch id body (Daemon2.db σ) (Daemon2.cluster σ)) as Hc.
    destruct (WorkspaceHandlers.CreateWorkspace _ orch id body _ _) as [[s c'] r] eqn:E.
    cbn [fst snd Daemon2.db] in *. intros H' [= ->].
    destruct (Hc b eq_refl) as (req & -> & Hbind & Hfresh).
    pose proof (Create2_result C orch id req _ (Daemon2.cluster σ) Hbind Hfresh) as Hres.
    cbn zeta in Hres. rewrite E in Hres.
    destruct (orchestrator.DeployWorkspace orch _ _ _) as [c1 derr].
    destruct Hres as (_ & Hws & _).
    eexists. split; [by rewrite Hws, lookup_insert_eq|]. by destruct derr.
  - intros C orch c acts a σ σ'.
    assert (names_derived "ws-" "ws-" (Daemon1.db σ)) as H
      by (apply nd_run1, nd_empty).
    assert (names_derived "ws-" "ws-" (Daemon1.db σ')) as H'
      by by apply nd_step1.
    split_and!; [done | by eapply names_derived_kept |].
    intros id body b -> Hr. subst σ'. revert H' Hr. cbn [Daemon1.step].
    pose proof (Create1_created C orch id body (Daemon1.db σ)) as Hc.
    destruct (WorkspaceHandler.Create _ orch id body _) as [[s r] t] eqn:E.
    cbn [fst snd Daemon1.db] in *. intros H' [= ->].
    destruct (Hc b eq_refl) as (req & -> & Hbind & Hfresh).
    pose proof (Create1_row C orch id req _ Hbind Hfresh) as Hres.
    rewrite E in Hres. destruct Hres as (Hws & _).
    eexists. split; [by rewrite Hws, lookup_insert_eq|]. done.
Qed.

(** C1 for the first create on the empty second registry. *)
Lemma C1_derived_names_witness :
  ∃ ws,
    workspaces
      (Daemon2.db (Daemon2.step (doubles.MockOrchestrator None)
                     (ReqCreate "a1b2c3d4" (inr (bare "" "" [])))
                     (Daemon2.run (doubles.MockOrchestrator None) [] (Daemon2.init tt))).1)
      !! "a1b2c3d4" = Some ws
    ∧ HelmReleaseName ws = "hld-" +:+ "a1b2c3d4"
    ∧ Namespace ws = "workspace-" +:+ "a1b2c3d4".
Proof.
  eapply (proj1 C1_derived_names unit (doubles.MockOrchestrator None) tt []
            (ReqCreate "a1b2c3d4" (inr (bare "" "" [])))).
  - reflexivity.
  - vm_compute. reflexivity.
Defined.

End derived_names_claim.

(** ** C10: secret values and what the daemon shows

    Two runs that differ only in the values of secrets (in the request, in
    the secrets table, in what a pending goroutine holds) give the same
    responses and leave the same workspace rows and the same event log,
    provided the orchestrator's answers do not depend on those values. *)

Section secrets.
Import sqlite.


Lemma fst_blanked (l : list (string * string)) :
  fst <$> ((λ kv, (kv.1, ""%string)) <$> l) = fst <$> l.
Proof. induction l as [|[k v] l IH]; csimpl; [done|]. by rewrite IH. Qed.

Lemma public_fields r1 r2 :
  public r1 = public r2 →
  api.Name r1 = api.Name r2
  ∧ fst <$> api.Secrets r1 = fst <$> api.Secrets r2
  ∧ (∀ id, WorkspaceHandler.newWorkspace id r1 = WorkspaceHandler.newWorkspace id r2)
  ∧ (∀ id, WorkspaceHandlers.newWorkspace id r1 = WorkspaceHandlers.newWorkspace id r2).
Proof.
  destruct r1, r2. unfold public. cbn. intros [= -> -> -> -> -> -> -> -> -> -> -> Hs].
  assert (fst <$> Secrets = fst <$> Secrets0) as Hk.
  { apply (f_equal (fmap fst)) in Hs. by rewrite !fst_blanked in Hs. }
  split_and!; try done.
  intros id. unfold WorkspaceHandler.newWorkspace, api.has_secret. cbn. by rewrite Hk.
Qed.

Lemma request_secrets_blank id kvs1 kvs2 :
  fst <$> kvs1 = fst <$> kvs2 →
  blank <$> request_secrets id kvs1 = blank <$> request_secrets id kvs2.
Proof.
  revert kvs2. induction kvs1 as [|[k1 v1] kvs1 IH]; intros [|[k2 v2] kvs2]; csimpl; try done.
  intros [= -> H]. unfold blank at 1 3. cbn. f_equal. by apply IH.
Qed.

(** *** The registry statements read and write the secrets table apart from
    everything else. *)

Ltac low_split H :=
  match type of H with
  | low ?d1 = low ?d2 =>
      destruct d1, d2; unfold low in H; cbn in H; simplify_eq
  end.

Lemma low_GetWorkspace1 id db1 db2 :
  low db1 = low db2 → SQLiteStore1.GetWorkspace id db1 = SQLiteStore1.GetWorkspace id db2.
Proof. intros H. unfold SQLiteStore1.GetWorkspace. by rewrite (low_workspaces _ _ H). Qed.

Lemma low_GetWorkspace2 id db1 db2 :
  low db1 = low db2 → SQLiteStore2.GetWorkspace id db1 = SQLiteStore2.GetWorkspace id db2.
Proof. intros H. unfold SQLiteStore2.GetWorkspace. by rewrite (low_workspaces _ _ H). Qed.

Lemma low_select_workspaces db1 db2 :
  low db1 = low db2 → select_workspaces db1 = select_workspaces db2.
Proof. intros H. low_split H. done. Qed.

Lemma low_select_events id limit db1 db2 :
  low db1 = low db2 → select_events id limit db1 = select_events id limit db2.
Proof. intros H. low_split H. done. Qed.

Lemma low_Update1 ws db1 db2 :
  low db1 = low db2 →
  low (SQLiteStore1.UpdateWorkspace ws db1).1.1 = low (SQLiteStore1.UpdateWorkspace ws db2).1.1.
Proof.
  intros H. low_split H. unfold SQLiteStore1.UpdateWorkspace. cbn.
  by destruct (_ !! _).
Qed.

Lemma low_Update2 ws db1 db2 :
  low db1 = low db2 →
  low (SQLiteStore2.UpdateWorkspace ws db1).1.1 = low (SQLiteStore2.UpdateWorkspace ws db2).1.1
  ∧ (SQLiteStore2.UpdateWorkspace ws db1).1.2 = (SQLiteStore2.UpdateWorkspace ws db2).1.2.
Proof.
  intros H. low_split H. unfold SQLiteStore2.UpdateWorkspace. cbn.
  by destruct (_ !! _).
Qed.

Lemma low_LogEvent1 e db1 db2 :
  low db1 = low db2 →
  low (SQLiteStore1.LogEvent e db1).1.1 = low (SQLiteStore1.LogEvent e db2).1.1.
Proof.
  intros H. low_split H. unfold SQLiteStore1.LogEvent, insert_event. cbn.
  by destruct (_ !! _).
Qed.

Lemma low_LogEvent2 e db1 db2 :
  low db1 = low db2 →
  low (SQLiteStore2.LogEvent e db1).1.1 = low (SQLiteStore2.LogEvent e db2).1.1.
Proof.
  intros H. low_split H. unfold SQLiteStore2.LogEvent, insert_event. cbn.
  by destruct (_ !! _).
Qed.

Lemma low_delete_workspace id db1 db2 :
  low db1 = low db2 → low (delete_workspace id db1) = low (delete_workspace id db2).
Proof.
  intros H. low_split H. unfold delete_workspace. cbn. by destruct (_ !! _).
Qed.

Lemma low_delete_secrets id db : low (delete_secrets id db) = low db.
Proof. done. Qed.

Lemma low_insert_workspace row db1 db2 :
  low db1 = low db2 →
  low (insert_workspace row db1).1 = low (insert_workspace row db2).1
  ∧ (insert_workspace row db1).2 = (insert_workspace row db2).2.
Proof.
  intros H. low_split H. unfold insert_workspace. cbn. by destruct (_ !! _).
Qed.


Section handlers2.
Context {C : Type} (R : relation C) (o : orchestrator.Orchestrator C).
Hypothesis Ho : discreet R o.


Lemma low_transition2 id ws status eventType message db1 db2 :
  low db1 = low db2 →
  low (WorkspaceHandlers.transition SQLiteStore2.impl id ws status eventType message db1).1
  = low (WorkspaceHandlers.transition SQLiteStore2.impl id ws status eventType message db2).1
  ∧ (WorkspaceHandlers.transition SQLiteStore2.impl id ws status eventType message db1).2
    = (WorkspaceHandlers.transition SQLiteStore2.impl id ws status eventType message db2).2.
Proof.
  intros H. unfold WorkspaceHandlers.transition.
  cbn [UpdateWorkspace LogEvent SQLiteStore2.impl].
  destruct (low_Update2 (withStatus ws status) db1 db2 H) as [H1 Hws].
  destruct (SQLiteStore2.UpdateWorkspace _ db1) as [[s1 ws1] e1].
  destruct (SQLiteStore2.UpdateWorkspace _ db2) as [[s1' ws1'] e1'].
  cbn [fst snd] in H1, Hws. subst ws1'.
  match goal with |- context [SQLiteStore2.LogEvent ?e s1] =>
    pose proof (low_LogEvent2 e s1 s1' H1) as H2;
    destruct (SQLiteStore2.LogEvent e s1) as [[s2 ev] e2];
    destruct (SQLiteStore2.LogEvent e s1') as [[s2' ev'] e2'] end.
  done.
Qed.

Lemma low_saveSecrets id kvs1 kvs2 db1 db2 :
  low db1 = low db2 → fst <$> kvs1 = fst <$> kvs2 →
  low (WorkspaceHandlers.saveSecrets SQLiteStore2.impl id kvs1 db1).1
  = low (WorkspaceHandlers.saveSecrets SQLiteStore2.impl id kvs2 db2).1
  ∧ blank <$> (WorkspaceHandlers.saveSecrets SQLiteStore2.impl id kvs1 db1).2
    = blank <$> (WorkspaceHandlers.saveSecrets SQLiteStore2.impl id kvs2 db2).2.
Proof.
  intros H Hk.
  destruct (saveSecrets_low id kvs1 db1) as [-> ->].
  destruct (saveSecrets_low id kvs2 db2) as [-> ->].
  split; [done|]. by apply request_secrets_blank.
Qed.

Lemma sim_Create2 id r1 r2 σ1 σ2 :
  public r1 = public r2 → sim2 R σ1 σ2 →
  (Daemon2.step o (ReqCreate id (inr r1)) σ1).2 = (Daemon2.step o (ReqCreate id (inr r2)) σ2).2
  ∧ sim2 R (Daemon2.step o (ReqCreate id (inr r1)) σ1).1
         (Daemon2.step o (ReqCreate id (inr r2)) σ2).1.
Proof.
  intros Hp [H HR]. destruct (public_fields r1 r2 Hp) as (Hname & Hkeys & _ & Hnew).
  cbn [Daemon2.step]. unfold WorkspaceHandlers.CreateWorkspace, WorkspaceHandlers.ShouldBindJSON.
  rewrite Hname. case_decide; [done|].
  cbn [CreateWorkspace LogEvent UpdateWorkspace SQLiteStore2.impl].
  unfold SQLiteStore2.CreateWorkspace. rewrite (Hnew id).
  assert (clock (Daemon2.db σ1) = clock (Daemon2.db σ2)) as -> by (unfold low in H; congruence).
  match goal with |- context [insert_workspace ?row (Daemon2.db σ1)] =>
    destruct (low_insert_workspace row _ _ H) as [H1 He1];
    destruct (insert_workspace row (Daemon2.db σ1)) as [s1 e1];
    destruct (insert_workspace row (Daemon2.db σ2)) as [s1' e1'];
    set (ws := row) in * end.
  cbn [fst snd] in H1, He1. subst e1'. destruct e1 as [e|]; [done|].
  destruct (low_saveSecrets id _ _ _ _ H1 Hkeys) as [H2 Hsecs].
  destruct (WorkspaceHandlers.saveSecrets _ id (api.Secrets r1) s1) as [s2 secs].
  destruct (WorkspaceHandlers.saveSecrets _ id (api.Secrets r2) s1') as [s2' secs'].
  cbn [fst snd] in H2, Hsecs.
  match goal with |- context [SQLiteStore2.LogEvent ?e s2] =>
    pose proof (low_LogEvent2 e s2 s2' H2) as H3;
    destruct (SQLiteStore2.LogEvent e s2) as [[s3 ev] e3];
    destruct (SQLiteStore2.LogEvent e s2') as [[s3' ev'] e3'] end.
  cbn [fst] in H3.
  destruct (discreet_deploy R o Ho ws secs secs' _ _ HR Hsecs) as [He HR'].
  destruct (orchestrator.DeployWorkspace o ws secs _) as [c1 d1].
  destruct (orchestrator.DeployWorkspace o ws secs' _) as [c2 d2].
  cbn [fst snd] in He, HR'. subst d2. destruct d1 as [e|].
  - destruct (low_Update2 (withStatus ws StatusError) s3 s3' H3) as [H4 Hws].
    destruct (SQLiteStore2.UpdateWorkspace _ s3) as [[s4 ws4] e4].
    destruct (SQLiteStore2.UpdateWorkspace _ s3') as [[s4' ws4'] e4'].
    cbn [fst snd] in H4, Hws.
    match goal with |- context [SQLiteStore2.LogEvent ?e s4] =>
      pose proof (low_LogEvent2 e s4 s4' H4) as H5;
      destruct (SQLiteStore2.LogEvent e s4) as [[s5 ev5] e5];
      destruct (SQLiteStore2.LogEvent e s4') as [[s5' ev5'] e5'] end.
    done.
  - destruct (low_Update2 (withStatus ws StatusRunning) s3 s3' H3) as [H4 Hws].
    destruct (SQLiteStore2.UpdateWorkspace _ s3) as [[s4 ws4] e4].
    destruct (SQLiteStore2.UpdateWorkspace _ s3') as [[s4' ws4'] e4'].
    cbn [fst snd] in H4, Hws. subst ws4'.
    match goal with |- context [SQLiteStore2.LogEvent ?e s4] =>
      pose proof (low_LogEvent2 e s4 s4' H4) as H5;
      destruct (SQLiteStore2.LogEvent e s4) as [[s5 ev5] e5];
      destruct (SQLiteStore2.LogEvent e s4') as [[s5' ev5'] e5'] end.
    done.
Qed.

Lemma sim_same2 a σ1 σ2 :
  sim2 R σ1 σ2 →
  (Daemon2.step o a σ1).2 = (Daemon2.step o a σ2).2
  ∧ sim2 R (Daemon2.step o a σ1).1 (Daemon2.step o a σ2).1.
Proof.
  intros Hsim. destruct a as [|id [e|req]|id|id|id|id|id limit|t|n].
  - destruct Hsim as [H HR]. cbn [Daemon2.step]. unfold WorkspaceHandlers.ListWorkspaces.
    cbn [ListWorkspaces SQLiteStore2.impl]. unfold SQLiteStore2.ListWorkspaces.
    by rewrite (low_select_workspaces _ _ H).
  - done.
  - by apply sim_Create2.
  - destruct Hsim as [H HR]. cbn [Daemon2.step]. unfold WorkspaceHandlers.GetWorkspace.
    cbn [GetWorkspace SQLiteStore2.impl]. rewrite (low_GetWorkspace2 id _ _ H).
    destruct (SQLiteStore2.GetWorkspace id (Daemon2.db σ2)) as [[ws|] [e|]]; try done.
    by rewrite (discreet_status R o Ho ws _ _ HR).
  - destruct Hsim as [H HR]. cbn [Daemon2.step]. unfold WorkspaceHandlers.DeleteWorkspace.
    cbn [GetWorkspace DeleteSecrets DeleteWorkspace SQLiteStore2.impl].
    rewrite (low_GetWorkspace2 id _ _ H).
    destruct (SQLiteStore2.GetWorkspace id (Daemon2.db σ2)) as [[ws|] [e|]]; try done.
    destruct (discreet_delete R o Ho ws _ _ HR) as [He HR'].
    destruct (orchestrator.DeleteWorkspace o ws (Daemon2.cluster σ1)) as [c1 e1].
    destruct (orchestrator.DeleteWorkspace o ws (Daemon2.cluster σ2)) as [c2 e2].
    unfold SQLiteStore2.DeleteSecrets, SQLiteStore2.DeleteWorkspace. cbn [fst snd] in *.
    split; [done|]. split; [|done]. cbn [Daemon2.db].
    apply low_delete_workspace. by rewrite !low_delete_secrets.
  - destruct Hsim as [H HR]. cbn [Daemon2.step]. unfold WorkspaceHandlers.StartWorkspace.
    cbn [GetWorkspace SQLiteStore2.impl]. rewrite (low_GetWorkspace2 id _ _ H).
    destruct (SQLiteStore2.GetWorkspace id (Daemon2.db σ2)) as [[ws|] [e|]]; try done.
    destruct (discreet_start R o Ho ws _ _ HR) as [He HR'].
    destruct (orchestrator.StartWorkspace o ws (Daemon2.cluster σ1)) as [c1 e1].
    destruct (orchestrator.StartWorkspace o ws (Daemon2.cluster σ2)) as [c2 e2].
    cbn [fst snd] in He, HR'. subst e2. destruct e1 as [e|]; [done|].
    destruct (low_transition2 id ws StatusRunning "started" "Workspace started" _ _ H)
      as [H1 Hr].
    destruct (WorkspaceHandlers.transition _ _ _ _ _ _ (Daemon2.db σ1)) as [s1 r1].
    destruct (WorkspaceHandlers.transition _ _ _ _ _ _ (Daemon2.db σ2)) as [s2 r2].
    cbn [fst snd] in *. by subst.
  - destruct Hsim as [H HR]. cbn [Daemon2.step]. unfold WorkspaceHandlers.StopWorkspace.
    cbn [GetWorkspace SQLiteStore2.impl]. rewrite (low_GetWorkspace2 id _ _ H).
    destruct (SQLiteStore2.GetWorkspace id (Daemon2.db σ2)) as [[ws|] [e|]]; try done.
    destruct (discreet_stop R o Ho ws _ _ HR) as [He HR'].
    destruct (orchestrator.StopWorkspace o ws (Daemon2.cluster σ1)) as [c1 e1].
    destruct (orchestrator.StopWorkspace o ws (Daemon2.cluster σ2)) as [c2 e2].
    cbn [fst snd] in He, HR'. subst e2. destruct e1 as [e|]; [done|].
    destruct (low_transition2 id ws StatusStopped "stopped" "Workspace stopped" _ _ H)
      as [H1 Hr].
    destruct (WorkspaceHandlers.transition _ _ _ _ _ _ (Daemon2.db σ1)) as [s1 r1].
    destruct (WorkspaceHandlers.transition _ _ _ _ _ _ (Daemon2.db σ2)) as [s2 r2].
    cbn [fst snd] in *. by subst.
  - destruct Hsim as [H HR]. cbn [Daemon2.step]. unfold WorkspaceHandlers.GetEvents.
    cbn [GetEvents SQLiteStore2.impl]. unfold SQLiteStore2.GetEvents.
    by rewrite (low_select_events _ _ _ _ H).
  - destruct Hsim as [H HR]. cbn [Daemon2.step]. split; [done|]. split; [|done].
    cbn [Daemon2.db]. low_split H. done.
  - done.
Qed.

Lemma sim_step2 a1 a2 σ1 σ2 :
  same_public a1 a2 → sim2 R σ1 σ2 →
  (Daemon2.step o a1 σ1).2 = (Daemon2.step o a2 σ2).2
  ∧ sim2 R (Daemon2.step o a1 σ1).1 (Daemon2.step o a2 σ2).1.
Proof.
  intros Ha Hsim.
  destruct a1 as [|id1 [e1|r1]|id1|id1|id1|id1|id1 l1|t1|n1]; cbn in Ha;
    try (subst a2; by apply sim_same2).
  destruct a2 as [|id2 [e2|r2]|id2|id2|id2|id2|id2 l2|t2|n2]; try done.
  destruct Ha as [-> Hp]. by apply sim_Create2.
Qed.

End handlers2.

Section handlers1.
Context {C : Type} (R : relation C) (orch : option (orchestrator.Orchestrator C)).
Hypothesis Ho : ∀ o, orch = Some o → discreet R o.


Lemma low_storeSecrets id kvs1 kvs2 db1 db2 :
  low db1 = low db2 → fst <$> kvs1 = fst <$> kvs2 →
  low (WorkspaceHandler.storeSecrets SQLiteStore1.impl id kvs1 db1).1
  = low (WorkspaceHandler.storeSecrets SQLiteStore1.impl id kvs2 db2).1
  ∧ blank <$> (WorkspaceHandler.storeSecrets SQLiteStore1.impl id kvs1 db1).2
    = blank <$> (WorkspaceHandler.storeSecrets SQLiteStore1.impl id kvs2 db2).2.
Proof.
  intros H Hk.
  destruct (storeSecrets_low id kvs1 db1) as [-> ->].
  destruct (storeSecrets_low id kvs2 db2) as [-> ->].
  split; [done|]. by apply request_secrets_blank.
Qed.

Lemma low_transition1 id ws status eventType message db1 db2 :
  low db1 = low db2 →
  low (WorkspaceHandler.transition SQLiteStore1.impl id ws status eventType message db1).1
  = low (WorkspaceHandler.transition SQLiteStore1.impl id ws status eventType message db2).1
  ∧ (WorkspaceHandler.transition SQLiteStore1.impl id ws status eventType message db1).2
    = (WorkspaceHandler.transition SQLiteStore1.impl id ws status eventType message db2).2.
Proof.
  intros H. unfold WorkspaceHandler.transition.
  cbn [UpdateWorkspace LogEvent GetWorkspace SQLiteStore1.impl].
  pose proof (low_Update1 (withStatus ws status) db1 db2 H) as H1.
  destruct (SQLiteStore1.UpdateWorkspace _ db1) as [[s1 ws1] e1].
  destruct (SQLiteStore1.UpdateWorkspace _ db2) as [[s1' ws1'] e1'].
  cbn [fst snd] in H1.
  match goal with |- context [SQLiteStore1.LogEvent ?e s1] =>
    pose proof (low_LogEvent1 e s1 s1' H1) as H2;
    destruct (SQLiteStore1.LogEvent e s1) as [[s2 ev] e2];
    destruct (SQLiteStore1.LogEvent e s1') as [[s2' ev'] e2'] end.
  cbn [fst] in H2. rewrite (low_GetWorkspace1 id _ _ H2).
  by destruct (SQLiteStore1.GetWorkspace id s2') as [[?|] ?].
Qed.

Lemma low_withContext {A} ctx (write : DB → DB * A * error) db1 db2 :
  low db1 = low db2 → low (write db1).1.1 = low (write db2).1.1 →
  low (WorkspaceHandler.withContext ctx write db1).1
  = low (WorkspaceHandler.withContext ctx write db2).1.
Proof.
  intros H Hw. unfold WorkspaceHandler.withContext.
  destruct (context.Err ctx); [done|].
  by destruct (write db1) as [[s1 a1] e1], (write db2) as [[s2 a2] e2].
Qed.

Lemma low_deploy1 ctx o t1 t2 db1 db2 c1 c2 :
  discreet R o → same_task t1 t2 → low db1 = low db2 → R c1 c2 →
  low (WorkspaceHandler.deploy SQLiteStore1.impl ctx o t1 db1 c1).1
  = low (WorkspaceHandler.deploy SQLiteStore1.impl ctx o t2 db2 c2).1
  ∧ R (WorkspaceHandler.deploy SQLiteStore1.impl ctx o t1 db1 c1).2
      (WorkspaceHandler.deploy SQLiteStore1.impl ctx o t2 db2 c2).2.
Proof.
  intros Hd (Hid & Hws & Hsecs) H HR. unfold WorkspaceHandler.deploy.
  cbn [UpdateWorkspace LogEvent SQLiteStore1.impl]. rewrite Hid, Hws.
  destruct (discreet_deploy R o Hd (WorkspaceHandler.task_ws t2) _ _ _ _ HR Hsecs) as [He HR'].
  destruct (orchestrator.DeployWorkspace o _ (WorkspaceHandler.task_secrets t1) c1) as [c1' d1].
  destruct (orchestrator.DeployWorkspace o _ (WorkspaceHandler.task_secrets t2) c2) as [c2' d2].
  cbn [fst snd] in He, HR'. subst d2.
  destruct d1 as [e|];
    (match goal with |- context [WorkspaceHandler.withContext ctx ?w db1] =>
       pose proof (low_withContext ctx w db1 db2 H (low_Update1 _ db1 db2 H)) as H1;
       destruct (WorkspaceHandler.withContext ctx w db1) as [s1 e1];
       destruct (WorkspaceHandler.withContext ctx w db2) as [s1' e1'] end);
    cbn [fst] in H1;
    (match goal with |- context [WorkspaceHandler.withContext ?k ?w ?x] =>
       match goal with |- context [WorkspaceHandler.withContext k w ?y] =>
         tryif constr_eq x y then fail else
         (pose proof (low_withContext k w x y H1 (low_LogEvent1 _ x y H1)) as H2;
          destruct (WorkspaceHandler.withContext k w x) as [s2 e2];
          destruct (WorkspaceHandler.withContext k w y) as [s2' e2'])
       end
     end);
    done.
Qed.

Lemma listItem_sim c1 c2 ws :
  R c1 c2 → WorkspaceHandler.listItem orch c1 ws = WorkspaceHandler.listItem orch c2 ws.
Proof.
  intros HR. unfold WorkspaceHandler.listItem. destruct orch as [o|] eqn:E; [|done].
  case_decide; [|done]. by rewrite (discreet_status R o (Ho o eq_refl) ws _ _ HR).
Qed.

Lemma sim_Create1 id r1 r2 σ1 σ2 :
  public r1 = public r2 → sim1 R σ1 σ2 →
  (Daemon1.step orch (ReqCreate id (inr r1)) σ1).2
  = (Daemon1.step orch (ReqCreate id (inr r2)) σ2).2
  ∧ sim1 R (Daemon1.step orch (ReqCreate id (inr r1)) σ1).1
         (Daemon1.step orch (ReqCreate id (inr r2)) σ2).1.
Proof.
  intros Hp (H & HR & Hg). destruct (public_fields r1 r2 Hp) as (Hname & Hkeys & Hnew & _).
  cbn [Daemon1.step]. unfold WorkspaceHandler.Create, WorkspaceHandler.ShouldBindJSON.
  rewrite Hname.
  case_decide; [by cbn; rewrite !app_nil_r|].
  destruct (63 <? _)%Z; [by cbn; rewrite !app_nil_r|].
  cbn [CreateWorkspace LogEvent GetWorkspace SQLiteStore1.impl].
  unfold SQLiteStore1.CreateWorkspace. rewrite (Hnew id).
  assert (clock (Daemon1.db σ1) = clock (Daemon1.db σ2)) as -> by (unfold low in H; congruence).
  match goal with |- context [insert_workspace ?row (Daemon1.db σ1)] =>
    destruct (low_insert_workspace row _ _ H) as [H1 He1];
    destruct (insert_workspace row (Daemon1.db σ1)) as [s1 e1];
    destruct (insert_workspace row (Daemon1.db σ2)) as [s1' e1'] end.
  cbn [fst snd] in H1, He1. subst e1'. destruct e1 as [e|].
  { cbn [fst snd Daemon1.db Daemon1.cluster Daemon1.goroutines option_list].
    rewrite !app_nil_r. done. }
  destruct (low_storeSecrets id _ _ _ _ H1 Hkeys) as [H2 Hsecs].
  destruct (WorkspaceHandler.storeSecrets _ id (api.Secrets r1) s1) as [s2 secs].
  destruct (WorkspaceHandler.storeSecrets _ id (api.Secrets r2) s1') as [s2' secs'].
  cbn [fst snd] in H2, Hsecs.
  rewrite ?Hname.
  match goal with |- context [SQLiteStore1.LogEvent ?e s2] =>
    pose proof (low_LogEvent1 e s2 s2' H2) as H3;
    destruct (SQLiteStore1.LogEvent e s2) as [[s3 ev] e3];
    destruct (SQLiteStore1.LogEvent e s2') as [[s3' ev'] e3'] end.
  cbn [fst] in H3. rewrite (low_GetWorkspace1 id _ _ H3).
  assert (Forall2 same_task
            (Daemon1.goroutines σ1 ++
               option_list match orch with
                           | Some _ => Some (WorkspaceHandler.mkTask id
                                               (WorkspaceHandler.newWorkspace id r2) secs)
                           | None => None end)
            (Daemon1.goroutines σ2 ++
               option_list match orch with
                           | Some _ => Some (WorkspaceHandler.mkTask id
                                               (WorkspaceHandler.newWorkspace id r2) secs')
                           | None => None end)) as Hg'.
  { apply Forall2_app; [done|]. destruct orch; [|constructor].
    constructor; [|constructor]. done. }
  by destruct (SQLiteStore1.GetWorkspace id s3') as [[?|] ?].
Qed.

Lemma sim_same1 a σ1 σ2 :
  sim1 R σ1 σ2 →
  (Daemon1.step orch a σ1).2 = (Daemon1.step orch a σ2).2
  ∧ sim1 R (Daemon1.step orch a σ1).1 (Daemon1.step orch a σ2).1.
Proof.
  intros Hsim. destruct a as [|id [e|req]|id|id|id|id|id limit|t|n].
  - destruct Hsim as (H & HR & Hg). cbn [Daemon1.step]. unfold WorkspaceHandler.List.
    cbn [ListWorkspaces SQLiteStore1.impl]. unfold SQLiteStore1.ListWorkspaces.
    rewrite (low_select_workspaces _ _ H).
    split; [|done]. cbn [snd].
    rewrite (list_fmap_ext (WorkspaceHandler.listItem orch (Daemon1.cluster σ1))
               (WorkspaceHandler.listItem orch (Daemon1.cluster σ2))); [done|].
    intros i ws _. by apply listItem_sim.
  - destruct Hsim as (H & HR & Hg). cbn. rewrite !app_nil_r. done.
  - by apply sim_Create1.
  - destruct Hsim as (H & HR & Hg). cbn [Daemon1.step]. unfold WorkspaceHandler.Get.
    cbn [GetWorkspace SQLiteStore1.impl]. rewrite (low_GetWorkspace1 id _ _ H).
    destruct (SQLiteStore1.GetWorkspace id (Daemon1.db σ2)) as [[ws|] [e|]]; try done.
    destruct orch as [o|] eqn:E; [|done].
    by rewrite (discreet_status R o (Ho o eq_refl) ws _ _ HR).
  - destruct Hsim as (H & HR & Hg). cbn [Daemon1.step]. unfold WorkspaceHandler.Delete.
    cbn [GetWorkspace DeleteWorkspace SQLiteStore1.impl].
    rewrite (low_GetWorkspace1 id _ _ H). unfold SQLiteStore1.DeleteWorkspace.
    pose proof (low_delete_workspace id _ _ H) as Hdel.
    destruct (SQLiteStore1.GetWorkspace id (Daemon1.db σ2)) as [[ws|] [e|]]; try done.
    + destruct orch as [o|] eqn:E; [|done].
      split; [done|]. split_and!; [done| |done].
      by apply (discreet_delete R o (Ho o eq_refl) ws _ _ HR).
    + by destruct orch.
  - destruct Hsim as (H & HR & Hg). cbn [Daemon1.step]. unfold WorkspaceHandler.Start.
    cbn [GetWorkspace SQLiteStore1.impl]. rewrite (low_GetWorkspace1 id _ _ H).
    destruct (SQLiteStore1.GetWorkspace id (Daemon1.db σ2)) as [[ws|] [e|]]; try done.
    case_decide; [done|].
    assert (∃ x1 x2 e,
      match orch with Some o => orchestrator.StartWorkspace o ws (Daemon1.cluster σ1)
                    | None => (Daemon1.cluster σ1, None) end = (x1, e)
      ∧ match orch with Some o => orchestrator.StartWorkspace o ws (Daemon1.cluster σ2)
                      | None => (Daemon1.cluster σ2, None) end = (x2, e)
      ∧ R x1 x2) as (x1 & x2 & e & -> & -> & HR').
    { destruct orch as [o|] eqn:E; [|by eauto 6].
      destruct (discreet_start R o (Ho o eq_refl) ws _ _ HR) as [He HR'].
      destruct (orchestrator.StartWorkspace o ws (Daemon1.cluster σ1)) as [c1 e1].
      destruct (orchestrator.StartWorkspace o ws (Daemon1.cluster σ2)) as [c2 e2].
      cbn [fst snd] in *. subst. eauto 6. }
    destruct e as [e|]; [done|].
    destruct (low_transition1 id ws StatusRunning "started" "Workspace started" _ _ H)
      as [H1 Hr].
    destruct (WorkspaceHandler.transition _ _ _ _ _ _ (Daemon1.db σ1)) as [s1 r1].
    destruct (WorkspaceHandler.transition _ _ _ _ _ _ (Daemon1.db σ2)) as [s2 r2].
    cbn [fst snd] in *. by subst.
  - destruct Hsim as (H & HR & Hg). cbn [Daemon1.step]. unfold WorkspaceHandler.Stop.
    cbn [GetWorkspace SQLiteStore1.impl]. rewrite (low_GetWorkspace1 id _ _ H).
    destruct (SQLiteStore1.GetWorkspace id (Daemon1.db σ2)) as [[ws|] [e|]]; try done.
    case_decide; [done|].
    assert (∃ x1 x2 e,
      match orch with Some o => orchestrator.StopWorkspace o ws (Daemon1.cluster σ1)
                    | None => (Daemon1.cluster σ1, None) end = (x1, e)
      ∧ match orch with Some o => orchestrator.StopWorkspace o ws (Daemon1.cluster σ2)
                      | None => (Daemon1.cluster σ2, None) end = (x2, e)
      ∧ R x1 x2) as (x1 & x2 & e & -> & -> & HR').
    { destruct orch as [o|] eqn:E; [|by eauto 6].
      destruct (discreet_stop R o (Ho o eq_refl) ws _ _ HR) as [He HR'].
      destruct (orchestrator.StopWorkspace o ws (Daemon1.cluster σ1)) as [c1 e1].
      destruct (orchestrator.StopWorkspace o ws (Daemon1.cluster σ2)) as [c2 e2].
      cbn [fst snd] in *. subst. eauto 6. }
    destruct e as [e|]; [done|].
    destruct (low_transition1 id ws StatusStopped "stopped" "Workspace stopped" _ _ H)
      as [H1 Hr].
    destruct (WorkspaceHandler.transition _ _ _ _ _ _ (Daemon1.db σ1)) as [s1 r1].
    destruct (WorkspaceHandler.transition _ _ _ _ _ _ (Daemon1.db σ2)) as [s2 r2].
    cbn [fst snd] in *. by subst.
  - destruct Hsim as (H & HR & Hg). cbn [Daemon1.step]. unfold WorkspaceHandler.Events.
    cbn [GetWorkspace GetEvents SQLiteStore1.impl]. rewrite (low_GetWorkspace1 id _ _ H).
    unfold SQLiteStore1.GetEvents. by rewrite (low_select_events _ _ _ _ H).
  - destruct Hsim as (H & HR & Hg). cbn [Daemon1.step]. split; [done|]. split_and!; [|done..].
    cbn [Daemon1.db]. low_split H. done.
  - destruct Hsim as (H & HR & Hg). cbn [Daemon1.step].
    destruct (Daemon1.goroutines σ1 !! n) as [t1|] eqn:E1.
    + destruct (Forall2_lookup_l _ _ _ _ _ Hg E1) as (t2 & E2 & Ht). rewrite E2.
      destruct orch as [o|] eqn:E; [|done].
      destruct (low_deploy1 ctx o t1 t2 _ _ _ _ (Ho o eq_refl) Ht H HR) as [H1 HR1].
      destruct (WorkspaceHandler.deploy _ ctx o t1 _ _) as [s1 c1].
      destruct (WorkspaceHandler.deploy _ ctx o t2 _ _) as [s2 c2].
      split; [done|]. split_and!; [done..|]. by apply Forall2_delete.
    + assert (Daemon1.goroutines σ2 !! n = None) as ->; [|done].
      apply lookup_ge_None. apply lookup_ge_None in E1.
      by rewrite <- (Forall2_length _ _ _ Hg).
Qed.

Lemma sim_step1 a1 a2 σ1 σ2 :
  same_public a1 a2 → sim1 R σ1 σ2 →
  (Daemon1.step orch a1 σ1).2 = (Daemon1.step orch a2 σ2).2
  ∧ sim1 R (Daemon1.step orch a1 σ1).1 (Daemon1.step orch a2 σ2).1.
Proof.
  intros Ha Hsim.
  destruct a1 as [|id1 [e1|r1]|id1|id1|id1|id1|id1 l1|t1|n1]; cbn in Ha;
    try (subst a2; by apply sim_same1).
  destruct a2 as [|id2 [e2|r2]|id2|id2|id2|id2|id2 l2|t2|n2]; try done.
  destruct Ha as [-> Hp]. by apply sim_Create1.
Qed.

End handlers1.
End secrets.

(** *** The claim *)

Section secret_values.
Import sqlite.

(** The mock's answers are fixed, so they do not depend on secret values. *)
Lemma MockOrchestrator_discreet (deployError : error) :
  discreet eq (doubles.MockOrchestrator deployError).
Proof. split; intros; cbn; by subst. Qed.

(** C10 as stated fails: a response body and an event message contain a secret
    value when the same text is also the workspace name, or when the
    orchestrator's error quotes the value. *)
Lemma C10_counterexample :
  let create o name kvs :=
    Daemon2.step o (ReqCreate "a1b2c3d4"
                      (inr (api.mkRequest name "" "" "" "" "" "" "" "" "" "" kvs)))
      (Daemon2.init tt) in
  (* a secret value that is also the name of the workspace is in the response
     body and in the event message *)
  (let '(σ, reply) :=
     create (doubles.MockOrchestrator None) "hl_x"%string
       [("humanlayer_api_key", "hl_x")]%string in
   (∃ dto, reply = Some (JSON http.StatusCreated (api.WorkspaceResponse (Some dto) None))
           ∧ Name (api.Fields dto) = "hl_x"%string)
   ∧ contains "hl_x" <$> (Message <$> workspace_events (Daemon2.db σ)) = [true; false])
  (* an orchestrator error that quotes a secret value is carried into the
     response body and into the event message *)
  ∧ (let '(σ, reply) :=
       create doubles.QuotingOrchestrator "demo"%string [("gh_token", "ghp_y")]%string in
     reply = Some (JSON http.StatusInternalServerError
                     (api.WorkspaceResponse None
                        (Some "deployment failed: values rejected: ghp_y"%string)))
     ∧ Message <$> workspace_events (Daemon2.db σ)
       = ["Workspace demo created"; "Deployment failed: values rejected: ghp_y"]%string
     ∧ contains "ghp_y" "Deployment failed: values rejected: ghp_y" = true).
Proof.
  intros create. split.
  - destruct (create _ _ _) as [σ reply] eqn:E.
    vm_compute in E. injection E as <- <-. split.
    + eexists; split; reflexivity.
    + vm_compute; reflexivity.
  - destruct (create _ _ _) as [σ reply] eqn:E.
    vm_compute in E. injection E as <- <-.
    split_and!; vm_compute; reflexivity.
Qed.

(** C10 (as amended).  One step of either daemon, taken from two states that
    differ only in the secrets table (and, for the first daemon, in the secret
    values held by pending goroutines) on two requests that differ only in
    secret values, gives the same response and leaves the same workspace rows,
    the same event log, the same sequence and clock, whenever the
    orchestrator's answers do not depend on secret values.  No handler reads
    the secrets table; secret values go to [SetSecret] and to
    [DeployWorkspace] only. *)
Theorem C10_secret_values_not_shown :
  (∀ C (R : relation C) (o : orchestrator.Orchestrator C) (a1 a2 : Action)
     (σ1 σ2 : Daemon2.State),
     discreet R o → same_public a1 a2 → sim2 R σ1 σ2 →
     (Daemon2.step o a1 σ1).2 = (Daemon2.step o a2 σ2).2
     ∧ sim2 R (Daemon2.step o a1 σ1).1 (Daemon2.step o a2 σ2).1)
  ∧ (∀ C (R : relation C) (orch : option (orchestrator.Orchestrator C)) (a1 a2 : Action)
       (σ1 σ2 : Daemon1.State),
       (∀ o, orch = Some o → discreet R o) → same_public a1 a2 → sim1 R σ1 σ2 →
       (Daemon1.step orch a1 σ1).2 = (Daemon1.step orch a2 σ2).2
       ∧ sim1 R (Daemon1.step orch a1 σ1).1 (Daemon1.step orch a2 σ2).1).
Proof.
  split.
  - intros C R o a1 a2 σ1 σ2 Ho Ha Hsim. by apply sim_step2.
  - intros C R orch a1 a2 σ1 σ2 Ho Ha Hsim. by apply sim_step1.
Qed.

(** C10 for two creates that differ in the value of [gh_token]. *)
Lemma C10_secret_values_not_shown_witness :
  let o := doubles.MockOrchestrator None in
  let a1 := ReqCreate "a1b2c3d4" (inr (bare "n" "e" [("gh_token", "ghp_y")]%string)) in
  let a2 := ReqCreate "a1b2c3d4" (inr (bare "n" "e" [("gh_token", "ghp_z")]%string)) in
  (Daemon2.step o a1 (Daemon2.init tt)).2 = (Daemon2.step o a2 (Daemon2.init tt)).2
  ∧ sim2 eq (Daemon2.step o a1 (Daemon2.init tt)).1 (Daemon2.step o a2 (Daemon2.init tt)).1.
Proof.
  intros o a1 a2.
  apply (proj1 C10_secret_values_not_shown unit eq o a1 a2 (Daemon2.init tt) (Daemon2.init tt)).
  - apply MockOrchestrator_discreet.
  - split; reflexivity.
  - split; reflexivity.
Defined.

End secret_values.

(** ** The registry on its own *)

Section registry_integrity.
Import sqlite.

Lemma references_ok_insert_workspace row db :
  references_ok db → references_ok (insert_workspace row db).1.
Proof.
  intros [Hs He]. unfold insert_workspace.
  destruct (workspaces db !! ID row) eqn:Hrow; [done|].
  split; cbn.
  - intros k v Hk. destruct (decide (k.1 = ID row)) as [->|Hne].
    + rewrite lookup_insert_eq. eauto.
    + rewrite lookup_insert_ne by done. by eapply Hs.
  - eapply Forall_impl; [exact He|]. intros e Hx. cbn in Hx.
    destruct (decide (EventWorkspaceID e = ID row)) as [->|Hne].
    + rewrite lookup_insert_eq. eauto.
    + by rewrite lookup_insert_ne.
Qed.

Lemma references_ok_with_row db id row :
  is_Some (workspaces db !! id) →
  references_ok db →
  references_ok (with_workspaces db (<[id := row]> (workspaces db))).
Proof.
  intros Hid [Hs He]. split; cbn.
  - intros k v Hk. destruct (decide (k.1 = id)) as [->|Hne].
    + rewrite lookup_insert_eq. eauto.
    + rewrite lookup_insert_ne by done. by eapply Hs.
  - eapply Forall_impl; [exact He|]. intros e Hx. cbn in Hx.
    destruct (decide (EventWorkspaceID e = id)) as [->|Hne].
    + rewrite lookup_insert_eq. eauto.
    + by rewrite lookup_insert_ne.
Qed.

Lemma references_ok_delete_workspace id db :
  references_ok db → references_ok (delete_workspace id db).
Proof.
  intros [Hs He]. unfold delete_workspace.
  destruct (workspaces db !! id) eqn:Hrow; [|done].
  split; cbn.
  - intros k v [Hk Hne]%map_lookup_filter_Some. cbn in Hne.
    rewrite lookup_delete_ne by done. by eapply Hs.
  - apply Forall_forall. intros e [Hne Hin]%list_elem_of_filter.
    rewrite lookup_delete_ne by done.
    by eapply (proj1 (Forall_forall _ _) He).
Qed.

Lemma references_ok_upsert_secret s db :
  references_ok db → references_ok (upsert_secret s db).1.
Proof.
  intros [Hs He]. unfold upsert_secret.
  destruct (workspaces db !! SecretWorkspaceID s) eqn:Hrow; [|done].
  split; cbn; [|done].
  apply map_Forall_insert_2; [cbn; rewrite Hrow; eauto|exact Hs].
Qed.

Lemma references_ok_delete_secrets id db :
  references_ok db → references_ok (delete_secrets id db).
Proof.
  intros [Hs He]. split; cbn; [|done].
  intros k v [Hk Hne]%map_lookup_filter_Some. by eapply Hs.
Qed.

Lemma references_ok_insert_event e t db :
  references_ok db → references_ok (insert_event e t db).1.1.
Proof.
  intros [Hs He]. unfold insert_event.
  destruct (workspaces db !! EventWorkspaceID e) eqn:Hrow; [|done].
  split; cbn; [done|]. apply Forall_app. split; [done|].
  apply Forall_singleton. cbn. by rewrite Hrow.
Qed.

Lemma references_ok_advance t db : references_ok db → references_ok (advance t db).
Proof. by intros [Hs He]. Qed.

Lemma rows_keyed_insert_workspace row db :
  rows_keyed db → rows_keyed (insert_workspace row db).1.
Proof.
  intros Hk. unfold insert_workspace.
  destruct (workspaces db !! ID row) eqn:Hrow; [done|].
  by apply map_Forall_insert_2.
Qed.

Lemma rows_keyed_delete_workspace id db :
  rows_keyed db → rows_keyed (delete_workspace id db).
Proof.
  intros Hk. unfold delete_workspace.
  destruct (workspaces db !! id) eqn:Hrow; [|done].
  by apply map_Forall_delete.
Qed.

Lemma rows_keyed_insert_event e t db :
  rows_keyed db → rows_keyed (insert_event e t db).1.1.
Proof. unfold rows_keyed. by rewrite insert_event_workspaces. Qed.

Lemma rows_keyed_upsert_secret s db :
  rows_keyed db → rows_keyed (upsert_secret s db).1.
Proof. unfold upsert_secret. by destruct (workspaces db !! _). Qed.

Lemma LogEvent1_db e db :
  (SQLiteStore1.LogEvent e db).1.1 = (insert_event e (clock db) db).1.1.
Proof.
  unfold SQLiteStore1.LogEvent.
  by destruct (insert_event e (clock db) db) as [[db' i] [err|]].
Qed.

Lemma LogEvent2_db e db :
  (SQLiteStore2.LogEvent e db).1.1
  = (insert_event (mkEvent (EventID e) (EventWorkspaceID e) (EventType e)
                     (Message e) (Metadata e) (clock db)) (clock db) db).1.1.
Proof.
  unfold SQLiteStore2.LogEvent.
  by destruct (insert_event _ (clock db) db) as [[db' i] [err|]].
Qed.

Lemma Create1_db ws db :
  (SQLiteStore1.CreateWorkspace ws db).1.1
  = (insert_workspace (stamped ws (clock db) (clock db)) db).1.
Proof.
  unfold SQLiteStore1.CreateWorkspace, stamped.
  by destruct (insert_workspace _ db).
Qed.

Lemma Create2_db ws db :
  (SQLiteStore2.CreateWorkspace ws db).1.1
  = (insert_workspace
       (stamped (withStatus ws (if decide (Status ws = ""%string)
                                then StatusPending else Status ws))
          (clock db) (clock db)) db).1.
Proof.
  unfold SQLiteStore2.CreateWorkspace, stamped, withStatus. cbn.
  by destruct (insert_workspace _ db).
Qed.

Lemma call1_invariant c db :
  references_ok db ∧ rows_keyed db →
  references_ok (call SQLiteStore1.impl c db).1 ∧ rows_keyed (call SQLiteStore1.impl c db).1.
Proof.
  intros [Hr Hk]. destruct c as [ws|ws|id|s|id|e|t]; cbn [call fst].
  - cbn [CreateWorkspace SQLiteStore1.impl]. rewrite Create1_db.
    split; [by apply references_ok_insert_workspace|by apply rows_keyed_insert_workspace].
  - cbn [UpdateWorkspace SQLiteStore1.impl]. unfold SQLiteStore1.UpdateWorkspace.
    destruct (workspaces db !! ID ws) as [row|] eqn:Hrow; [|done]. cbn [fst].
    split; [apply references_ok_with_row; eauto|].
    apply map_Forall_insert_2; [|done]. cbn. by apply Hk in Hrow.
  - split; [by apply references_ok_delete_workspace|by apply rows_keyed_delete_workspace].
  - split; [by apply references_ok_upsert_secret|by apply rows_keyed_upsert_secret].
  - split; [by apply references_ok_delete_secrets|done].
  - cbn [LogEvent SQLiteStore1.impl].
    pose proof (LogEvent1_db e db) as Hdb.
    destruct (SQLiteStore1.LogEvent e db) as [[db' e'] err]. cbn [fst] in *. subst db'.
    split; [by apply references_ok_insert_event|by apply rows_keyed_insert_event].
  - split; [by apply references_ok_advance|done].
Qed.

Lemma call2_invariant c db :
  references_ok db ∧ rows_keyed db →
  references_ok (call SQLiteStore2.impl c db).1 ∧ rows_keyed (call SQLiteStore2.impl c db).1.
Proof.
  intros [Hr Hk]. destruct c as [ws|ws|id|s|id|e|t]; cbn [call fst].
  - cbn [CreateWorkspace SQLiteStore2.impl]. rewrite Create2_db.
    split; [by apply references_ok_insert_workspace|by apply rows_keyed_insert_workspace].
  - cbn [UpdateWorkspace SQLiteStore2.impl]. unfold SQLiteStore2.UpdateWorkspace.
    destruct (workspaces db !! ID ws) as [row|] eqn:Hrow; [|done]. cbn [fst].
    split; [apply references_ok_with_row; eauto|].
    apply map_Forall_insert_2; [|done]. cbn. by apply Hk in Hrow.
  - split; [by apply references_ok_delete_workspace|by apply rows_keyed_delete_workspace].
  - split; [by apply references_ok_upsert_secret|by apply rows_keyed_upsert_secret].
  - split; [by apply references_ok_delete_secrets|done].
  - cbn [LogEvent SQLiteStore2.impl].
    pose proof (LogEvent2_db e db) as Hdb.
    destruct (SQLiteStore2.LogEvent e db) as [[db' e'] err]. cbn [fst] in *. subst db'.
    split; [by apply references_ok_insert_event|by apply rows_keyed_insert_event].
  - split; [by apply references_ok_advance|done].
Qed.

Lemma calls_invariant (st : Store DB) (P : DB → Prop) :
  (∀ c db, P db → P (call st c db).1) →
  ∀ cs db, P db → P (calls st cs db).1.
Proof.
  intros Hstep cs. induction cs as [|c cs IH]; intros db HP; [done|].
  cbn [calls]. specialize (Hstep c db HP).
  destruct (call st c db) as [db1 i]. specialize (IH db1 Hstep).
  by destruct (calls st cs db1) as [db2 ids].
Qed.

Lemma empty_invariant : references_ok empty ∧ rows_keyed empty.
Proof.
  split; [split|]; cbn; [apply map_Forall_empty|apply Forall_nil_2|apply map_Forall_empty].
Qed.

Lemma calls1_consistent cs :
  references_ok (calls SQLiteStore1.impl cs empty).1
  ∧ rows_keyed (calls SQLiteStore1.impl cs empty).1.
Proof.
  apply (calls_invariant SQLiteStore1.impl (λ db, references_ok db ∧ rows_keyed db));
    [apply call1_invariant|apply empty_invariant].
Qed.

Lemma calls2_consistent cs :
  references_ok (calls SQLiteStore2.impl cs empty).1
  ∧ rows_keyed (calls SQLiteStore2.impl cs empty).1.
Proof.
  apply (calls_invariant SQLiteStore2.impl (λ db, references_ok db ∧ rows_keyed db));
    [apply call2_invariant|apply empty_invariant].
Qed.

(** X1. Starting from the empty database, after any sequence of calls of
    the mutating methods of either [SQLiteStore] (and of clock ticks), every
    stored secret and every stored event belongs to a stored workspace, and
    every workspace row sits under its own id: the cascade of
    [DeleteWorkspace] and the foreign keys leave no orphan behind. *)
Theorem registry_references_hold (cs : list Call) :
  (references_ok (calls SQLiteStore1.impl cs empty).1
   ∧ rows_keyed (calls SQLiteStore1.impl cs empty).1)
  ∧ (references_ok (calls SQLiteStore2.impl cs empty).1
     ∧ rows_keyed (calls SQLiteStore2.impl cs empty).1).
Proof.
  split.
  - apply (calls_invariant SQLiteStore1.impl (λ db, references_ok db ∧ rows_keyed db)).
    + apply call1_invariant.
    + apply empty_invariant.
  - apply (calls_invariant SQLiteStore2.impl (λ db, references_ok db ∧ rows_keyed db)).
    + apply call2_invariant.
    + apply empty_invariant.
Qed.

End registry_integrity.

Section event_ids.
Import sqlite.

Lemma ids_step_insert_workspace row db : ids_step db (insert_workspace row db).1 None.
Proof. unfold insert_workspace. by destruct (workspaces db !! ID row). Qed.

Lemma ids_step_delete_workspace id db : ids_step db (delete_workspace id db) None.
Proof.
  unfold delete_workspace. destruct (workspaces db !! id); [|done].
  split; [done|]. apply sublist_filter.
Qed.

Lemma ids_step_upsert_secret s db : ids_step db (upsert_secret s db).1 None.
Proof. unfold upsert_secret. by destruct (workspaces db !! _). Qed.

Lemma ids_step_insert_event e t db :
  let '(db', id, err) := insert_event e t db in
  ids_step db db' (match err with None => Some id | Some _ => None end).
Proof.
  unfold insert_event. destruct (workspaces db !! EventWorkspaceID e); [|done].
  cbn. split_and!; [done..|]. eauto.
Qed.

Lemma call1_ids c db :
  ids_step db (call SQLiteStore1.impl c db).1 (call SQLiteStore1.impl c db).2.
Proof.
  destruct c as [ws|ws|id|s|id|e|t]; cbn [call fst snd].
  - cbn [CreateWorkspace SQLiteStore1.impl]. rewrite Create1_db.
    apply ids_step_insert_workspace.
  - cbn [UpdateWorkspace SQLiteStore1.impl]. unfold SQLiteStore1.UpdateWorkspace.
    by destruct (workspaces db !! ID ws).
  - apply ids_step_delete_workspace.
  - apply ids_step_upsert_secret.
  - done.
  - cbn [LogEvent SQLiteStore1.impl]. unfold SQLiteStore1.LogEvent.
    pose proof (ids_step_insert_event e (clock db) db) as H.
    by destruct (insert_event e (clock db) db) as [[db' i] [err|]].
  - done.
Qed.

Lemma call2_ids c db :
  ids_step db (call SQLiteStore2.impl c db).1 (call SQLiteStore2.impl c db).2.
Proof.
  destruct c as [ws|ws|id|s|id|e|t]; cbn [call fst snd].
  - cbn [CreateWorkspace SQLiteStore2.impl]. rewrite Create2_db.
    apply ids_step_insert_workspace.
  - cbn [UpdateWorkspace SQLiteStore2.impl]. unfold SQLiteStore2.UpdateWorkspace.
    by destruct (workspaces db !! ID ws).
  - apply ids_step_delete_workspace.
  - apply ids_step_upsert_secret.
  - done.
  - cbn [LogEvent SQLiteStore2.impl]. unfold SQLiteStore2.LogEvent.
    match goal with |- context [insert_event ?x ?t db] =>
      pose proof (ids_step_insert_event x t db) as H;
      destruct (insert_event x t db) as [[db' i] [err|]] end; done.
  - done.
Qed.

Lemma calls_ids (st : Store DB) :
  (∀ c db, ids_step db (call st c db).1 (call st c db).2) →
  ∀ cs db,
    StronglySorted Z.lt (calls st cs db).2
    ∧ Forall (λ i, sqlite_sequence db < i ≤ sqlite_sequence (calls st cs db).1)%Z
        (calls st cs db).2
    ∧ (sqlite_sequence db ≤ sqlite_sequence (calls st cs db).1)%Z
    ∧ (EventID <$> workspace_events (calls st cs db).1)
        `sublist_of` (EventID <$> workspace_events db) ++ (calls st cs db).2.
Proof.
  intros Hstep cs. induction cs as [|c cs IH]; intros db.
  { cbn. split_and!; [constructor|constructor|lia|by rewrite app_nil_r]. }
  cbn [calls]. specialize (Hstep c db).
  destruct (call st c db) as [db1 i]. cbn [fst snd] in Hstep.
  specialize (IH db1). destruct (calls st cs db1) as [db2 ids]. cbn [fst snd] in *.
  destruct IH as (Hsorted & Hrange & Hle & Hsub).
  destruct i as [n|]; cbn [option_list ids_step] in *.
  - destruct Hstep as (-> & Hseq & e & Hev & Hid). cbn [app].
    split_and!.
    + apply StronglySorted_cons. split; [|done].
      eapply Forall_impl; [exact Hrange|]. cbn. lia.
    + constructor; [lia|]. eapply Forall_impl; [exact Hrange|]. cbn. lia.
    + lia.
    + rewrite Hev, fmap_app in Hsub. cbn in Hsub. rewrite Hid, <- app_assoc in Hsub.
      exact Hsub.
  - destruct Hstep as [Hseq Hev]. cbn [app]. rewrite Hseq in *.
    split_and!; [done..|].
    etrans; [exact Hsub|]. apply sublist_app; [|done]. by apply fmap_sublist.
Qed.

(** X2. Event ids are never reused.  Over any sequence of store calls of
    either [SQLiteStore], from any database, the ids that the successful
    [LogEvent] calls write to [event.ID] increase strictly and lie above the
    AUTOINCREMENT mark the sequence started from, also across
    [DeleteWorkspace] calls that remove events; the ids left in the events
    table are ids of the table as it was or ids handed out since, in that
    order. *)
Theorem event_ids_never_reused (cs : list Call) (db : DB) :
  (StronglySorted Z.lt (calls SQLiteStore1.impl cs db).2
   ∧ Forall (λ i, sqlite_sequence db < i)%Z (calls SQLiteStore1.impl cs db).2
   ∧ (EventID <$> workspace_events (calls SQLiteStore1.impl cs db).1)
       `sublist_of` (EventID <$> workspace_events db) ++ (calls SQLiteStore1.impl cs db).2)
  ∧ (StronglySorted Z.lt (calls SQLiteStore2.impl cs db).2
     ∧ Forall (λ i, sqlite_sequence db < i)%Z (calls SQLiteStore2.impl cs db).2
     ∧ (EventID <$> workspace_events (calls SQLiteStore2.impl cs db).1)
         `sublist_of` (EventID <$> workspace_events db) ++ (calls SQLiteStore2.impl cs db).2).
Proof.
  split.
  - destruct (calls_ids SQLiteStore1.impl call1_ids cs db) as (H1 & H2 & _ & H4).
    split_and!; [done| |done]. eapply Forall_impl; [exact H2|]. cbn. lia.
  - destruct (calls_ids SQLiteStore2.impl call2_ids cs db) as (H1 & H2 & _ & H4).
    split_and!; [done| |done]. eapply Forall_impl; [exact H2|]. cbn. lia.
Qed.

End event_ids.

Section registry_round_trips.
Import sqlite.

Lemma db_eta db :
  mkDB (workspaces db) (workspaces_rowid db) (workspace_secrets db) (workspace_events db)
       (sqlite_sequence db) (clock db) = db.
Proof. by destruct db. Qed.

(** X3. Create and read back.  For an id that is not stored,
    [CreateWorkspace] succeeds and [GetWorkspace] then returns the struct
    with both timestamps set to the time of the insert (the second version
    also fills in an empty status with [pending]); every other id reads as
    before.  For an id that is stored, [CreateWorkspace] fails on the
    primary key and the database is left as it was. *)
Theorem create_workspace_round_trip (ws : Workspace) (db : DB) :
  let row1 := stamped ws (clock db) (clock db) in
  let row2 :=
    stamped (withStatus ws (if decide (Status ws = ""%string)
                            then StatusPending else Status ws))
      (clock db) (clock db) in
  ((SQLiteStore1.GetWorkspace (ID ws) db).1 = None →
   ∃ db', SQLiteStore1.CreateWorkspace ws db = (db', ws, None)
     ∧ SQLiteStore1.GetWorkspace (ID ws) db' = (Some row1, None)
     ∧ ∀ id, id ≠ ID ws →
         SQLiteStore1.GetWorkspace id db' = SQLiteStore1.GetWorkspace id db)
  ∧ (is_Some (SQLiteStore1.GetWorkspace (ID ws) db).1 →
     SQLiteStore1.CreateWorkspace ws db = (db, ws, Some unique_failed))
  ∧ ((SQLiteStore2.GetWorkspace (ID ws) db).1 = None →
     ∃ db', SQLiteStore2.CreateWorkspace ws db = (db', row2, None)
       ∧ SQLiteStore2.GetWorkspace (ID ws) db' = (Some row2, None)
       ∧ ∀ id, id ≠ ID ws →
           SQLiteStore2.GetWorkspace id db' = SQLiteStore2.GetWorkspace id db)
  ∧ (is_Some (SQLiteStore2.GetWorkspace (ID ws) db).1 →
     SQLiteStore2.CreateWorkspace ws db = (db, row2, Some unique_failed)).
Proof.
  intros row1 row2.
  unfold SQLiteStore1.GetWorkspace, SQLiteStore2.GetWorkspace,
    SQLiteStore1.CreateWorkspace, SQLiteStore2.CreateWorkspace, insert_workspace.
  cbn [ID]. split_and!.
  - destruct (workspaces db !! ID ws) eqn:Hid; [done|]. intros _.
    eexists. split; [reflexivity|]. cbn [workspaces with_workspaces]. split.
    + by rewrite lookup_insert_eq.
    + intros id Hne. by rewrite lookup_insert_ne.
  - destruct (workspaces db !! ID ws) eqn:Hid; [done|]. by intros [? [=]].
  - destruct (workspaces db !! ID ws) eqn:Hid; [done|]. intros _.
    eexists. split; [reflexivity|]. cbn [workspaces with_workspaces]. split.
    + by rewrite lookup_insert_eq.
    + intros id Hne. by rewrite lookup_insert_ne.
  - destruct (workspaces db !! ID ws) eqn:Hid; [done|]. by intros [? [=]].
Qed.

Lemma create_workspace_round_trip_witness :
  let ws := demo_workspace "a1b2c3d4" "ws-a1b2c3d4" "ws-a1b2c3d4" in
  ∃ db', SQLiteStore1.CreateWorkspace ws empty = (db', ws, None)
    ∧ SQLiteStore1.GetWorkspace "a1b2c3d4" db' = (Some ws, None).
Proof.
  intros ws.
  destruct (proj1 (create_workspace_round_trip ws empty)) as (db' & H1 & H2 & _).
  - reflexivity.
  - exists db'. split; [exact H1|exact H2].
Defined.

(** X4. Writes for an id that is not stored.  In a database whose foreign
    keys hold, [UpdateWorkspace], [DeleteWorkspace] and [DeleteSecrets] for
    such an id report no error and change nothing, while [SetSecret] and
    [LogEvent] fail on the foreign key and change nothing; this is the same
    in both versions of [SQLiteStore]. *)
Theorem writes_for_unknown_workspace (st : Store DB) (id : string) (db : DB) :
  st = SQLiteStore1.impl ∨ st = SQLiteStore2.impl →
  references_ok db →
  (GetWorkspace st id db).1 = None →
  (∀ ws, ID ws = id →
     (UpdateWorkspace st ws db).1.1 = db ∧ (UpdateWorkspace st ws db).2 = None)
  ∧ DeleteWorkspace st id db = (db, None)
  ∧ DeleteSecrets st id db = (db, None)
  ∧ (∀ secret, SecretWorkspaceID secret = id →
       SetSecret st secret db = (db, Some foreign_key_failed))
  ∧ (∀ event, EventWorkspaceID event = id →
       (LogEvent st event db).1.1 = db
       ∧ (LogEvent st event db).2 = Some foreign_key_failed).
Proof.
  intros Hst [Hs He] Hget.
  assert (workspaces db !! id = None) as Hid.
  { destruct Hst as [-> | ->]; cbn in Hget;
      unfold SQLiteStore1.GetWorkspace, SQLiteStore2.GetWorkspace in Hget;
      by destruct (workspaces db !! id). }
  assert (delete_secrets id db = db) as Hds.
  { unfold delete_secrets, with_secrets. rewrite map_filter_id; [apply db_eta|].
    intros k v Hk Heq. cbn in Heq. apply Hs in Hk. cbn in Hk.
    rewrite Heq, Hid in Hk. by destruct Hk. }
  destruct Hst as [-> | ->]; cbn; split_and!.
  - intros ws <-. unfold SQLiteStore1.UpdateWorkspace. by rewrite Hid.
  - unfold SQLiteStore1.DeleteWorkspace, delete_workspace. by rewrite Hid.
  - unfold SQLiteStore1.DeleteSecrets. by rewrite Hds.
  - intros s <-. unfold SQLiteStore1.SetSecret, upsert_secret. by rewrite Hid.
  - intros e <-. unfold SQLiteStore1.LogEvent, insert_event. by rewrite Hid.
  - intros ws <-. unfold SQLiteStore2.UpdateWorkspace. by rewrite Hid.
  - unfold SQLiteStore2.DeleteWorkspace, delete_workspace. by rewrite Hid.
  - unfold SQLiteStore2.DeleteSecrets. by rewrite Hds.
  - intros s <-. unfold SQLiteStore2.SetSecret, upsert_secret. by rewrite Hid.
  - intros e <-. unfold SQLiteStore2.LogEvent, insert_event. cbn. by rewrite Hid.
Qed.

Lemma writes_for_unknown_workspace_witness :
  SQLiteStore1.SetSecret (mkSecret "nonexistent" "key" "value") empty
  = (empty, Some foreign_key_failed).
Proof.
  destruct (writes_for_unknown_workspace SQLiteStore1.impl "nonexistent" empty)
    as (_ & _ & _ & H & _).
  - left. reflexivity.
  - apply (bool_decide_unpack _). vm_compute. exact I.
  - reflexivity.
  - apply (H (mkSecret "nonexistent" "key" "value")). reflexivity.
Defined.

(** X5. Set a secret and read it back.  For a stored workspace [SetSecret]
    succeeds whether or not the key was set before, [GetSecret] then returns
    the new value, every other secret reads as before and the other tables
    are untouched; both versions. *)
Theorem secret_round_trip (st : Store DB) (secret : WorkspaceSecret) (db : DB) :
  st = SQLiteStore1.impl ∨ st = SQLiteStore2.impl →
  is_Some (GetWorkspace st (SecretWorkspaceID secret) db).1 →
  ∃ db', SetSecret st secret db = (db', None)
    ∧ GetSecret st (SecretWorkspaceID secret) (Key secret) db' = (Value secret, None)
    ∧ (∀ workspaceID key,
         (workspaceID, key) ≠ (SecretWorkspaceID secret, Key secret) →
         GetSecret st workspaceID key db' = GetSecret st workspaceID key db)
    ∧ low db' = low db.
Proof.
  intros Hst Hget.
  assert (is_Some (workspaces db !! SecretWorkspaceID secret)) as [row Hid].
  { destruct Hst as [-> | ->]; cbn in Hget;
      unfold SQLiteStore1.GetWorkspace, SQLiteStore2.GetWorkspace in Hget;
      destruct (workspaces db !! SecretWorkspaceID secret); eauto;
      by destruct Hget. }
  destruct Hst as [-> | ->]; cbn;
    unfold SQLiteStore1.SetSecret, SQLiteStore2.SetSecret, upsert_secret,
      SQLiteStore1.GetSecret, SQLiteStore2.GetSecret;
    rewrite Hid; (eexists; split; [reflexivity|]);
    cbn [workspace_secrets with_secrets]; split_and!;
    [by rewrite lookup_insert_eq
    |intros w k Hne; by rewrite lookup_insert_ne
    |done
    |by rewrite lookup_insert_eq
    |intros w k Hne; by rewrite lookup_insert_ne
    |done].
Qed.

End registry_round_trips.

Section registry_secrets.
Import sqlite.

Lemma secret_round_trip_witness :
  let ws := demo_workspace "a1b2c3d4" "ws-a1b2c3d4" "ws-a1b2c3d4" in
  let db := (SQLiteStore1.CreateWorkspace ws empty).1.1 in
  ∃ db', SQLiteStore1.SetSecret (mkSecret "a1b2c3d4" "gh_token" "ghp_test_token") db
         = (db', None)
    ∧ SQLiteStore1.GetSecret "a1b2c3d4" "gh_token" db' = ("ghp_test_token"%string, None).
Proof.
  intros ws db.
  destruct (secret_round_trip SQLiteStore1.impl
              (mkSecret "a1b2c3d4" "gh_token" "ghp_test_token") db)
    as (db' & H1 & H2 & _).
  - left. reflexivity.
  - vm_compute. eauto.
  - exists db'. split; [exact H1|exact H2].
Defined.

Lemma elem_of_select_secrets s workspaceID db :
  s ∈ select_secrets workspaceID db
  ↔ SecretWorkspaceID s = workspaceID
    ∧ workspace_secrets db !! (workspaceID, Key s) = Some (Value s).
Proof.
  unfold select_secrets. rewrite elem_of_order_by, list_elem_of_fmap. split.
  - intros ([[w k] v] & -> & Hin). cbn.
    apply elem_of_map_to_list, map_lookup_filter_Some in Hin as [Hin Hw].
    cbn in Hw. by subst w.
  - intros [<- Hin]. exists ((SecretWorkspaceID s, Key s), Value s). cbn.
    split; [by destruct s|].
    apply elem_of_map_to_list, map_lookup_filter_Some. done.
Qed.

Lemma NoDup_select_secrets workspaceID db :
  NoDup (Key <$> select_secrets workspaceID db).
Proof.
  unfold select_secrets. rewrite order_by_Permutation, <- list_fmap_compose.
  apply NoDup_fmap_2_strong; [|apply NoDup_map_to_list].
  intros [[w1 k1] v1] [[w2 k2] v2] H1 H2 Heq. cbn in Heq. subst k2.
  apply elem_of_map_to_list, map_lookup_filter_Some in H1 as [H1 Hw1].
  apply elem_of_map_to_list, map_lookup_filter_Some in H2 as [H2 Hw2].
  cbn in Hw1, Hw2. subst w1 w2. rewrite H1 in H2. by injection H2 as ->.
Qed.

(** X6. [GetSecrets] and [GetSecret] agree.  In the first version
    [GetSecrets] lists exactly the secrets that [GetSecret] finds for that
    workspace, each key once, and [GetSecret] for a key that is not listed
    is the error [secret not found].  The second version lists the same
    secrets, but its [GetSecret] answers the empty string without an error
    for a key that is not listed, so a missing secret and an empty one read
    the same. *)
Theorem get_secrets_agrees_with_get_secret (workspaceID : string) (db : DB) :
  (∀ s, s ∈ (SQLiteStore1.GetSecrets workspaceID db).1
        ↔ SecretWorkspaceID s = workspaceID
          ∧ SQLiteStore1.GetSecret workspaceID (Key s) db = (Value s, None))
  ∧ NoDup (Key <$> (SQLiteStore1.GetSecrets workspaceID db).1)
  ∧ (∀ key, key ∉ Key <$> (SQLiteStore1.GetSecrets workspaceID db).1 →
       SQLiteStore1.GetSecret workspaceID key db
       = (""%string, Some "secret not found"%string))
  ∧ SQLiteStore2.GetSecrets workspaceID db = SQLiteStore1.GetSecrets workspaceID db
  ∧ (∀ s, s ∈ (SQLiteStore2.GetSecrets workspaceID db).1 →
       SQLiteStore2.GetSecret workspaceID (Key s) db = (Value s, None))
  ∧ (∀ key, key ∉ Key <$> (SQLiteStore2.GetSecrets workspaceID db).1 →
       SQLiteStore2.GetSecret workspaceID key db = (""%string, None)).
Proof.
  unfold SQLiteStore1.GetSecrets, SQLiteStore2.GetSecrets,
    SQLiteStore1.GetSecret, SQLiteStore2.GetSecret. cbn [fst].
  assert (∀ key, key ∉ Key <$> select_secrets workspaceID db →
          workspace_secrets db !! (workspaceID, key) = None) as Hmissing.
  { intros key Hnot. destruct (workspace_secrets db !! (workspaceID, key)) as [v|] eqn:Hk;
      [|done]. destruct Hnot. apply list_elem_of_fmap.
    exists (mkSecret workspaceID key v). split; [done|].
    by apply elem_of_select_secrets. }
  split_and!.
  - intros s. rewrite elem_of_select_secrets. split.
    + intros [Hw Hk]. by rewrite Hk.
    + intros [Hw Hk]. split; [done|].
      destruct (workspace_secrets db !! (workspaceID, Key s)); by simplify_eq.
  - apply NoDup_select_secrets.
  - intros key Hnot. by rewrite (Hmissing key Hnot).
  - done.
  - intros s [_ Hk]%elem_of_select_secrets. by rewrite Hk.
  - intros key Hnot. by rewrite (Hmissing key Hnot).
Qed.

Lemma get_secrets_agrees_with_get_secret_witness :
  SQLiteStore1.GetSecret "nonexistent" "key" empty
  = (""%string, Some "secret not found"%string)
  ∧ SQLiteStore2.GetSecret "nonexistent" "key" empty = (""%string, None).
Proof.
  destruct (get_secrets_agrees_with_get_secret "nonexistent" empty)
    as (_ & _ & H1 & _ & _ & H2).
  split; [apply H1|apply H2]; vm_compute; by intros ?%elem_of_nil.
Defined.

Lemma select_secrets_delete_secrets_eq workspaceID db :
  select_secrets workspaceID (delete_secrets workspaceID db) = [].
Proof.
  unfold select_secrets, delete_secrets. cbn [workspace_secrets with_secrets].
  rewrite (map_empty_filter_2 (λ kv, kv.1.1 = workspaceID)); [by rewrite map_to_list_empty|].
  intros k v [Hk Hne]%map_lookup_filter_Some. cbn in *. done.
Qed.

Lemma select_secrets_filter_ne (workspaceID id : string) (db db' : DB) :
  workspaceID ≠ id →
  workspace_secrets db' = filter (λ kv, kv.1.1 ≠ id) (workspace_secrets db) →
  select_secrets workspaceID db' = select_secrets workspaceID db.
Proof.
  intros Hne Hm. unfold select_secrets. rewrite Hm. do 3 f_equal.
  apply map_eq. intros k. apply option_eq. intros v.
  rewrite !map_lookup_filter_Some. cbn.
  split; [by intros [[? ?] ?]|]. intros [? Heq]. split_and!; try done. congruence.
Qed.

(** X7. [DeleteSecrets] removes the secrets of one workspace and nothing
    else: afterwards [GetSecrets] for that workspace is empty, the secrets
    of every other workspace are listed as before, and the workspaces and
    events tables are untouched; both versions. *)
Theorem delete_secrets_of_one_workspace (st : Store DB) (workspaceID : string) (db : DB) :
  st = SQLiteStore1.impl ∨ st = SQLiteStore2.impl →
  ∃ db', DeleteSecrets st workspaceID db = (db', None)
    ∧ GetSecrets st workspaceID db' = ([], None)
    ∧ (∀ other, other ≠ workspaceID → GetSecrets st other db' = GetSecrets st other db)
    ∧ low db' = low db.
Proof.
  intros [-> | ->]; cbn;
    unfold SQLiteStore1.DeleteSecrets, SQLiteStore2.DeleteSecrets,
      SQLiteStore1.GetSecrets, SQLiteStore2.GetSecrets;
    (eexists; split; [reflexivity|]); split_and!;
    try (by rewrite select_secrets_delete_secrets_eq); try done;
    intros other Hne; f_equal;
    by apply (select_secrets_filter_ne other workspaceID).
Qed.

Lemma delete_secrets_of_one_workspace_witness :
  ∃ db', SQLiteStore2.DeleteSecrets "a1b2c3d4" empty = (db', None)
    ∧ SQLiteStore2.GetSecrets "a1b2c3d4" db' = ([], None).
Proof.
  destruct (delete_secrets_of_one_workspace SQLiteStore2.impl "a1b2c3d4" empty)
    as (db' & H1 & H2 & _).
  - right. reflexivity.
  - exists db'. split; [exact H1|exact H2].
Defined.

End registry_secrets.

Section registry_cascade.
Import sqlite.

Lemma filter_Forall_id {A} (P : A → Prop) `{∀ x, Decision (P x)} (l : list A) :
  Forall P l → filter P l = l.
Proof.
  induction 1 as [|x l Hx Hl IH]; [done|].
  rewrite filter_cons_True by done. by rewrite IH.
Qed.

Lemma filter_Forall_nil {A} (P : A → Prop) `{∀ x, Decision (P x)} (l : list A) :
  Forall (λ x, ¬ P x) l → filter P l = [].
Proof.
  induction 1 as [|x l Hx Hl IH]; [done|].
  by rewrite filter_cons_False.
Qed.

Lemma select_events_nil workspaceID limit db :
  events_of workspaceID db = [] → select_events workspaceID limit db = [].
Proof.
  unfold events_of, select_events. intros ->. unfold sql_limit. cbn.
  destruct (limit <? 0)%Z; [done|]. by rewrite take_nil.
Qed.

Lemma delete_workspace_rows id db other :
  workspaces (delete_workspace id db) !! other
  = if decide (other = id) then None else workspaces db !! other.
Proof.
  unfold delete_workspace. destruct (workspaces db !! id) eqn:Hid; cbn.
  - case_decide as Ho; [subst; by rewrite lookup_delete_eq|by rewrite lookup_delete_ne].
  - case_decide as Ho; [by subst|done].
Qed.

Lemma delete_workspace_children id db :
  references_ok db →
  workspace_secrets (delete_workspace id db)
  = filter (λ kv, kv.1.1 ≠ id) (workspace_secrets db)
  ∧ workspace_events (delete_workspace id db)
    = filter (λ e, EventWorkspaceID e ≠ id) (workspace_events db).
Proof.
  intros [Hs He]. unfold delete_workspace.
  destruct (workspaces db !! id) eqn:Hid; [done|]. split.
  - symmetry. apply map_filter_id. intros k v Hk Heq. cbn in Heq.
    apply Hs in Hk. cbn in Hk. rewrite Heq, Hid in Hk. by destruct Hk.
  - symmetry. apply filter_Forall_id. eapply Forall_impl; [exact He|].
    intros e Hx Heq. cbn in Hx. rewrite Heq, Hid in Hx. by destruct Hx.
Qed.

Lemma select_secrets_filter_eq (id : string) (db db' : DB) :
  workspace_secrets db' = filter (λ kv, kv.1.1 ≠ id) (workspace_secrets db) →
  select_secrets id db' = [].
Proof.
  intros Hm. unfold select_secrets. rewrite Hm.
  rewrite (map_empty_filter_2 (λ kv, kv.1.1 = id)); [by rewrite map_to_list_empty|].
  intros k v [Hk Hne]%map_lookup_filter_Some. cbn in *. done.
Qed.

Lemma events_of_filter_eq (id : string) (db db' : DB) :
  workspace_events db' = filter (λ e, EventWorkspaceID e ≠ id) (workspace_events db) →
  events_of id db' = [].
Proof.
  intros Hm. unfold events_of. rewrite Hm. apply filter_Forall_nil.
  apply Forall_forall. by intros e [Hne _]%list_elem_of_filter.
Qed.

Lemma select_events_filter_ne (other id : string) (limit : Z) (db db' : DB) :
  other ≠ id →
  workspace_events db' = filter (λ e, EventWorkspaceID e ≠ id) (workspace_events db) →
  select_events other limit db' = select_events other limit db.
Proof.
  intros Hne Hm. unfold select_events. rewrite Hm.
  rewrite list_filter_filter_l; [done|]. intros e. cbn. congruence.
Qed.

Lemma cascade_of_delete_workspace id db :
  references_ok db →
  let db' := delete_workspace id db in
  workspaces db' !! id = None
  ∧ select_secrets id db' = []
  ∧ (∀ limit, select_events id limit db' = [])
  ∧ (∀ other, other ≠ id →
       workspaces db' !! other = workspaces db !! other
       ∧ select_secrets other db' = select_secrets other db
       ∧ ∀ limit, select_events other limit db' = select_events other limit db)
  ∧ delete_workspace id db' = db'.
Proof.
  intros Hok db'. destruct (delete_workspace_children id db Hok) as [Hs He].
  assert (workspaces db' !! id = None) as Hid.
  { unfold db'. rewrite delete_workspace_rows. by rewrite decide_True. }
  split_and!.
  - done.
  - by eapply select_secrets_filter_eq.
  - intros limit. apply select_events_nil. by eapply events_of_filter_eq.
  - intros other Hne. split_and!.
    + unfold db'. rewrite delete_workspace_rows. by rewrite decide_False.
    + by eapply select_secrets_filter_ne.
    + intros limit. by eapply select_events_filter_ne.
  - unfold delete_workspace at 1. by rewrite Hid.
Qed.

(** X8. [DeleteWorkspace] cascades.  In a database whose foreign keys hold,
    after [DeleteWorkspace] the workspace is gone and [GetSecrets] and
    [GetEvents] for its id are empty, whatever the limit; the rows, secrets
    and events of every other workspace read as before; and deleting the
    same id again reports no error and changes nothing.  Both versions. *)
Theorem delete_workspace_cascades (st : Store DB) (id : string) (db : DB) :
  st = SQLiteStore1.impl ∨ st = SQLiteStore2.impl →
  references_ok db →
  ∃ db', DeleteWorkspace st id db = (db', None)
    ∧ (GetWorkspace st id db').1 = None
    ∧ GetSecrets st id db' = ([], None)
    ∧ (∀ limit, GetEvents st id limit db' = ([], None))
    ∧ (∀ other, other ≠ id →
         GetWorkspace st other db' = GetWorkspace st other db
         ∧ GetSecrets st other db' = GetSecrets st other db
         ∧ ∀ limit, GetEvents st other limit db' = GetEvents st other limit db)
    ∧ DeleteWorkspace st id db' = (db', None).
Proof.
  intros Hst Hok.
  destruct (cascade_of_delete_workspace id db Hok) as (Hid & Hsec & Hev & Hother & Hidem).
  exists (delete_workspace id db).
  destruct Hst as [-> | ->]; cbn;
    unfold SQLiteStore1.DeleteWorkspace, SQLiteStore2.DeleteWorkspace,
      SQLiteStore1.GetWorkspace, SQLiteStore2.GetWorkspace,
      SQLiteStore1.GetSecrets, SQLiteStore2.GetSecrets,
      SQLiteStore1.GetEvents, SQLiteStore2.GetEvents;
    rewrite Hid, Hsec, Hidem; (split_and!; try done);
    try (intros limit; by rewrite Hev);
    intros other Hne; destruct (Hother other Hne) as (H1 & H2 & H3);
    rewrite H1, H2; (split_and!; try done); intros limit; by rewrite H3.
Qed.

Lemma delete_workspace_cascades_witness :
  let ws := demo_workspace "a1b2c3d4" "ws-a1b2c3d4" "ws-a1b2c3d4" in
  let db :=
    (calls SQLiteStore1.impl
       [CallCreateWorkspace ws;
        CallSetSecret (mkSecret "a1b2c3d4" "test_key" "test_value");
        CallLogEvent (mkEvent 0 "a1b2c3d4" "created" "Test event" "" 0)] empty).1 in
  ∃ db', SQLiteStore1.DeleteWorkspace "a1b2c3d4" db = (db', None)
    ∧ SQLiteStore1.GetSecrets "a1b2c3d4" db' = ([], None)
    ∧ SQLiteStore1.GetEvents "a1b2c3d4" 10 db' = ([], None).
Proof.
  intros ws db.
  destruct (delete_workspace_cascades SQLiteStore1.impl "a1b2c3d4" db)
    as (db' & H1 & _ & H2 & H3 & _).
  - left. reflexivity.
  - apply (bool_decide_unpack _). vm_compute. exact I.
  - exists db'. split_and!; [exact H1|exact H2|exact (H3 10%Z)].
Defined.

End registry_cascade.

Section registry_listings.
Import sqlite.

Global Instance newer_event_total : Total newer_event.
Proof. intros a b. unfold newer_event. lia. Qed.
Global Instance newer_event_trans : Transitive newer_event.
Proof. intros a b c. unfold newer_event. lia. Qed.
Global Instance newer_workspace_total : Total newer_workspace.
Proof. intros a b. unfold newer_workspace. lia. Qed.
Global Instance newer_workspace_trans : Transitive newer_workspace.
Proof. intros a b c. unfold newer_workspace. lia. Qed.

Lemma sorted_events_Permutation workspaceID db :
  order_by newer_event (events_of workspaceID db) ≡ₚ events_of workspaceID db.
Proof. apply order_by_Permutation. Qed.

Lemma select_events_split workspaceID limit db :
  ∃ rest,
    select_events workspaceID limit db ++ rest
    = order_by newer_event (events_of workspaceID db)
    ∧ ((limit < 0)%Z ∨ (Z.of_nat (length (events_of workspaceID db)) ≤ limit)%Z → rest = [])
    ∧ ((0 ≤ limit)%Z → (Z.of_nat (length (select_events workspaceID limit db)) ≤ limit)%Z).
Proof.
  unfold select_events, sql_limit. fold (events_of workspaceID db).
  pose proof (Permutation_length (sorted_events_Permutation workspaceID db)) as Hlen.
  set (sorted := order_by newer_event (events_of workspaceID db)) in *.
  destruct (limit <? 0)%Z eqn:Hneg.
  - exists []. rewrite app_nil_r. split_and!; [done|done|lia].
  - exists (drop (Z.to_nat limit) sorted). rewrite take_drop. split_and!; [done| |].
    + intros [?|Hall]; [lia|]. apply drop_ge. lia.
    + intros _. rewrite length_take. lia.
Qed.

(** X9. What [GetEvents] returns, in both versions: only events of the
    workspace asked for, each of them stored; newest first; for a limit that
    is not negative, at most that many, and they are the most recent ones
    (no event of the workspace that is left out is newer than one that is
    returned); for a negative limit, or one that is not below the number of
    the workspace's events, all of them. *)
Theorem get_events_newest_first (st : Store DB) (workspaceID : string) (limit : Z) (db : DB) :
  st = SQLiteStore1.impl ∨ st = SQLiteStore2.impl →
  ∃ events, GetEvents st workspaceID limit db = (events, None)
    ∧ (∀ e, e ∈ events → e ∈ workspace_events db ∧ EventWorkspaceID e = workspaceID)
    ∧ StronglySorted (λ a b, EventCreatedAt b ≤ EventCreatedAt a)%Z events
    ∧ ((0 ≤ limit)%Z → (Z.of_nat (length events) ≤ limit)%Z)
    ∧ (∀ e r, e ∈ events_of workspaceID db → e ∉ events → r ∈ events →
         (EventCreatedAt e ≤ EventCreatedAt r)%Z)
    ∧ ((limit < 0)%Z ∨ (Z.of_nat (length (events_of workspaceID db)) ≤ limit)%Z →
       events ≡ₚ events_of workspaceID db).
Proof.
  intros Hst. exists (select_events workspaceID limit db).
  split; [by destruct Hst as [-> | ->]|].
  destruct (select_events_split workspaceID limit db) as (rest & Hsplit & Hall & Hlen).
  pose proof (sorted_events_Permutation workspaceID db) as Hperm.
  pose proof (StronglySorted_order_by newer_event (events_of workspaceID db)) as Hsorted.
  rewrite <- Hsplit in Hperm, Hsorted.
  apply StronglySorted_app in Hsorted as (Hcross & Hsorted & _).
  split_and!.
  - intros e He.
    assert (e ∈ events_of workspaceID db) as [? ?]%list_elem_of_filter; [|done].
    rewrite <- Hperm. apply elem_of_app. by left.
  - exact Hsorted.
  - exact Hlen.
  - intros e r He Hnot Hr. rewrite <- Hperm in He.
    apply elem_of_app in He as [He|He]; [done|]. by apply (Hcross r e).
  - intros H. rewrite (Hall H), app_nil_r in Hperm. exact Hperm.
Qed.

Lemma get_events_newest_first_witness :
  let ws := demo_workspace "a1b2c3d4" "ws-a1b2c3d4" "ws-a1b2c3d4" in
  let db :=
    (calls SQLiteStore1.impl
       [CallCreateWorkspace ws;
        CallLogEvent (mkEvent 0 "a1b2c3d4" "created" "Workspace created" "" 0);
        CallLogEvent (mkEvent 0 "a1b2c3d4" "started" "Workspace started" "" 0);
        CallLogEvent (mkEvent 0 "a1b2c3d4" "stopped" "Workspace stopped" "" 0)] empty).1 in
  ∃ events, SQLiteStore1.GetEvents "a1b2c3d4" 2 db = (events, None)
    ∧ (Z.of_nat (length events) ≤ 2)%Z.
Proof.
  intros ws db.
  destruct (get_events_newest_first SQLiteStore1.impl "a1b2c3d4" 2 db)
    as (events & H1 & _ & _ & H2 & _).
  - left. reflexivity.
  - exists events. split; [exact H1|]. apply H2. lia.
Defined.

Lemma elem_of_select_workspaces ws db :
  ws ∈ select_workspaces db ↔ ∃ id, workspaces db !! id = Some ws.
Proof.
  unfold select_workspaces, scan_workspaces.
  rewrite elem_of_order_by, list_elem_of_fmap. split.
  - intros ([id ws'] & -> & Hin%elem_of_order_by%elem_of_map_to_list). eauto.
  - intros [id Hid]. exists (id, ws). by rewrite elem_of_order_by, elem_of_map_to_list.
Qed.

Lemma NoDup_select_workspaces db :
  rows_keyed db → NoDup (ID <$> select_workspaces db).
Proof.
  intros Hk. unfold select_workspaces, scan_workspaces.
  rewrite order_by_Permutation, order_by_Permutation, <- list_fmap_compose.
  rewrite (list_fmap_ext _ fst (map_to_list (workspaces db))).
  - apply NoDup_fst_map_to_list.
  - intros i [id ws] Hin. cbn.
    apply list_elem_of_lookup_2, elem_of_map_to_list in Hin. by apply Hk in Hin.
Qed.

(** X10. What [ListWorkspaces] returns, in both versions: exactly the stored
    rows (a workspace is listed if and only if [GetWorkspace] returns it for
    some id), newest first; and when every row sits under its own id, as it
    does in every database the store's methods have built, no id is listed
    twice. *)
Theorem list_workspaces_newest_first (db : DB) :
  ∃ rows, SQLiteStore1.ListWorkspaces db = (rows, None)
    ∧ SQLiteStore2.ListWorkspaces db = (rows, None)
    ∧ (∀ ws, ws ∈ rows ↔ ∃ id, SQLiteStore1.GetWorkspace id db = (Some ws, None))
    ∧ (∀ ws, ws ∈ rows ↔ ∃ id, SQLiteStore2.GetWorkspace id db = (Some ws, None))
    ∧ StronglySorted (λ a b, CreatedAt b ≤ CreatedAt a)%Z rows
    ∧ (rows_keyed db → NoDup (ID <$> rows)).
Proof.
  exists (select_workspaces db). split_and!; [done|done| | | |].
  - intros ws. rewrite elem_of_select_workspaces. unfold SQLiteStore1.GetWorkspace.
    split; intros [id Hid]; exists id.
    + by rewrite Hid.
    + destruct (workspaces db !! id); by simplify_eq.
  - intros ws. rewrite elem_of_select_workspaces. unfold SQLiteStore2.GetWorkspace.
    split; intros [id Hid]; exists id.
    + by rewrite Hid.
    + destruct (workspaces db !! id); by simplify_eq.
  - apply (StronglySorted_order_by newer_workspace).
  - apply NoDup_select_workspaces.
Qed.

Lemma list_workspaces_newest_first_witness :
  let ws := demo_workspace "a1b2c3d4" "ws-a1b2c3d4" "ws-a1b2c3d4" in
  let db := (SQLiteStore1.CreateWorkspace ws empty).1.1 in
  ∃ rows, SQLiteStore1.ListWorkspaces db = (rows, None) ∧ NoDup (ID <$> rows).
Proof.
  intros ws db.
  destruct (list_workspaces_newest_first db) as (rows & H1 & _ & _ & _ & _ & H2).
  exists rows. split; [exact H1|]. apply H2.
  apply (bool_decide_unpack _). vm_compute. exact I.
Defined.

(** Rows with the same [created_at] are listed in the order of their
    rowids: events logged at the same time come back oldest id first. *)
Lemma select_events_same_time workspaceID limit db :
  (∀ e1 e2, e1 ∈ events_of workspaceID db → e2 ∈ events_of workspaceID db →
     EventCreatedAt e1 = EventCreatedAt e2) →
  select_events workspaceID limit db = sql_limit limit (events_of workspaceID db).
Proof.
  intros Hsame. unfold select_events. fold (events_of workspaceID db).
  f_equal. apply order_by_sorted.
  induction (events_of workspaceID db) as [|e l IH]; [constructor|].
  constructor.
  - apply IH. intros e1 e2 H1 H2. apply Hsame; by apply elem_of_cons; right.
  - apply Forall_forall. intros e' He'. unfold newer_event.
    rewrite (Hsame e e'); [done|by apply elem_of_cons; left|by apply elem_of_cons; right].
Qed.

(** Three events logged within one second, two workspaces created within
    one second before a third, and four secrets: the events come back by id,
    the newest workspace first and the other two in the order of their
    creation, and the secrets by key. *)
Lemma listings_on_ties :
  let ws id := demo_workspace id "" "" in
  let ev eventType := CallLogEvent (mkEvent 0 "a1" eventType "" "" 0) in
  let secret key := CallSetSecret (mkSecret "a1" key "") in
  let db :=
    (calls SQLiteStore1.impl
       [CallCreateWorkspace (ws "a1"); CallCreateWorkspace (ws "c3"); CallTick 5;
        CallCreateWorkspace (ws "b2");
        ev "created"; ev "started"; ev "stopped";
        secret "b"; secret "a"; secret "ab"; secret "B"] empty).1 in
  EventType <$> (SQLiteStore1.GetEvents "a1" 2 db).1 = ["created"; "started"]%string
  ∧ ID <$> (SQLiteStore1.ListWorkspaces db).1 = ["b2"; "a1"; "c3"]%string
  ∧ Key <$> (SQLiteStore1.GetSecrets "a1" db).1 = ["B"; "a"; "ab"; "b"]%string.
Proof. by vm_compute. Qed.

End registry_listings.

Section create_validation.
Import sqlite.
Context {S C : Type}.
Variable st : Store S.

Lemma bind1_refused body :
  refused1 body ↔ ∃ e, WorkspaceHandler.ShouldBindJSON body = inr e.
Proof.
  unfold refused1, WorkspaceHandler.ShouldBindJSON. destruct body as [e|req].
  { split; eauto. }
  case_decide as Hname; [split; eauto|].
  destruct (63 <? utf8.RuneCountInString (api.Name req))%Z eqn:Hlen.
  - split; [eauto|]. intros _. right. lia.
  - split; [intros [?|?]; [done|lia]|]. by intros [e [=]].
Qed.

Lemma bind2_refused body :
  refused2 body ↔ ∃ e, WorkspaceHandlers.ShouldBindJSON body = inr e.
Proof.
  unfold refused2, WorkspaceHandlers.ShouldBindJSON. destruct body as [e|req].
  { split; eauto. }
  case_decide as Hname; [split; eauto|]. split; [done|]. by intros [e [=]].
Qed.

(** X11. Which create requests are answered 400.  [WorkspaceHandler.Create]
    answers 400 exactly when the body does not decode, the name is empty or
    the name has more than 63 runes; [WorkspaceHandlers.CreateWorkspace]
    exactly when the body does not decode or the name is empty, so it takes a
    name of any length.  A refused request changes neither the registry nor
    the cluster and starts no deployment.  This holds over any store and any
    orchestrator. *)
Theorem create_bad_request (id : string) (body : string + api.CreateWorkspaceRequest)
    (s : S) (c : C) :
  (∀ orch : option (orchestrator.Orchestrator C),
     (refused1 body ↔
      code_of (WorkspaceHandler.Create st orch id body s).1.2 = Some http.StatusBadRequest)
     ∧ (refused1 body →
        (WorkspaceHandler.Create st orch id body s).1.1 = s
        ∧ (WorkspaceHandler.Create st orch id body s).2 = None))
  ∧ (∀ orch : orchestrator.Orchestrator C,
       (refused2 body ↔
        code_of (WorkspaceHandlers.CreateWorkspace st orch id body s c).2
        = Some http.StatusBadRequest)
       ∧ (refused2 body →
          (WorkspaceHandlers.CreateWorkspace st orch id body s c).1 = (s, c))).
Proof.
  split; intros orch.
  - rewrite bind1_refused. unfold WorkspaceHandler.Create.
    destruct (WorkspaceHandler.ShouldBindJSON body) as [req|e] eqn:Hbind.
    + split; [|by intros [e [=]]]. split; [by intros [e [=]]|].
      destruct (CreateWorkspace st _ s) as [[s1 ws] [err|]]; [done|].
      destruct (WorkspaceHandler.storeSecrets st id (api.Secrets req) s1) as [s2 secrets].
      destruct (LogEvent st _ s2) as [[s3 ?] ?].
      by destruct (GetWorkspace st id s3) as [[ws'|] ?].
    + split; [|done]. split; [done|eauto].
  - rewrite bind2_refused. unfold WorkspaceHandlers.CreateWorkspace.
    destruct (WorkspaceHandlers.ShouldBindJSON body) as [req|e] eqn:Hbind.
    + split; [|by intros [e [=]]]. split; [by intros [e [=]]|].
      destruct (CreateWorkspace st _ s) as [[s1 ws] [err|]]; [done|].
      destruct (WorkspaceHandlers.saveSecrets st id (api.Secrets req) s1) as [s2 secrets].
      destruct (LogEvent st _ s2) as [[s3 ?] ?].
      destruct (orchestrator.DeployWorkspace orch ws secrets c) as [c1 [derr|]].
      * destruct (UpdateWorkspace st _ s3) as [[s4 ?] ?].
        by destruct (LogEvent st _ s4) as [[s5 ?] ?].
      * destruct (UpdateWorkspace st _ s3) as [[s4 ?] ?].
        by destruct (LogEvent st _ s4) as [[s5 ?] ?].
    + split; [|done]. split; [done|eauto].
Qed.

End create_validation.

Section create_validation_witness.

Lemma create_bad_request_witness :
  let long := named "0123456789012345678901234567890123456789012345678901234567890123" in
  code_of (WorkspaceHandler.Create (C:=unit) SQLiteStore1.impl None "a1b2c3d4" (inr long)
             sqlite.empty).1.2 = Some http.StatusBadRequest
  ∧ code_of (WorkspaceHandlers.CreateWorkspace SQLiteStore2.impl
               (doubles.MockOrchestrator None) "a1b2c3d4" (inr long) sqlite.empty tt).2
    ≠ Some http.StatusBadRequest.
Proof.
  intros long.
  destruct (create_bad_request SQLiteStore1.impl "a1b2c3d4" (inr long) sqlite.empty tt)
    as [H1 _].
  destruct (create_bad_request SQLiteStore2.impl "a1b2c3d4" (inr long) sqlite.empty tt)
    as [_ H2].
  split.
  - apply (proj1 (H1 None)). right. vm_compute. reflexivity.
  - intros Hcode. apply (proj1 (H2 (doubles.MockOrchestrator None))) in Hcode.
    vm_compute in Hcode. discriminate.
Defined.

End create_validation_witness.

(** ** The handlers as sequences of store calls *)

Section handlers_as_calls.
Import sqlite.
Context {C : Type}.
Variable st : Store DB.

Lemma calls_app cs1 cs2 db :
  (calls st (cs1 ++ cs2) db).1 = (calls st cs2 (calls st cs1 db).1).1.
Proof.
  revert db. induction cs1 as [|c cs1 IH]; intros db; [done|].
  cbn [calls app]. destruct (call st c db) as [db1 i]. specialize (IH db1).
  destruct (calls st (cs1 ++ cs2) db1) as [db2 ids].
  destruct (calls st cs1 db1) as [db3 ids3]. cbn [fst] in *.
  rewrite IH. by destruct (calls st cs2 db3).
Qed.

Lemma calls_cons c cs db :
  (calls st (c :: cs) db).1 = (calls st cs (call st c db).1).1.
Proof.
  cbn [calls]. destruct (call st c db) as [db1 i]. cbn [fst].
  by destruct (calls st cs db1).
Qed.

Lemma call_LogEvent e db : (call st (CallLogEvent e) db).1 = (LogEvent st e db).1.1.
Proof. cbn [call]. by destruct (LogEvent st e db) as [[db' e'] err]. Qed.

Lemma storeSecrets_calls id kvs db :
  (WorkspaceHandler.storeSecrets st id kvs db).1
  = (calls st (CallSetSecret <$> request_secrets id kvs) db).1.
Proof.
  revert db. induction kvs as [|[k v] kvs IH]; intros db; [done|].
  cbn [WorkspaceHandler.storeSecrets request_secrets fmap list_fmap].
  rewrite calls_cons. cbn [call fst snd].
  destruct (SetSecret st (mkSecret id k v) db) as [s1 e1]. cbn [fst].
  specialize (IH s1).
  destruct (WorkspaceHandler.storeSecrets st id kvs s1) as [s2 secs]. exact IH.
Qed.

Lemma saveSecrets_calls id kvs db :
  (WorkspaceHandlers.saveSecrets st id kvs db).1
  = (calls st (CallSetSecret <$> request_secrets id kvs) db).1.
Proof.
  revert db. induction kvs as [|[k v] kvs IH]; intros db; [done|].
  cbn [WorkspaceHandlers.saveSecrets request_secrets fmap list_fmap].
  rewrite calls_cons. cbn [call fst snd].
  destruct (SetSecret st (mkSecret id k v) db) as [s1 e1]. cbn [fst].
  specialize (IH s1).
  destruct (WorkspaceHandlers.saveSecrets st id kvs s1) as [s2 secs]. exact IH.
Qed.

Lemma about_secrets id kvs :
  Forall (about id) (CallSetSecret <$> request_secrets id kvs).
Proof.
  apply Forall_fmap, Forall_fmap, Forall_forall. by intros [k v] _.
Qed.

Lemma Create1_calls (orch : option (orchestrator.Orchestrator C)) id body db :
  ∃ cs, (WorkspaceHandler.Create st orch id body db).1.1 = (calls st cs db).1
        ∧ Forall (about id) cs.
Proof.
  unfold WorkspaceHandler.Create.
  destruct (WorkspaceHandler.ShouldBindJSON body) as [req|e]; [|by exists []].
  destruct (CreateWorkspace st (WorkspaceHandler.newWorkspace id req) db)
    as [[s1 ws] err] eqn:Hc.
  destruct err as [e|].
  { exists [CallCreateWorkspace (WorkspaceHandler.newWorkspace id req)].
    rewrite calls_cons. cbn [call fst calls]. rewrite Hc. split; [done|].
    by apply Forall_singleton. }
  pose proof (storeSecrets_calls id (api.Secrets req) s1) as Hsec.
  destruct (WorkspaceHandler.storeSecrets st id (api.Secrets req) s1) as [s2 secs].
  match goal with |- context [LogEvent st ?e s2] =>
    pose proof (call_LogEvent e s2) as Hev; set (ev := e) in *;
    destruct (LogEvent st ev s2) as [[s3 ?] ?] end.
  exists (CallCreateWorkspace (WorkspaceHandler.newWorkspace id req)
          :: (CallSetSecret <$> request_secrets id (api.Secrets req)) ++ [CallLogEvent ev]).
  split.
  - rewrite calls_cons, calls_app, calls_cons. cbn [call fst calls] in *.
    rewrite Hc. cbn [fst]. rewrite <- Hsec, Hev.
    by destruct (GetWorkspace st id s3) as [[?|] ?].
  - constructor; [done|]. apply Forall_app. split; [apply about_secrets|].
    by apply Forall_singleton.
Qed.

Lemma update_log_calls {A} id ws ev db (k : DB → A) :
  ∃ cs, (let '(s1, _, _) := UpdateWorkspace st ws db in
         let '(s2, _, _) := LogEvent st ev s1 in (s2, k s2)).1 = (calls st cs db).1
        ∧ (ID ws = id → EventWorkspaceID ev = id → Forall (about id) cs).
Proof.
  exists [CallUpdateWorkspace ws; CallLogEvent ev]. split.
  - rewrite !calls_cons. cbn [calls fst]. rewrite call_LogEvent. cbn [call fst].
    destruct (UpdateWorkspace st ws db) as [[s1 ?] ?]. cbn [fst].
    by destruct (LogEvent st ev s1) as [[s2 ?] ?].
  - intros Hw He. by repeat constructor.
Qed.

(** The goroutine makes its two store calls, the first of them or none, as
    the context allows. *)
Lemma deploy1_calls ctx (o : orchestrator.Orchestrator C) t db c :
  ∃ cs, (WorkspaceHandler.deploy st ctx o t db c).1 = (calls st cs db).1
        ∧ (ID (WorkspaceHandler.task_ws t) = WorkspaceHandler.task_id t →
           Forall (about (WorkspaceHandler.task_id t)) cs).
Proof.
  unfold WorkspaceHandler.deploy, WorkspaceHandler.withContext.
  destruct (orchestrator.DeployWorkspace o _ _ c) as [c1 [e|]].
  - exists (take (match ctx with context.CanceledAfter k => k end)
              [CallUpdateWorkspace (withStatus (WorkspaceHandler.task_ws t) StatusError);
               CallLogEvent (mkEvent 0 (WorkspaceHandler.task_id t) "error"
                               ("Deployment failed: " +:+ e) "" 0)]).
    split; [|intros H; apply Forall_take; by repeat constructor].
    destruct ctx as [[|[|n]]]; cbn [context.Err context.later Nat.pred take];
      rewrite ?take_nil, ?calls_cons; cbn [calls fst]; rewrite ?call_LogEvent;
      cbn [call fst];
      repeat match goal with
             | |- context [UpdateWorkspace st ?w ?d] =>
                 destruct (UpdateWorkspace st w d) as [[? ?] ?]; cbn [fst]
             | |- context [LogEvent st ?x ?d] =>
                 destruct (LogEvent st x d) as [[? ?] ?]; cbn [fst]
             end; done.
  - exists (take (match ctx with context.CanceledAfter k => k end)
              [CallUpdateWorkspace (withStatus (WorkspaceHandler.task_ws t) StatusRunning);
               CallLogEvent (mkEvent 0 (WorkspaceHandler.task_id t) "started"
                               "Workspace deployed successfully" "" 0)]).
    split; [|intros H; apply Forall_take; by repeat constructor].
    destruct ctx as [[|[|n]]]; cbn [context.Err context.later Nat.pred take];
      rewrite ?take_nil, ?calls_cons; cbn [calls fst]; rewrite ?call_LogEvent;
      cbn [call fst];
      repeat match goal with
             | |- context [UpdateWorkspace st ?w ?d] =>
                 destruct (UpdateWorkspace st w d) as [[? ?] ?]; cbn [fst]
             | |- context [LogEvent st ?x ?d] =>
                 destruct (LogEvent st x d) as [[? ?] ?]; cbn [fst]
             end; done.
Qed.

Lemma transition1_calls id ws status eventType message db :
  ∃ cs, (WorkspaceHandler.transition st id ws status eventType message db).1
        = (calls st cs db).1
        ∧ (ID ws = id → Forall (about id) cs).
Proof.
  exists [CallUpdateWorkspace (withStatus ws status);
          CallLogEvent (mkEvent 0 id eventType message "" 0)]. split.
  - rewrite !calls_cons. cbn [calls fst]. rewrite call_LogEvent. cbn [call fst].
    unfold WorkspaceHandler.transition.
    destruct (UpdateWorkspace st _ db) as [[s1 ?] ?]. cbn [fst].
    destruct (LogEvent st _ s1) as [[s2 ?] ?].
    by destruct (GetWorkspace st id s2) as [[?|] ?].
  - intros Hw. by repeat constructor.
Qed.

Lemma transition2_calls id ws status eventType message db :
  ∃ cs, (WorkspaceHandlers.transition st id ws status eventType message db).1
        = (calls st cs db).1
        ∧ (ID ws = id → Forall (about id) cs).
Proof.
  exists [CallUpdateWorkspace (withStatus ws status);
          CallLogEvent (mkEvent 0 id eventType message "" 0)]. split.
  - rewrite !calls_cons. cbn [calls fst]. rewrite call_LogEvent. cbn [call fst].
    unfold WorkspaceHandlers.transition.
    destruct (UpdateWorkspace st _ db) as [[s1 ?] ?]. cbn [fst].
    by destruct (LogEvent st _ s1) as [[s2 ?] ?].
  - intros Hw. by repeat constructor.
Qed.

Lemma Delete1_calls (orch : option (orchestrator.Orchestrator C)) id db c :
  ∃ cs, (WorkspaceHandler.Delete st orch id db c).1.1 = (calls st cs db).1
        ∧ Forall (about id) cs.
Proof.
  unfold WorkspaceHandler.Delete.
  destruct (GetWorkspace st id db) as [ws [e|]]; [by exists []|].
  destruct ws as [ws|], orch as [o|]; try (by exists []);
    (exists [CallDeleteWorkspace id]; split; [|by repeat constructor]);
    rewrite calls_cons; cbn [call calls fst];
    by destruct (DeleteWorkspace st id db) as [s1 [e|]].
Qed.

Lemma Start1_calls (orch : option (orchestrator.Orchestrator C)) id db c :
  ∃ cs, (WorkspaceHandler.Start st orch id db c).1.1 = (calls st cs db).1
        ∧ (keyed st id db → Forall (about id) cs).
Proof.
  unfold WorkspaceHandler.Start.
  destruct (GetWorkspace st id db) as [ws [e|]] eqn:Hget; [by exists []|].
  destruct ws as [ws|]; [|by exists []].
  case_decide; [by exists []|].
  destruct (match orch with Some o => _ | None => _ end) as [c1 [e|]]; [by exists []|].
  destruct (transition1_calls id ws StatusRunning "started" "Workspace started" db)
    as (cs & Hcs & Hab).
  exists cs. split; [|intros Hk; apply Hab; by eapply Hk].
  rewrite <- Hcs. by destruct (WorkspaceHandler.transition _ _ _ _ _ _ _).
Qed.

Lemma Stop1_calls (orch : option (orchestrator.Orchestrator C)) id db c :
  ∃ cs, (WorkspaceHandler.Stop st orch id db c).1.1 = (calls st cs db).1
        ∧ (keyed st id db → Forall (about id) cs).
Proof.
  unfold WorkspaceHandler.Stop.
  destruct (GetWorkspace st id db) as [ws [e|]] eqn:Hget; [by exists []|].
  destruct ws as [ws|]; [|by exists []].
  case_decide; [by exists []|].
  destruct (match orch with Some o => _ | None => _ end) as [c1 [e|]]; [by exists []|].
  destruct (transition1_calls id ws StatusStopped "stopped" "Workspace stopped" db)
    as (cs & Hcs & Hab).
  exists cs. split; [|intros Hk; apply Hab; by eapply Hk].
  rewrite <- Hcs. by destruct (WorkspaceHandler.transition _ _ _ _ _ _ _).
Qed.

Lemma Create2_calls (orch : orchestrator.Orchestrator C) id body db c :
  ∃ cs, (WorkspaceHandlers.CreateWorkspace st orch id body db c).1.1 = (calls st cs db).1
        ∧ (keyed_create st id → Forall (about id) cs).
Proof.
  unfold WorkspaceHandlers.CreateWorkspace.
  destruct (WorkspaceHandlers.ShouldBindJSON body) as [req|e]; [|by exists []].
  destruct (CreateWorkspace st (WorkspaceHandlers.newWorkspace id req) db)
    as [[s1 ws] err] eqn:Hc.
  destruct err as [e|].
  { exists [CallCreateWorkspace (WorkspaceHandlers.newWorkspace id req)].
    rewrite calls_cons. cbn [call fst calls]. rewrite Hc. split; [done|].
    intros _. by apply Forall_singleton. }
  pose proof (saveSecrets_calls id (api.Secrets req) s1) as Hsec.
  destruct (WorkspaceHandlers.saveSecrets st id (api.Secrets req) s1) as [s2 secs].
  set (created := mkEvent 0 id "created" ("Workspace " +:+ Name ws +:+ " created") "" 0).
  pose proof (call_LogEvent created s2) as Hev.
  destruct (LogEvent st created s2) as [[s3 ?] ?]. cbn [fst] in Hev, Hsec.
  destruct (orchestrator.DeployWorkspace orch ws secs c) as [c1 [derr|]].
  - destruct (update_log_calls id (withStatus ws StatusError)
                (mkEvent 0 id "error" ("Deployment failed: " +:+ derr) "" 0) s3
                (λ _, c1)) as (cs & Hcs & Hab).
    exists (CallCreateWorkspace (WorkspaceHandlers.newWorkspace id req)
            :: (CallSetSecret <$> request_secrets id (api.Secrets req))
            ++ CallLogEvent created :: cs).
    split.
    + rewrite calls_cons, calls_app, calls_cons. cbn [call fst calls] in *.
      rewrite Hc. cbn [fst]. rewrite <- Hsec, Hev, <- Hcs.
      destruct (UpdateWorkspace st _ s3) as [[s4 ?] ?].
      by destruct (LogEvent st _ s4) as [[s5 ?] ?].
    + intros Hk. constructor; [done|]. apply Forall_app. split; [apply about_secrets|].
      constructor; [done|]. apply Hab; [|done]. cbn.
      pose proof (Hk (WorkspaceHandlers.newWorkspace id req) db eq_refl) as Hid.
      by rewrite Hc in Hid.
  - destruct (update_log_calls id (withStatus ws StatusRunning)
                (mkEvent 0 id "deployed" "Helm release installed" "" 0) s3
                (λ _, c1)) as (cs & Hcs & Hab).
    exists (CallCreateWorkspace (WorkspaceHandlers.newWorkspace id req)
            :: (CallSetSecret <$> request_secrets id (api.Secrets req))
            ++ CallLogEvent created :: cs).
    split.
    + rewrite calls_cons, calls_app, calls_cons. cbn [call fst calls] in *.
      rewrite Hc. cbn [fst]. rewrite <- Hsec, Hev, <- Hcs.
      destruct (UpdateWorkspace st _ s3) as [[s4 ws4] ?].
      by destruct (LogEvent st _ s4) as [[s5 ?] ?].
    + intros Hk. constructor; [done|]. apply Forall_app. split; [apply about_secrets|].
      constructor; [done|]. apply Hab; [|done]. cbn.
      pose proof (Hk (WorkspaceHandlers.newWorkspace id req) db eq_refl) as Hid.
      by rewrite Hc in Hid.
Qed.

Lemma Delete2_calls (orch : orchestrator.Orchestrator C) id db c :
  ∃ cs, (WorkspaceHandlers.DeleteWorkspace st orch id db c).1.1 = (calls st cs db).1
        ∧ Forall (about id) cs.
Proof.
  unfold WorkspaceHandlers.DeleteWorkspace.
  destruct (GetWorkspace st id db) as [ws [e|]]; [by exists []|].
  destruct ws as [ws|]; [|by exists []].
  exists [CallDeleteSecrets id; CallDeleteWorkspace id]. split; [|by repeat constructor].
  rewrite !calls_cons. cbn [call calls fst].
  destruct (orchestrator.DeleteWorkspace orch ws c) as [c1 ?].
  destruct (DeleteSecrets st id db) as [s1 ?]. cbn [fst].
  by destruct (DeleteWorkspace st id s1) as [s2 [?|]].
Qed.

Lemma Start2_calls (orch : orchestrator.Orchestrator C) id db c :
  ∃ cs, (WorkspaceHandlers.StartWorkspace st orch id db c).1.1 = (calls st cs db).1
        ∧ (keyed st id db → Forall (about id) cs).
Proof.
  unfold WorkspaceHandlers.StartWorkspace.
  destruct (GetWorkspace st id db) as [ws [e|]] eqn:Hget; [by exists []|].
  destruct ws as [ws|]; [|by exists []].
  destruct (orchestrator.StartWorkspace orch ws c) as [c1 [e|]]; [by exists []|].
  destruct (transition2_calls id ws StatusRunning "started" "Workspace started" db)
    as (cs & Hcs & Hab).
  exists cs. split; [|intros Hk; apply Hab; by eapply Hk].
  rewrite <- Hcs. by destruct (WorkspaceHandlers.transition _ _ _ _ _ _ _).
Qed.

Lemma Stop2_calls (orch : orchestrator.Orchestrator C) id db c :
  ∃ cs, (WorkspaceHandlers.StopWorkspace st orch id db c).1.1 = (calls st cs db).1
        ∧ (keyed st id db → Forall (about id) cs).
Proof.
  unfold WorkspaceHandlers.StopWorkspace.
  destruct (GetWorkspace st id db) as [ws [e|]] eqn:Hget; [by exists []|].
  destruct ws as [ws|]; [|by exists []].
  destruct (orchestrator.StopWorkspace orch ws c) as [c1 [e|]]; [by exists []|].
  destruct (transition2_calls id ws StatusStopped "stopped" "Workspace stopped" db)
    as (cs & Hcs & Hab).
  exists cs. split; [|intros Hk; apply Hab; by eapply Hk].
  rewrite <- Hcs. by destruct (WorkspaceHandlers.transition _ _ _ _ _ _ _).
Qed.

End handlers_as_calls.

Section isolation.
Import sqlite.

Lemma elsewhere_refl id db : elsewhere id db db.
Proof. done. Qed.

Lemma elsewhere_trans id db1 db2 db3 :
  elsewhere id db1 db2 → elsewhere id db2 db3 → elsewhere id db1 db3.
Proof.
  intros (H1 & H2 & H3) (K1 & K2 & K3). split_and!.
  - intros other Hne. by rewrite K1, H1.
  - intros other key Hne. by rewrite K2, H2.
  - by rewrite K3, H3.
Qed.

Lemma elsewhere_row id row db :
  elsewhere id db (with_workspaces db (<[id := row]> (workspaces db))).
Proof.
  split_and!; [|done..]. intros other Hne. cbn. by rewrite lookup_insert_ne.
Qed.

Lemma elsewhere_insert_workspace row db :
  elsewhere (ID row) db (insert_workspace row db).1.
Proof.
  unfold insert_workspace. destruct (workspaces db !! ID row); [done|].
  apply elsewhere_row.
Qed.

Lemma elsewhere_delete_workspace id db : elsewhere id db (delete_workspace id db).
Proof.
  unfold delete_workspace. destruct (workspaces db !! id); [|done].
  split_and!; cbn.
  - intros other Hne. by rewrite lookup_delete_ne.
  - intros other key Hne.
    destruct (workspace_secrets db !! (other, key)) as [v|] eqn:Hk.
    + by apply map_lookup_filter_Some.
    + apply map_lookup_filter_None. by left.
  - by rewrite list_filter_filter_l.
Qed.

Lemma elsewhere_delete_secrets id db : elsewhere id db (delete_secrets id db).
Proof.
  split_and!; cbn; [done| |done].
  intros other key Hne.
  destruct (workspace_secrets db !! (other, key)) as [v|] eqn:Hk.
  - by apply map_lookup_filter_Some.
  - apply map_lookup_filter_None. by left.
Qed.

Lemma elsewhere_upsert_secret s db :
  elsewhere (SecretWorkspaceID s) db (upsert_secret s db).1.
Proof.
  unfold upsert_secret. destruct (workspaces db !! SecretWorkspaceID s); [|done].
  split_and!; cbn; [done| |done].
  intros other key Hne. rewrite lookup_insert_ne; [done|]. congruence.
Qed.

Lemma elsewhere_insert_event e t db :
  elsewhere (EventWorkspaceID e) db (insert_event e t db).1.1.
Proof.
  unfold insert_event. destruct (workspaces db !! EventWorkspaceID e); [|done].
  split_and!; cbn; [done..|].
  rewrite filter_app, filter_cons_False, filter_nil, app_nil_r; [done|].
  cbn. by intros [].
Qed.

Lemma call1_elsewhere id c db :
  about id c → elsewhere id db (call SQLiteStore1.impl c db).1.
Proof.
  destruct c as [ws|ws|i|s|i|e|t]; cbn [about call fst]; intros Hab; try subst id.
  - cbn [CreateWorkspace SQLiteStore1.impl]. rewrite Create1_db.
    apply (elsewhere_insert_workspace (stamped ws (clock db) (clock db))).
  - cbn [UpdateWorkspace SQLiteStore1.impl]. unfold SQLiteStore1.UpdateWorkspace.
    destruct (workspaces db !! ID ws); [apply elsewhere_row|done].
  - apply elsewhere_delete_workspace.
  - apply elsewhere_upsert_secret.
  - apply elsewhere_delete_secrets.
  - cbn [LogEvent SQLiteStore1.impl].
    pose proof (LogEvent1_db e db) as Hdb.
    destruct (SQLiteStore1.LogEvent e db) as [[db' e'] err]. cbn [fst] in *. subst db'.
    apply elsewhere_insert_event.
  - done.
Qed.

Lemma call2_elsewhere id c db :
  about id c → elsewhere id db (call SQLiteStore2.impl c db).1.
Proof.
  destruct c as [ws|ws|i|s|i|e|t]; cbn [about call fst]; intros Hab; try subst id.
  - cbn [CreateWorkspace SQLiteStore2.impl]. rewrite Create2_db.
    match goal with |- context [insert_workspace ?row db] =>
      apply (elsewhere_insert_workspace row) end.
  - cbn [UpdateWorkspace SQLiteStore2.impl]. unfold SQLiteStore2.UpdateWorkspace.
    destruct (workspaces db !! ID ws); [apply elsewhere_row|done].
  - apply elsewhere_delete_workspace.
  - apply elsewhere_upsert_secret.
  - apply elsewhere_delete_secrets.
  - cbn [LogEvent SQLiteStore2.impl].
    pose proof (LogEvent2_db e db) as Hdb.
    destruct (SQLiteStore2.LogEvent e db) as [[db' e'] err]. cbn [fst] in *. subst db'.
    match goal with |- context [insert_event ?x ?t db] =>
      apply (elsewhere_insert_event x t) end.
  - done.
Qed.

Lemma calls_elsewhere (st : Store DB) id :
  (∀ c db, about id c → elsewhere id db (call st c db).1) →
  ∀ cs db, Forall (about id) cs → elsewhere id db (calls st cs db).1.
Proof.
  intros Hstep cs. induction cs as [|c cs IH]; intros db Hcs; [done|].
  apply Forall_cons in Hcs as [Hc Hcs]. rewrite calls_cons.
  eapply elsewhere_trans; [by apply Hstep|by apply IH].
Qed.

Lemma keyed1 id db : rows_keyed db → keyed SQLiteStore1.impl id db.
Proof.
  intros Hk ws e. cbn. unfold SQLiteStore1.GetWorkspace.
  destruct (workspaces db !! id) as [row|] eqn:Hid; [|done].
  intros [= <- _]. by apply Hk in Hid.
Qed.

Lemma keyed2 id db : rows_keyed db → keyed SQLiteStore2.impl id db.
Proof.
  intros Hk ws e. cbn. unfold SQLiteStore2.GetWorkspace.
  destruct (workspaces db !! id) as [row|] eqn:Hid; [|done].
  intros [= <- _]. by apply Hk in Hid.
Qed.

Lemma keyed_create2 id : keyed_create SQLiteStore2.impl id.
Proof.
  intros ws db <-. cbn. unfold SQLiteStore2.CreateWorkspace.
  by destruct (insert_workspace _ db).
Qed.

Context {C : Type}.

(** X12. A request about one workspace leaves every other workspace alone.
    In a registry whose rows sit under their own ids, the create, delete,
    start and stop handlers of both generations, called for [id], and the
    background deployment of [id], however it meets the request's context,
    leave the rows, the secrets and the events of every other workspace as
    they were, whatever the orchestrator does. *)
Theorem requests_leave_other_workspaces_alone (id : string) (db : DB) (c : C) :
  rows_keyed db →
  (∀ (orch : option (orchestrator.Orchestrator C)),
     (∀ body, elsewhere id db (WorkspaceHandler.Create SQLiteStore1.impl orch id body db).1.1)
     ∧ elsewhere id db (WorkspaceHandler.Delete SQLiteStore1.impl orch id db c).1.1
     ∧ elsewhere id db (WorkspaceHandler.Start SQLiteStore1.impl orch id db c).1.1
     ∧ elsewhere id db (WorkspaceHandler.Stop SQLiteStore1.impl orch id db c).1.1)
  ∧ (∀ ctx (o : orchestrator.Orchestrator C) t,
       WorkspaceHandler.task_id t = id → ID (WorkspaceHandler.task_ws t) = id →
       elsewhere id db (WorkspaceHandler.deploy SQLiteStore1.impl ctx o t db c).1)
  ∧ (∀ (orch : orchestrator.Orchestrator C),
       (∀ body,
          elsewhere id db (WorkspaceHandlers.CreateWorkspace SQLiteStore2.impl orch id body db c).1.1)
       ∧ elsewhere id db (WorkspaceHandlers.DeleteWorkspace SQLiteStore2.impl orch id db c).1.1
       ∧ elsewhere id db (WorkspaceHandlers.StartWorkspace SQLiteStore2.impl orch id db c).1.1
       ∧ elsewhere id db (WorkspaceHandlers.StopWorkspace SQLiteStore2.impl orch id db c).1.1).
Proof.
  intros Hk.
  pose proof (calls_elsewhere SQLiteStore1.impl id (call1_elsewhere id)) as H1.
  pose proof (calls_elsewhere SQLiteStore2.impl id (call2_elsewhere id)) as H2.
  split_and!.
  - intros orch. split_and!.
    + intros body.
      destruct (Create1_calls SQLiteStore1.impl orch id body db) as (cs & -> & Hab).
      by apply H1.
    + destruct (Delete1_calls SQLiteStore1.impl orch id db c) as (cs & -> & Hab).
      by apply H1.
    + destruct (Start1_calls SQLiteStore1.impl orch id db c) as (cs & -> & Hab).
      apply H1, Hab. by apply keyed1.
    + destruct (Stop1_calls SQLiteStore1.impl orch id db c) as (cs & -> & Hab).
      apply H1, Hab. by apply keyed1.
  - intros ctx o t Hid Hws.
    destruct (deploy1_calls SQLiteStore1.impl ctx o t db c) as (cs & -> & Hab).
    apply H1. rewrite <- Hid. apply Hab. congruence.
  - intros orch. split_and!.
    + intros body.
      destruct (Create2_calls SQLiteStore2.impl orch id body db c) as (cs & -> & Hab).
      apply H2, Hab, keyed_create2.
    + destruct (Delete2_calls SQLiteStore2.impl orch id db c) as (cs & -> & Hab).
      by apply H2.
    + destruct (Start2_calls SQLiteStore2.impl orch id db c) as (cs & -> & Hab).
      apply H2, Hab. by apply keyed2.
    + destruct (Stop2_calls SQLiteStore2.impl orch id db c) as (cs & -> & Hab).
      apply H2, Hab. by apply keyed2.
Qed.

End isolation.

Section isolation_witness.
Import sqlite.

Lemma requests_leave_other_workspaces_alone_witness :
  let wsA := demo_workspace "a1b2c3d4" "hld-a1b2c3d4" "workspace-a1b2c3d4" in
  let wsB := demo_workspace "e5f6a7b8" "hld-e5f6a7b8" "workspace-e5f6a7b8" in
  let db :=
    (calls SQLiteStore2.impl [CallCreateWorkspace wsA; CallCreateWorkspace wsB] empty).1 in
  elsewhere "a1b2c3d4" db
    (WorkspaceHandlers.DeleteWorkspace SQLiteStore2.impl (doubles.MockOrchestrator None)
       "a1b2c3d4" db tt).1.1.
Proof.
  intros wsA wsB db.
  destruct (requests_leave_other_workspaces_alone "a1b2c3d4" db tt) as (_ & _ & H).
  - apply (bool_decide_unpack _). vm_compute. exact I.
  - apply (H (doubles.MockOrchestrator None)).
Defined.

End isolation_witness.

Section deletion.
Import sqlite.
Context {C : Type}.

Lemma no_trace_fresh id db :
  references_ok db → workspaces db !! id = None → no_trace id db.
Proof.
  intros [Hs He] Hid. split_and!; [done| |].
  - intros key. destruct (workspace_secrets db !! (id, key)) eqn:Hk; [|done].
    apply Hs in Hk. cbn in Hk. rewrite Hid in Hk. by destruct Hk.
  - apply filter_Forall_nil. eapply Forall_impl; [exact He|].
    intros e Hx Heq. cbn in Hx. rewrite Heq, Hid in Hx. by destruct Hx.
Qed.

Lemma no_trace_delete_workspace id db :
  is_Some (workspaces db !! id) → no_trace id (delete_workspace id db).
Proof.
  intros [row Hid]. unfold delete_workspace. rewrite Hid. split_and!; cbn.
  - by rewrite lookup_delete_eq.
  - intros key. apply map_lookup_filter_None. right. intros v _. cbn. by intros [].
  - unfold events_of. cbn. apply filter_Forall_nil, Forall_forall.
    by intros e [Hne _]%list_elem_of_filter.
Qed.

Lemma Delete1_stored (orch : option (orchestrator.Orchestrator C)) id db c ws :
  workspaces db !! id = Some ws →
  WorkspaceHandler.Delete SQLiteStore1.impl orch id db c
  = (delete_workspace id db,
     match orch with
     | Some o => (orchestrator.DeleteWorkspace o ws c).1
     | None => c
     end,
     JSON http.StatusOK
       (api.MessageResponse ("Workspace '" +:+ Name ws +:+ "' deleted") None)).
Proof.
  intros Hid. unfold WorkspaceHandler.Delete.
  cbn [GetWorkspace DeleteWorkspace SQLiteStore1.impl].
  unfold SQLiteStore1.GetWorkspace, SQLiteStore1.DeleteWorkspace. rewrite Hid.
  by destruct orch.
Qed.

Lemma Delete2_stored (orch : orchestrator.Orchestrator C) id db c ws :
  workspaces db !! id = Some ws →
  WorkspaceHandlers.DeleteWorkspace SQLiteStore2.impl orch id db c
  = (delete_workspace id (delete_secrets id db),
     (orchestrator.DeleteWorkspace orch ws c).1,
     JSON http.StatusOK (api.MessageResponse ("Workspace " +:+ id +:+ " deleted") None)).
Proof.
  intros Hid. unfold WorkspaceHandlers.DeleteWorkspace.
  cbn [GetWorkspace DeleteWorkspace DeleteSecrets SQLiteStore2.impl].
  unfold SQLiteStore2.GetWorkspace, SQLiteStore2.DeleteWorkspace,
    SQLiteStore2.DeleteSecrets. rewrite Hid.
  by destruct (orchestrator.DeleteWorkspace orch ws c).
Qed.

(** X13. Deleting a stored workspace goes through even when the orchestrator
    fails.  Both delete handlers call the orchestrator, drop its error,
    delete the row and answer 200; afterwards the registry holds no row, no
    secret and no event of that workspace. *)
Theorem delete_survives_orchestrator_failure (id : string) (db : DB) (c : C)
    (ws : Workspace) :
  workspaces db !! id = Some ws →
  (∀ orch : option (orchestrator.Orchestrator C),
     ∃ db',
       WorkspaceHandler.Delete SQLiteStore1.impl orch id db c
       = (db',
          match orch with
          | Some o => (orchestrator.DeleteWorkspace o ws c).1
          | None => c
          end,
          JSON http.StatusOK
            (api.MessageResponse ("Workspace '" +:+ Name ws +:+ "' deleted") None))
       ∧ no_trace id db')
  ∧ (∀ orch : orchestrator.Orchestrator C,
       ∃ db',
         WorkspaceHandlers.DeleteWorkspace SQLiteStore2.impl orch id db c
         = (db', (orchestrator.DeleteWorkspace orch ws c).1,
            JSON http.StatusOK (api.MessageResponse ("Workspace " +:+ id +:+ " deleted") None))
         ∧ no_trace id db').
Proof.
  intros Hid. split; intros orch.
  - exists (delete_workspace id db). split; [by apply Delete1_stored|].
    apply no_trace_delete_workspace; eauto.
  - exists (delete_workspace id (delete_secrets id db)).
    split; [by apply Delete2_stored|]. apply no_trace_delete_workspace; cbn; eauto.
Qed.

(** X14. An id that is not stored.  Over the first [SQLiteStore],
    [WorkspaceHandler] answers 404 to Get, Delete, Start, Stop and Events;
    over the second, [WorkspaceHandlers] answers 404 to Get, Delete, Start
    and Stop, while its events handler, which does not look the workspace
    up, answers 200 with an empty list when the foreign keys hold.  None of
    them changes the registry or calls the orchestrator. *)
Theorem unknown_id_is_not_found (id : string) (db : DB) (c : C) :
  workspaces db !! id = None →
  (∀ orch : option (orchestrator.Orchestrator C),
     let notFound := JSON http.StatusNotFound (api.ErrorResponse "Workspace not found") in
     WorkspaceHandler.Get SQLiteStore1.impl orch id db c = notFound
     ∧ WorkspaceHandler.Delete SQLiteStore1.impl orch id db c = (db, c, notFound)
     ∧ WorkspaceHandler.Start SQLiteStore1.impl orch id db c = (db, c, notFound)
     ∧ WorkspaceHandler.Stop SQLiteStore1.impl orch id db c = (db, c, notFound)
     ∧ ∀ limit, WorkspaceHandler.Events SQLiteStore1.impl id limit db = notFound)
  ∧ (∀ orch : orchestrator.Orchestrator C,
       let message := Some ("workspace not found: " +:+ id) in
       WorkspaceHandlers.GetWorkspace SQLiteStore2.impl orch id db c
       = JSON http.StatusNotFound (api.WorkspaceResponse None message)
       ∧ WorkspaceHandlers.DeleteWorkspace SQLiteStore2.impl orch id db c
         = (db, c, JSON http.StatusNotFound (api.MessageResponse "" message))
       ∧ WorkspaceHandlers.StartWorkspace SQLiteStore2.impl orch id db c
         = (db, c, JSON http.StatusNotFound (api.WorkspaceResponse None message))
       ∧ WorkspaceHandlers.StopWorkspace SQLiteStore2.impl orch id db c
         = (db, c, JSON http.StatusNotFound (api.WorkspaceResponse None message))
       ∧ (references_ok db →
          ∀ limit, WorkspaceHandlers.GetEvents SQLiteStore2.impl id limit db
                   = JSON http.StatusOK (api.EventListResponse [] None))).
Proof.
  intros Hid. split; intros orch.
  - unfold WorkspaceHandler.Get, WorkspaceHandler.Delete, WorkspaceHandler.Start,
      WorkspaceHandler.Stop, WorkspaceHandler.Events.
    cbn [GetWorkspace SQLiteStore1.impl]. unfold SQLiteStore1.GetWorkspace.
    rewrite Hid. done.
  - unfold WorkspaceHandlers.GetWorkspace, WorkspaceHandlers.DeleteWorkspace,
      WorkspaceHandlers.StartWorkspace, WorkspaceHandlers.StopWorkspace,
      WorkspaceHandlers.GetEvents.
    cbn [GetWorkspace GetEvents SQLiteStore2.impl].
    unfold SQLiteStore2.GetWorkspace, SQLiteStore2.GetEvents.
    rewrite Hid. split_and!; try done.
    intros Hok limit. destruct (no_trace_fresh id db Hok Hid) as (_ & _ & Hev).
    by rewrite (select_events_nil id _ db Hev).
Qed.

End deletion.

Section deletion_witnesses.
Import sqlite.

Lemma delete_survives_orchestrator_failure_witness :
  let ws := demo_workspace "a1b2c3d4" "ws-a1b2c3d4" "ws-a1b2c3d4" in
  let db := (SQLiteStore1.CreateWorkspace ws empty).1.1 in
  let failing :=
    doubles.FaultyOrchestrator None None None (Some "release: not found"%string) in
  ∃ db', WorkspaceHandler.Delete SQLiteStore1.impl (Some failing) "a1b2c3d4" db tt
         = (db', tt, JSON http.StatusOK (api.MessageResponse "Workspace 'demo' deleted" None))
    ∧ no_trace "a1b2c3d4" db'.
Proof.
  intros ws db failing.
  destruct (delete_survives_orchestrator_failure (C:=unit) "a1b2c3d4" db tt ws) as [H _].
  - vm_compute. reflexivity.
  - exact (H (Some failing)).
Defined.

Lemma unknown_id_is_not_found_witness :
  WorkspaceHandlers.GetEvents SQLiteStore2.impl "nonexistent" "10" empty
  = JSON http.StatusOK (api.EventListResponse [] None)
  ∧ WorkspaceHandler.Events SQLiteStore1.impl "nonexistent" "10" empty
    = JSON http.StatusNotFound (api.ErrorResponse "Workspace not found").
Proof.
  destruct (unknown_id_is_not_found (C:=unit) "nonexistent" empty tt) as [H1 H2];
    [reflexivity|].
  split.
  - apply (H2 (doubles.MockOrchestrator None)).
    apply (bool_decide_unpack _). vm_compute. exact I.
  - apply (H1 None).
Defined.

End deletion_witnesses.

Section transitions.
Import sqlite.
Context {C : Type}.

Lemma transition1_result id ws status eventType message db :
  workspaces db !! id = Some ws → ID ws = id →
  WorkspaceHandler.transition SQLiteStore1.impl id ws status eventType message db
  = (transitioned db id ws status eventType message,
     JSON http.StatusOK
       (api.WorkspaceResponse
          (Some (api.mkDTO (stamped (withStatus ws status) (CreatedAt ws) (clock db)) None))
          None)).
Proof.
  intros Hid Hws. unfold WorkspaceHandler.transition.
  cbn [UpdateWorkspace LogEvent GetWorkspace SQLiteStore1.impl].
  unfold SQLiteStore1.UpdateWorkspace. cbn [ID withStatus]. rewrite Hws, Hid.
  rewrite LogEvent1_spec
    by (cbn [workspaces with_workspaces]; rewrite lookup_insert_eq; eauto).
  unfold SQLiteStore1.GetWorkspace. cbn [workspaces with_workspaces].
  rewrite lookup_insert_eq. subst id. reflexivity.
Qed.

Lemma transition2_result id ws status eventType message db :
  workspaces db !! id = Some ws → ID ws = id →
  WorkspaceHandlers.transition SQLiteStore2.impl id ws status eventType message db
  = (transitioned db id ws status eventType message,
     JSON http.StatusOK
       (api.WorkspaceResponse
          (Some (api.mkDTO (stamped (withStatus ws status) (CreatedAt ws) (clock db)) None))
          None)).
Proof.
  intros Hid Hws. unfold WorkspaceHandlers.transition.
  cbn [UpdateWorkspace LogEvent GetWorkspace SQLiteStore2.impl].
  unfold SQLiteStore2.UpdateWorkspace. cbn [ID withStatus]. rewrite Hws, Hid.
  rewrite LogEvent2_spec
    by (cbn [workspaces with_workspaces]; rewrite lookup_insert_eq; eauto).
  subst id. reflexivity.
Qed.

(** X15. What a start or stop that goes through records.  For a stored
    workspace whose row sits under its id, when the orchestrator call
    succeeds (or, in the first generation, when there is no orchestrator),
    both generations end in the same registry: the row has the new status
    and the current time as its update time and is otherwise as before, one
    event of kind [started] or [stopped] is appended, and the response is
    200 with that row.  The first generation does so for a workspace that is
    not already in the target status. *)
Theorem start_stop_record_the_transition (id : string) (db : DB) (c : C) (ws : Workspace) :
  workspaces db !! id = Some ws →
  ID ws = id →
  let ok status :=
    JSON http.StatusOK
      (api.WorkspaceResponse
         (Some (api.mkDTO (stamped (withStatus ws status) (CreatedAt ws) (clock db)) None))
         None) in
  (∀ orch : orchestrator.Orchestrator C,
     ((orchestrator.StopWorkspace orch ws c).2 = None →
      WorkspaceHandlers.StopWorkspace SQLiteStore2.impl orch id db c
      = (transitioned db id ws StatusStopped "stopped" "Workspace stopped",
         (orchestrator.StopWorkspace orch ws c).1, ok StatusStopped))
     ∧ ((orchestrator.StartWorkspace orch ws c).2 = None →
        WorkspaceHandlers.StartWorkspace SQLiteStore2.impl orch id db c
        = (transitioned db id ws StatusRunning "started" "Workspace started",
           (orchestrator.StartWorkspace orch ws c).1, ok StatusRunning))
     ∧ (Status ws ≠ StatusStopped →
        (orchestrator.StopWorkspace orch ws c).2 = None →
        WorkspaceHandler.Stop SQLiteStore1.impl (Some orch) id db c
        = (transitioned db id ws StatusStopped "stopped" "Workspace stopped",
           (orchestrator.StopWorkspace orch ws c).1, ok StatusStopped))
     ∧ (Status ws ≠ StatusRunning →
        (orchestrator.StartWorkspace orch ws c).2 = None →
        WorkspaceHandler.Start SQLiteStore1.impl (Some orch) id db c
        = (transitioned db id ws StatusRunning "started" "Workspace started",
           (orchestrator.StartWorkspace orch ws c).1, ok StatusRunning)))
  ∧ (Status ws ≠ StatusStopped →
     WorkspaceHandler.Stop (C:=C) SQLiteStore1.impl None id db c
     = (transitioned db id ws StatusStopped "stopped" "Workspace stopped", c,
        ok StatusStopped))
  ∧ (Status ws ≠ StatusRunning →
     WorkspaceHandler.Start (C:=C) SQLiteStore1.impl None id db c
     = (transitioned db id ws StatusRunning "started" "Workspace started", c,
        ok StatusRunning)).
Proof.
  intros Hid Hws ok. split_and!.
  - intros orch. split_and!.
    + intros Hok. unfold WorkspaceHandlers.StopWorkspace.
      cbn [GetWorkspace SQLiteStore2.impl]. unfold SQLiteStore2.GetWorkspace. rewrite Hid.
      destruct (orchestrator.StopWorkspace orch ws c) as [c1 oerr]. cbn in Hok. subst oerr.
      by rewrite transition2_result.
    + intros Hok. unfold WorkspaceHandlers.StartWorkspace.
      cbn [GetWorkspace SQLiteStore2.impl]. unfold SQLiteStore2.GetWorkspace. rewrite Hid.
      destruct (orchestrator.StartWorkspace orch ws c) as [c1 oerr]. cbn in Hok. subst oerr.
      by rewrite transition2_result.
    + intros Hst Hok. unfold WorkspaceHandler.Stop.
      cbn [GetWorkspace SQLiteStore1.impl]. unfold SQLiteStore1.GetWorkspace. rewrite Hid.
      rewrite decide_False by done.
      destruct (orchestrator.StopWorkspace orch ws c) as [c1 oerr]. cbn in Hok. subst oerr.
      by rewrite transition1_result.
    + intros Hst Hok. unfold WorkspaceHandler.Start.
      cbn [GetWorkspace SQLiteStore1.impl]. unfold SQLiteStore1.GetWorkspace. rewrite Hid.
      rewrite decide_False by done.
      destruct (orchestrator.StartWorkspace orch ws c) as [c1 oerr]. cbn in Hok. subst oerr.
      by rewrite transition1_result.
  - intros Hst. unfold WorkspaceHandler.Stop.
    cbn [GetWorkspace SQLiteStore1.impl]. unfold SQLiteStore1.GetWorkspace. rewrite Hid.
    rewrite decide_False by done. by rewrite transition1_result.
  - intros Hst. unfold WorkspaceHandler.Start.
    cbn [GetWorkspace SQLiteStore1.impl]. unfold SQLiteStore1.GetWorkspace. rewrite Hid.
    rewrite decide_False by done. by rewrite transition1_result.
Qed.

End transitions.

Section transitions_witness.
Import sqlite.

Lemma start_stop_record_the_transition_witness :
  let ws := stamped (WorkspaceHandlers.newWorkspace "a1b2c3d4" (named "demo")) 0 0 in
  let db := (SQLiteStore2.CreateWorkspace ws empty).1.1 in
  Status <$>
    workspaces (WorkspaceHandlers.StopWorkspace SQLiteStore2.impl
                  (doubles.MockOrchestrator None) "a1b2c3d4" db tt).1.1 !! "a1b2c3d4"
  = Some StatusStopped.
Proof.
  intros ws db.
  destruct (start_stop_record_the_transition "a1b2c3d4" db tt ws) as [H _].
  - vm_compute. reflexivity.
  - reflexivity.
  - destruct (H (doubles.MockOrchestrator None)) as [Hstop _].
    rewrite Hstop by reflexivity. vm_compute. reflexivity.
Defined.

End transitions_witness.

Section create_delete.
Import sqlite.
Context {C : Type}.

Lemma filter_nil_complement {A} (P : A → Prop) `{∀ x, Decision (P x)} (l : list A) :
  filter P l = [] → filter (λ x, ¬ P x) l = l.
Proof.
  induction l as [|x l IH]; [done|]. destruct (decide (P x)) as [Hx|Hx].
  - by rewrite filter_cons_True.
  - rewrite filter_cons_False by done. intros Hl.
    rewrite filter_cons_True by done. by rewrite IH.
Qed.

Lemma restore_tables id db db' :
  no_trace id db → no_trace id db' → elsewhere id db db' → same_tables db db'.
Proof.
  intros (Hw & Hs & He) (Hw' & Hs' & He') (Ew & Es & Ee). split_and!.
  - apply map_eq. intros i. destruct (decide (i = id)) as [->|Hne]; [congruence|].
    by apply Ew.
  - apply map_eq. intros [w k]. destruct (decide (w = id)) as [->|Hne];
      [by rewrite Hs, Hs'|]. by apply Es.
  - unfold events_of in He, He'.
    apply filter_nil_complement in He, He'. cbn in He, He'. congruence.
Qed.

Lemma deploy1_absent ctx (o : orchestrator.Orchestrator C) t db c :
  workspaces db !! WorkspaceHandler.task_id t = None →
  ID (WorkspaceHandler.task_ws t) = WorkspaceHandler.task_id t →
  (WorkspaceHandler.deploy SQLiteStore1.impl ctx o t db c).1 = db.
Proof.
  intros Hid Hws.
  apply (deploy_keeps SQLiteStore1.impl (λ s, s = db)); [| |done].
  - intros status s' ->. cbn [UpdateWorkspace SQLiteStore1.impl].
    unfold SQLiteStore1.UpdateWorkspace. cbn [ID withStatus]. by rewrite Hws, Hid.
  - intros e s' He ->. cbn [LogEvent SQLiteStore1.impl].
    unfold SQLiteStore1.LogEvent, insert_event. by rewrite He, Hid.
Qed.

(** X16. Create and then delete.  For a fresh id and a request that binds,
    in a registry whose foreign keys hold: after the create handler and then
    the delete handler for that id, the three tables are exactly as they were
    before the create, whatever the orchestrator answered to the deployment
    and to the deletion; only the event counter has moved.  In the first
    generation the background deployment that [Create] started, when it runs
    after the delete, changes nothing in the registry, however it meets the
    request's context. *)
Theorem create_then_delete_restores (id : string) (req : api.CreateWorkspaceRequest)
    (db : DB) (c : C) :
  references_ok db →
  workspaces db !! id = None →
  (¬ refused2 (inr req) →
   ∀ orch : orchestrator.Orchestrator C,
     let '(db1, c1, _) :=
       WorkspaceHandlers.CreateWorkspace SQLiteStore2.impl orch id (inr req) db c in
     let '(db2, _, reply) :=
       WorkspaceHandlers.DeleteWorkspace SQLiteStore2.impl orch id db1 c1 in
     same_tables db db2 ∧ code_of reply = Some http.StatusOK)
  ∧ (¬ refused1 (inr req) →
     ∀ orch : option (orchestrator.Orchestrator C),
       let '(db1, _, task) :=
         WorkspaceHandler.Create SQLiteStore1.impl orch id (inr req) db in
       let '(db2, c2, reply) := WorkspaceHandler.Delete SQLiteStore1.impl orch id db1 c in
       same_tables db db2 ∧ code_of reply = Some http.StatusOK
       ∧ ∀ ctx o t, orch = Some o → task = Some t →
                (WorkspaceHandler.deploy SQLiteStore1.impl ctx o t db2 c2).1 = db2).
Proof.
  intros Hok Hfresh.
  pose proof (no_trace_fresh id db Hok Hfresh) as Hnt. split.
  - intros Hbind orch.
    assert (WorkspaceHandlers.ShouldBindJSON (inr req) = inl req) as Hb.
    { unfold WorkspaceHandlers.ShouldBindJSON. by rewrite decide_False. }
    pose proof (Create2_result C orch id req db c Hb Hfresh) as Hres. cbn zeta in Hres.
    destruct (Create2_calls SQLiteStore2.impl orch id (inr req) db c) as (cs & Hcs & Hab).
    destruct (orchestrator.DeployWorkspace orch _ _ c) as [c1' derr].
    destruct (WorkspaceHandlers.CreateWorkspace SQLiteStore2.impl orch id (inr req) db c)
      as [[db1 c1] r1].
    destruct Hres as (_ & Hrow & _). cbn [fst] in Hcs.
    erewrite Delete2_stored by (rewrite Hrow; apply lookup_insert_eq).
    split; [|done]. apply (restore_tables id); [done| |].
    + apply no_trace_delete_workspace. cbn. rewrite Hrow, lookup_insert_eq. eauto.
    + eapply elsewhere_trans; [|eapply elsewhere_trans];
        [|apply elsewhere_delete_secrets|apply elsewhere_delete_workspace].
      rewrite Hcs. apply (calls_elsewhere SQLiteStore2.impl id (call2_elsewhere id)).
      apply Hab, keyed_create2.
  - intros Hbind orch.
    assert (WorkspaceHandler.ShouldBindJSON (inr req) = inl req) as Hb.
    { unfold WorkspaceHandler.ShouldBindJSON. cbn in Hbind.
      case_decide as Hn; [destruct Hbind; by left|].
      destruct (63 <? utf8.RuneCountInString (api.Name req))%Z eqn:Hlen; [|done].
      destruct Hbind. right. lia. }
    pose proof (Create1_row C orch id req db Hb Hfresh) as Hres.
    destruct (Create1_calls SQLiteStore1.impl orch id (inr req) db) as (cs & Hcs & Hab).
    destruct (WorkspaceHandler.Create SQLiteStore1.impl orch id (inr req) db)
      as [[db1 r1] task].
    destruct Hres as (Hrow & _ & Htask). cbn [fst] in Hcs.
    erewrite Delete1_stored by (rewrite Hrow; apply lookup_insert_eq).
    assert (no_trace id (delete_workspace id db1)) as Hnt2.
    { apply no_trace_delete_workspace. rewrite Hrow, lookup_insert_eq. eauto. }
    split_and!; [|done|].
    + apply (restore_tables id); [done..|].
      eapply elsewhere_trans; [|apply elsewhere_delete_workspace].
      rewrite Hcs. by apply (calls_elsewhere SQLiteStore1.impl id (call1_elsewhere id)).
    + intros ctx o t -> ->. cbn in Htask. injection Htask as ->.
      apply deploy1_absent; [|done]. cbn. apply Hnt2.
Qed.

End create_delete.

Section create_delete_witness.
Import sqlite.

Lemma create_then_delete_restores_witness :
  let orch := doubles.MockOrchestrator (Some "helm install failed"%string) in
  let '(db1, c1, _) :=
    WorkspaceHandlers.CreateWorkspace SQLiteStore2.impl orch "a1b2c3d4"
      (inr (bare "Ada" "ada@example.com" [("gh_token", "ghp_test_token")])) empty tt in
  let '(db2, _, reply) :=
    WorkspaceHandlers.DeleteWorkspace SQLiteStore2.impl orch "a1b2c3d4" db1 c1 in
  same_tables empty db2 ∧ code_of reply = Some http.StatusOK.
Proof.
  intros orch.
  refine (proj1 (create_then_delete_restores "a1b2c3d4"
                   (bare "Ada" "ada@example.com" [("gh_token", "ghp_test_token")])
                   empty tt _ _) _ orch).
  - apply (bool_decide_unpack _). vm_compute. exact I.
  - reflexivity.
  - vm_compute. discriminate.
Defined.

End create_delete_witness.

Section daemons_as_calls.
Import sqlite.
Context {C : Type}.

Lemma StronglySorted_sublist {A} (R : relation A) (l k : list A) :
  l `sublist_of` k → StronglySorted R k → StronglySorted R l.
Proof.
  induction 1 as [|x l k Hsub IH|x l k Hsub IH]; intros Hk; [done| |].
  - apply StronglySorted_inv in Hk as [Hk Hx]. constructor; [by apply IH|].
    apply Forall_forall. intros y Hy.
    apply (proj1 (Forall_forall _ _) Hx). by eapply elem_of_sublist.
  - apply StronglySorted_inv in Hk as [Hk _]. by apply IH.
Qed.

Lemma step1_calls (orch : option (orchestrator.Orchestrator C)) a σ :
  ∃ cs, Daemon1.db (Daemon1.step orch a σ).1
        = (calls SQLiteStore1.impl cs (Daemon1.db σ)).1.
Proof.
  destruct a as [|id body|id|id|id|id|id limit|t|n]; cbn [Daemon1.step];
    try (by exists []).
  - destruct (Create1_calls SQLiteStore1.impl orch id body (Daemon1.db σ)) as (cs & Hcs & _).
    exists cs. rewrite <- Hcs. by destruct (WorkspaceHandler.Create _ _ _ _ _) as [[? ?] ?].
  - destruct (Delete1_calls SQLiteStore1.impl orch id (Daemon1.db σ) (Daemon1.cluster σ))
      as (cs & Hcs & _).
    exists cs. rewrite <- Hcs. by destruct (WorkspaceHandler.Delete _ _ _ _ _) as [[? ?] ?].
  - destruct (Start1_calls SQLiteStore1.impl orch id (Daemon1.db σ) (Daemon1.cluster σ))
      as (cs & Hcs & _).
    exists cs. rewrite <- Hcs. by destruct (WorkspaceHandler.Start _ _ _ _ _) as [[? ?] ?].
  - destruct (Stop1_calls SQLiteStore1.impl orch id (Daemon1.db σ) (Daemon1.cluster σ))
      as (cs & Hcs & _).
    exists cs. rewrite <- Hcs. by destruct (WorkspaceHandler.Stop _ _ _ _ _) as [[? ?] ?].
  - by exists [CallTick t].
  - destruct (Daemon1.goroutines σ !! n) as [t|]; [|by exists []].
    destruct orch as [o|]; [|by exists []].
    destruct (deploy1_calls SQLiteStore1.impl ctx o t (Daemon1.db σ) (Daemon1.cluster σ))
      as (cs & Hcs & _).
    exists cs. rewrite <- Hcs. by destruct (WorkspaceHandler.deploy _ _ _ _ _ _) as [? ?].
Qed.

Lemma step2_calls (orch : orchestrator.Orchestrator C) a σ :
  ∃ cs, Daemon2.db (Daemon2.step orch a σ).1
        = (calls SQLiteStore2.impl cs (Daemon2.db σ)).1.
Proof.
  destruct a as [|id body|id|id|id|id|id limit|t|n]; cbn [Daemon2.step];
    try (by exists []).
  - destruct (Create2_calls SQLiteStore2.impl orch id body (Daemon2.db σ) (Daemon2.cluster σ))
      as (cs & Hcs & _).
    exists cs. rewrite <- Hcs.
    by destruct (WorkspaceHandlers.CreateWorkspace _ _ _ _ _ _) as [[? ?] ?].
  - destruct (Delete2_calls SQLiteStore2.impl orch id (Daemon2.db σ) (Daemon2.cluster σ))
      as (cs & Hcs & _).
    exists cs. rewrite <- Hcs.
    by destruct (WorkspaceHandlers.DeleteWorkspace _ _ _ _ _) as [[? ?] ?].
  - destruct (Start2_calls SQLiteStore2.impl orch id (Daemon2.db σ) (Daemon2.cluster σ))
      as (cs & Hcs & _).
    exists cs. rewrite <- Hcs.
    by destruct (WorkspaceHandlers.StartWorkspace _ _ _ _ _) as [[? ?] ?].
  - destruct (Stop2_calls SQLiteStore2.impl orch id (Daemon2.db σ) (Daemon2.cluster σ))
      as (cs & Hcs & _).
    exists cs. rewrite <- Hcs.
    by destruct (WorkspaceHandlers.StopWorkspace _ _ _ _ _) as [[? ?] ?].
  - by exists [CallTick t].
Qed.

Lemma run1_calls (orch : option (orchestrator.Orchestrator C)) acts σ :
  ∃ cs, Daemon1.db (Daemon1.run orch acts σ)
        = (calls SQLiteStore1.impl cs (Daemon1.db σ)).1.
Proof.
  revert σ. induction acts as [|a acts IH]; intros σ; [by exists []|].
  cbn [Daemon1.run foldl]. destruct (step1_calls orch a σ) as [cs1 H1].
  destruct (IH (Daemon1.step orch a σ).1) as [cs2 H2].
  exists (cs1 ++ cs2). rewrite calls_app, <- H1. exact H2.
Qed.

Lemma run2_calls (orch : orchestrator.Orchestrator C) acts σ :
  ∃ cs, Daemon2.db (Daemon2.run orch acts σ)
        = (calls SQLiteStore2.impl cs (Daemon2.db σ)).1.
Proof.
  revert σ. induction acts as [|a acts IH]; intros σ; [by exists []|].
  cbn [Daemon2.run foldl]. destruct (step2_calls orch a σ) as [cs1 H1].
  destruct (IH (Daemon2.step orch a σ).1) as [cs2 H2].
  exists (cs1 ++ cs2). rewrite calls_app, <- H1. exact H2.
Qed.

(** X17. The registry of a running daemon stays consistent.  In every state
    either daemon reaches from the empty registry, whatever requests arrive,
    whenever the clock ticks and the background deployments run, and whatever
    the orchestrator answers: every secret and every event belongs to a
    stored workspace, every row sits under its own id, and the ids of the
    stored events increase strictly in insertion order. *)
Theorem daemons_keep_registry_consistent
    (orch1 : option (orchestrator.Orchestrator C)) (orch2 : orchestrator.Orchestrator C)
    (acts : list Action) (c : C) :
  let db1 := Daemon1.db (Daemon1.run orch1 acts (Daemon1.init c)) in
  let db2 := Daemon2.db (Daemon2.run orch2 acts (Daemon2.init c)) in
  (references_ok db1 ∧ rows_keyed db1
   ∧ StronglySorted Z.lt (EventID <$> workspace_events db1))
  ∧ (references_ok db2 ∧ rows_keyed db2
     ∧ StronglySorted Z.lt (EventID <$> workspace_events db2)).
Proof.
  intros db1 db2. split.
  - destruct (run1_calls orch1 acts (Daemon1.init c)) as [cs Hcs].
    fold db1 in Hcs. cbn [Daemon1.init Daemon1.db] in Hcs. rewrite Hcs.
    destruct (calls1_consistent cs) as [Hr Hk].
    destruct (calls_ids SQLiteStore1.impl call1_ids cs empty) as (Hs & _ & _ & Hsub).
    split_and!; [done..|]. by eapply StronglySorted_sublist.
  - destruct (run2_calls orch2 acts (Daemon2.init c)) as [cs Hcs].
    fold db2 in Hcs. cbn [Daemon2.init Daemon2.db] in Hcs. rewrite Hcs.
    destruct (calls2_consistent cs) as [Hr Hk].
    destruct (calls_ids SQLiteStore2.impl call2_ids cs empty) as (Hs & _ & _ & Hsub).
    split_and!; [done..|]. by eapply StronglySorted_sublist.
Qed.

End daemons_as_calls.

Section names.

Lemma byte_of_ascii_of d :
  (0 ≤ d < 256)%Z → strconv.byte_of (ascii_of_N (Z.to_N d)) = d.
Proof.
  intros Hd. unfold strconv.byte_of. rewrite N_ascii_embedding; lia.
Qed.

Lemma byte_of_range a : (0 ≤ strconv.byte_of a < 256)%Z.
Proof.
  unfold strconv.byte_of. pose proof (N_ascii_bounded a). lia.
Qed.

Lemma ascii_of_byte_of a : ascii_of_N (Z.to_N (strconv.byte_of a)) = a.
Proof. unfold strconv.byte_of. rewrite N2Z.id. apply ascii_N_embedding. Qed.

Lemma sanitize_runes_label_bytes s :
  all_bytes label_byte (WorkspaceHandler.sanitize_runes s) = true.
Proof.
  induction s as [|a r IH]; [done|]. cbn [WorkspaceHandler.sanitize_runes].
  match goal with |- context [match ?sp with Some _ => _ | None => _ end] =>
    assert (sp = Some "i"%char ∨ sp = Some "k"%char ∨ sp = None) as Hsp
      by (destruct r as [|a1 [|a2 r2]]; repeat case_match; auto);
    destruct Hsp as [-> | [-> | ->]] end.
  - cbn [all_bytes]. by rewrite IH.
  - cbn [all_bytes]. by rewrite IH.
  - pose proof (byte_of_range a) as Ha.
    set (b := strconv.byte_of a) in *.
    set (lower := if ((65 <=? b) && (b <=? 90))%Z then (b + 32)%Z else b).
    set (dashed := if (lower =? 32)%Z then 45%Z else lower).
    destruct ((((97 <=? dashed) && (dashed <=? 122))
               || ((48 <=? dashed) && (dashed <=? 57)) || (dashed =? 45))%Z) eqn:Hok;
      [|exact IH].
    cbn [all_bytes]. rewrite IH, andb_true_r. unfold label_byte.
    rewrite byte_of_ascii_of; [exact Hok|]. lia.
Qed.

Lemma sanitize_runes_fixed s :
  all_bytes label_byte s = true → WorkspaceHandler.sanitize_runes s = s.
Proof.
  induction s as [|a r IH]; [done|]. cbn [all_bytes].
  intros [Ha Hr]%andb_true_iff. cbn [WorkspaceHandler.sanitize_runes].
  unfold label_byte in Ha. set (b := strconv.byte_of a) in *.
  assert ((b =? 196)%Z = false ∧ (b =? 226)%Z = false) as [H196 H226] by lia.
  assert (((65 <=? b) && (b <=? 90))%Z = false) as Hup by lia.
  assert ((b =? 32)%Z = false) as Hsp by lia.
  rewrite H196, H226, Hup, Hsp, Ha. cbn [andb].
  rewrite (IH Hr). subst b. rewrite ascii_of_byte_of.
  by destruct r as [|a1 [|a2 r2]].
Qed.

Lemma substring_label_bytes n s :
  all_bytes label_byte s = true →
  all_bytes label_byte (String.substring 0 n s) = true.
Proof.
  revert s. induction n as [|n IH]; intros s Hs.
  - by destruct s.
  - destruct s as [|a r]; [done|]. cbn [String.substring all_bytes] in *.
    apply andb_true_iff in Hs as [Ha Hr]. by rewrite Ha, IH.
Qed.

Lemma substring_length n s :
  String.length (String.substring 0 n s) ≤ n.
Proof.
  revert s. induction n as [|n IH]; intros s.
  - by destruct s.
  - destruct s as [|a r]; cbn [String.substring String.length]; [lia|].
    specialize (IH r). lia.
Qed.

(** X18. What [sanitizeName] returns.  For every name, the result consists
    of lower-case letters, digits and dashes only and has at most 53 bytes,
    and sanitising it again changes nothing; so the ingress host that
    [Create] derives from a name is that label followed by
    [.workspaces.local]. *)
Theorem sanitize_name_is_a_short_label (name : string) :
  all_bytes label_byte (WorkspaceHandler.sanitizeName name) = true
  ∧ String.length (WorkspaceHandler.sanitizeName name) ≤ 53
  ∧ WorkspaceHandler.sanitizeName (WorkspaceHandler.sanitizeName name)
    = WorkspaceHandler.sanitizeName name
  ∧ ∀ id req, api.Name req = name →
      IngressHost (WorkspaceHandler.newWorkspace id req)
      = (WorkspaceHandler.sanitizeName name +:+ ".workspaces.local")%string.
Proof.
  assert (all_bytes label_byte (WorkspaceHandler.sanitizeName name) = true
          ∧ String.length (WorkspaceHandler.sanitizeName name) ≤ 53) as [Hbytes Hlen].
  { unfold WorkspaceHandler.sanitizeName. case_decide as Hlong.
    - split; [apply substring_label_bytes, sanitize_runes_label_bytes|].
      apply substring_length.
    - split; [apply sanitize_runes_label_bytes|lia]. }
  split_and!; [done..| |].
  - unfold WorkspaceHandler.sanitizeName at 1.
    rewrite (sanitize_runes_fixed _ Hbytes). by rewrite decide_False by lia.
  - by intros id req <-.
Qed.

Lemma sanitize_name_is_a_short_label_witness :
  IngressHost (WorkspaceHandler.newWorkspace "a1b2c3d4" (named "My Workspace #1"))
  = "my-workspace-1.workspaces.local"%string.
Proof.
  destruct (sanitize_name_is_a_short_label "My Workspace #1") as (_ & _ & _ & H).
  rewrite (H "a1b2c3d4"%string (named "My Workspace #1") eq_refl).
  vm_compute. reflexivity.
Defined.

End names.

Section events_and_lists.
Import sqlite.
Context {C : Type}.

Lemma parseLimit1_range limitStr :
  (1 ≤ WorkspaceHandler.parseLimit limitStr ≤ 100)%Z.
Proof.
  unfold WorkspaceHandler.parseLimit. case_decide; [lia|].
  destruct (strconv.Atoi limitStr) as [l|]; [|lia].
  destruct ((0 <? l) && (l <=? 100))%Z eqn:Hl; lia.
Qed.

(** X19. How many events the events handlers return.  For a stored
    workspace [WorkspaceHandler.Events] answers 200 with events of that
    workspace only, newest first, never more than 100 of them and never more
    than a limit parameter that is a number from 1 to 100.
    [WorkspaceHandlers.GetEvents] has no such bound: with a limit parameter
    that [Sscanf] reads as a negative number it returns every event of the
    workspace. *)
Theorem events_handlers_limits (id limitStr : string) (db : DB) :
  (is_Some (workspaces db !! id) →
   ∃ events,
     WorkspaceHandler.Events SQLiteStore1.impl id limitStr db
     = JSON http.StatusOK (api.EventListResponse events None)
     ∧ length events ≤ 100
     ∧ (∀ l, strconv.Atoi limitStr = Some l → (1 ≤ l ≤ 100)%Z →
             (Z.of_nat (length events) ≤ l)%Z)
     ∧ (∀ e, e ∈ events → e ∈ workspace_events db ∧ EventWorkspaceID e = id)
     ∧ StronglySorted (λ a b, EventCreatedAt b ≤ EventCreatedAt a)%Z events)
  ∧ (∀ n, limitStr ≠ ""%string → fmt.Sscanf_d limitStr = Some n → (n < 0)%Z →
       ∃ events,
         WorkspaceHandlers.GetEvents SQLiteStore2.impl id limitStr db
         = JSON http.StatusOK (api.EventListResponse events None)
         ∧ events ≡ₚ events_of id db).
Proof.
  split.
  - intros [row Hrow]. exists (select_events id (WorkspaceHandler.parseLimit limitStr) db).
    pose proof (parseLimit1_range limitStr) as Hrange.
    destruct (select_events_split id (WorkspaceHandler.parseLimit limitStr) db)
      as (rest & Hsplit & _ & Hlen).
    pose proof (sorted_events_Permutation id db) as Hperm.
    pose proof (StronglySorted_order_by newer_event (events_of id db)) as Hsorted.
    rewrite <- Hsplit in Hperm, Hsorted.
    apply StronglySorted_app in Hsorted as (_ & Hsorted & _).
    specialize (Hlen ltac:(lia)).
    split_and!.
    + unfold WorkspaceHandler.Events. cbn [GetWorkspace GetEvents SQLiteStore1.impl].
      unfold SQLiteStore1.GetWorkspace, SQLiteStore1.GetEvents. rewrite Hrow.
      unfold WorkspaceHandler.eventToDTO. by rewrite list_fmap_id.
    + lia.
    + intros l Hl Hb.
      assert (((0 <? l) && (l <=? 100))%Z = true) as Hin
        by (apply andb_true_iff; split; lia).
      assert (WorkspaceHandler.parseLimit limitStr = l) as Hpl.
      { unfold WorkspaceHandler.parseLimit.
        rewrite decide_False by (intros ->; done). by rewrite Hl, Hin. }
      rewrite Hpl in Hlen |- *. exact Hlen.
    + intros e He.
      assert (e ∈ events_of id db) as [? ?]%list_elem_of_filter; [|done].
      rewrite <- Hperm. apply elem_of_app. by left.
    + exact Hsorted.
  - intros n Hne Hscan Hn. exists (select_events id n db). split.
    + unfold WorkspaceHandlers.GetEvents, WorkspaceHandlers.parseLimit.
      rewrite decide_False by done. by rewrite Hscan.
    + destruct (select_events_split id n db) as (rest & Hsplit & Hall & _).
      pose proof (sorted_events_Permutation id db) as Hperm.
      rewrite <- Hsplit, Hall, app_nil_r in Hperm by (by left). exact Hperm.
Qed.

(** X20. What the list handlers return.  Over any store and any
    orchestrator, the first generation lists one DTO per workspace the store
    returned, in the store's order, and attaches a deployment status only to
    a workspace whose declared status is [running], and only when there is
    an orchestrator; the second generation lists the same workspaces
    without any deployment status. *)
Theorem list_handlers_attach_status_to_running (S : Type) (st : Store S) (s : S) (c : C)
    (rows : list Workspace) :
  ListWorkspaces st s = (rows, None) →
  (∀ orch : option (orchestrator.Orchestrator C),
     ∃ dtos,
       WorkspaceHandler.List st orch s c
       = JSON http.StatusOK (api.WorkspaceListResponse dtos None)
       ∧ api.Fields <$> dtos = rows
       ∧ ∀ dto, dto ∈ dtos → is_Some (api.DeploymentStatus dto) →
           Status (api.Fields dto) = StatusRunning ∧ is_Some orch)
  ∧ ∃ dtos,
      WorkspaceHandlers.ListWorkspaces st s
      = JSON http.StatusOK (api.WorkspaceListResponse dtos None)
      ∧ api.Fields <$> dtos = rows
      ∧ ∀ dto, dto ∈ dtos → api.DeploymentStatus dto = None.
Proof.
  intros Hrows. split.
  - intros orch. exists (WorkspaceHandler.listItem orch c <$> rows). split_and!.
    + unfold WorkspaceHandler.List. by rewrite Hrows.
    + rewrite <- list_fmap_compose. rewrite <- (list_fmap_id rows) at 2.
      apply list_fmap_ext. intros i ws _. cbn. unfold WorkspaceHandler.listItem.
      destruct orch as [o|]; [|done]. case_decide; [|done].
      by destruct (orchestrator.GetWorkspaceStatus o ws c) as [? [?|]].
    + intros dto [ws [-> Hin]]%list_elem_of_fmap. unfold WorkspaceHandler.listItem.
      destruct orch as [o|]; [|by intros [? [=]]].
      case_decide as Hrun; [|by intros [? [=]]].
      destruct (orchestrator.GetWorkspaceStatus o ws c) as [? [?|]];
        [by intros [? [=]]|]. cbn. eauto.
  - exists (api.ToDTO <$> rows). split_and!.
    + unfold WorkspaceHandlers.ListWorkspaces. by rewrite Hrows.
    + rewrite <- list_fmap_compose. apply list_fmap_id.
    + by intros dto [ws [-> Hin]]%list_elem_of_fmap.
Qed.

(** X21. An id that is already taken.  When the id drawn for a create
    request that binds is already stored, both create handlers answer 500,
    the registry and the cluster are as they were, the orchestrator is not
    called and no background deployment is started: the id is not drawn
    again. *)
Theorem create_with_a_taken_id (id : string) (req : api.CreateWorkspaceRequest)
    (db : DB) (c : C) :
  is_Some (workspaces db !! id) →
  (¬ refused1 (inr req) →
   ∀ orch : option (orchestrator.Orchestrator C),
     WorkspaceHandler.Create SQLiteStore1.impl orch id (inr req) db
     = (db, JSON http.StatusInternalServerError
              (api.ErrorResponse "Failed to create workspace"), None))
  ∧ (¬ refused2 (inr req) →
     ∀ orch : orchestrator.Orchestrator C,
       WorkspaceHandlers.CreateWorkspace SQLiteStore2.impl orch id (inr req) db c
       = (db, c, JSON http.StatusInternalServerError
                   (api.WorkspaceResponse None (Some unique_failed)))).
Proof.
  intros [row Hrow]. split; intros Hbind orch.
  - assert (WorkspaceHandler.ShouldBindJSON (inr req) = inl req) as Hb.
    { unfold WorkspaceHandler.ShouldBindJSON. cbn in Hbind.
      case_decide as Hn; [destruct Hbind; by left|].
      destruct (63 <? utf8.RuneCountInString (api.Name req))%Z eqn:Hlen; [|done].
      destruct Hbind. right. lia. }
    unfold WorkspaceHandler.Create. rewrite Hb.
    cbn [CreateWorkspace SQLiteStore1.impl].
    unfold SQLiteStore1.CreateWorkspace, insert_workspace.
    cbn [ID WorkspaceHandler.newWorkspace]. by rewrite Hrow.
  - assert (WorkspaceHandlers.ShouldBindJSON (inr req) = inl req) as Hb.
    { unfold WorkspaceHandlers.ShouldBindJSON. by rewrite decide_False. }
    unfold WorkspaceHandlers.CreateWorkspace. rewrite Hb.
    cbn [CreateWorkspace SQLiteStore2.impl].
    unfold SQLiteStore2.CreateWorkspace, insert_workspace.
    cbn [ID WorkspaceHandlers.newWorkspace]. by rewrite Hrow.
Qed.

End events_and_lists.

(** ** The Helm adapters: what reaches the chart *)

Section values.
Import helm.

Lemma secretsMap_filter (P : WorkspaceSecret → Prop) `{∀ s, Decision (P s)} secrets m :
  (∀ s, api_key (Key s) → P s) →
  secretsMap (filter P secrets) m = secretsMap secrets m.
Proof.
  intros HP. revert m. induction secrets as [|s secrets IH]; intros m; [done|].
  destruct (decide (P s)) as [Hs|Hs].
  - rewrite filter_cons_True by done. cbn [secretsMap]. apply IH.
  - rewrite filter_cons_False by done. cbn [secretsMap]. rewrite IH.
    unfold api_key in HP.
    repeat case_decide; try done; destruct Hs; apply HP; auto.
Qed.

Lemma ghToken_filter (P : WorkspaceSecret → Prop) `{∀ s, Decision (P s)} secrets :
  (∀ s, Key s = "gh_token"%string → P s) →
  ghToken (filter P secrets) = ghToken secrets.
Proof.
  intros HP. induction secrets as [|s secrets IH]; [done|].
  destruct (decide (P s)) as [Hs|Hs].
  - rewrite filter_cons_True by done. cbn [ghToken]. by rewrite IH.
  - rewrite filter_cons_False by done. cbn [ghToken]. rewrite IH.
    case_decide as Hk; [|done]. destruct Hs. by apply HP.
Qed.

Lemma gitValues_filter ws secrets :
  GitEnabled ws = true →
  gitValues ws (filter (rendered ws) secrets) = gitValues ws secrets.
Proof.
  intros Hgit. unfold gitValues. rewrite ghToken_filter; [done|].
  intros s Hs. right. done.
Qed.

(** X22. Only four secrets reach the chart.  The values that either version
    of the adapter builds for a deployment are the same as for the secrets
    whose key is one of the three API keys or, when git is enabled for the
    workspace, [gh_token]: a secret under any other key, and [gh_token]
    for a workspace without git, is never rendered. *)
Theorem only_known_secrets_are_rendered (ws : Workspace) (secrets : list WorkspaceSecret) :
  HelmAdapter1.buildValues ws secrets
  = HelmAdapter1.buildValues ws (filter (rendered ws) secrets)
  ∧ HelmAdapter2.buildHelmValues ws secrets
    = HelmAdapter2.buildHelmValues ws (filter (rendered ws) secrets).
Proof.
  unfold HelmAdapter1.buildValues, HelmAdapter2.buildHelmValues.
  rewrite (secretsMap_filter (rendered ws)) by (intros s Hs; by left).
  destruct (GitEnabled ws) eqn:Hgit; [|done].
  by rewrite gitValues_filter.
Qed.

End values.

Section values_order.
Import helm.

Lemma secretsMap_Permutation secrets secrets' :
  secrets ≡ₚ secrets' → NoDup (Key <$> secrets) →
  ∀ m, secretsMap secrets m = secretsMap secrets' m.
Proof.
  induction 1 as [|x l l' Hperm IH|x y l|l1 l2 l3 H12 IH12 H23 IH23]; intros Hnd m.
  - done.
  - cbn [secretsMap]. apply IH. by apply NoDup_cons in Hnd as [_ ?].
  - cbn [secretsMap]. f_equal.
    rewrite !fmap_cons in Hnd. apply NoDup_cons in Hnd as [Hy _].
    apply not_elem_of_cons in Hy as [Hne _].
    repeat case_decide; try done; try congruence; by apply insert_insert_ne.
  - rewrite IH12 by done. apply IH23. by rewrite <- H12.
Qed.

Lemma ghToken_Permutation secrets secrets' :
  secrets ≡ₚ secrets' → NoDup (Key <$> secrets) →
  ghToken secrets = ghToken secrets'.
Proof.
  induction 1 as [|x l l' Hperm IH|x y l|l1 l2 l3 H12 IH12 H23 IH23]; intros Hnd.
  - done.
  - cbn [ghToken]. case_decide; [done|]. apply IH. by apply NoDup_cons in Hnd as [_ ?].
  - cbn [ghToken].
    rewrite !fmap_cons in Hnd. apply NoDup_cons in Hnd as [Hy _].
    apply not_elem_of_cons in Hy as [Hne _].
    repeat case_decide; try done; congruence.
  - rewrite IH12 by done. apply IH23. by rewrite <- H12.
Qed.

(** X23. The values do not depend on the order of the secrets.  The
    handlers collect the secrets by ranging over a Go map, whose order is
    not fixed; for secrets with distinct keys, as the entries of a map and
    the rows of the secrets table are, both versions of the adapter build
    the same values from any two orderings. *)
Theorem values_ignore_the_order_of_secrets (ws : Workspace)
    (secrets secrets' : list WorkspaceSecret) :
  secrets ≡ₚ secrets' →
  NoDup (Key <$> secrets) →
  HelmAdapter1.buildValues ws secrets = HelmAdapter1.buildValues ws secrets'
  ∧ HelmAdapter2.buildHelmValues ws secrets = HelmAdapter2.buildHelmValues ws secrets'.
Proof.
  intros Hperm Hnd.
  unfold HelmAdapter1.buildValues, HelmAdapter2.buildHelmValues, gitValues.
  rewrite (secretsMap_Permutation secrets secrets' Hperm Hnd).
  by rewrite (ghToken_Permutation secrets secrets' Hperm Hnd).
Qed.

Lemma values_ignore_the_order_of_secrets_witness :
  let ws := demo_workspace "a1b2c3d4" "ws-a1b2c3d4" "ws-a1b2c3d4" in
  let hl := mkSecret "a1b2c3d4" "humanlayer_api_key" "hl_test_key" in
  let gh := mkSecret "a1b2c3d4" "gh_token" "ghp_test_token" in
  HelmAdapter1.buildValues ws [hl; gh] = HelmAdapter1.buildValues ws [gh; hl].
Proof.
  intros ws hl gh.
  apply (proj1 (values_ignore_the_order_of_secrets ws [hl; gh] [gh; hl]
                  (perm_swap gh hl []) ltac:(by apply (bool_decide_unpack _)))).
Defined.

(** X24. What the adapter of helm.go never reads.  Its values, and the
    results of its five operations, are the same for two workspace structs
    that differ in the docker image, the image tag, the stored release name
    and namespace, the ingress host and the timestamps: the release and the
    namespace come from the id alone, and the values carry neither an
    [image] nor an [ingress] entry.  The other version does pass the image
    on, under [image]. *)
Theorem helm_go_reads_no_image_and_no_names {K} (e : Engine K) (chartPath : string)
    (ws : Workspace) (secrets : list WorkspaceSecret) (k : K)
    (dockerImage dockerImageTag helmReleaseName namespace ingressHost : string)
    (createdAt updatedAt : Z) :
  let ws' :=
    redecorated ws dockerImage dockerImageTag helmReleaseName namespace ingressHost
      createdAt updatedAt in
  HelmAdapter2.buildHelmValues ws' secrets = HelmAdapter2.buildHelmValues ws secrets
  ∧ HelmAdapter2.DeployWorkspace e chartPath ws' secrets k
    = HelmAdapter2.DeployWorkspace e chartPath ws secrets k
  ∧ HelmAdapter2.StopWorkspace e chartPath ws' k = HelmAdapter2.StopWorkspace e chartPath ws k
  ∧ HelmAdapter2.StartWorkspace e chartPath ws' k = HelmAdapter2.StartWorkspace e chartPath ws k
  ∧ HelmOrchestrator2.DeleteWorkspace (cluster e) ws' k
    = HelmOrchestrator2.DeleteWorkspace (cluster e) ws k
  ∧ HelmAdapter2.GetWorkspaceStatus e ws' k = HelmAdapter2.GetWorkspaceStatus e ws k
  ∧ HelmAdapter2.buildHelmValues ws secrets !! "image"%string = None
  ∧ HelmAdapter2.buildHelmValues ws secrets !! "ingress"%string = None
  ∧ HelmAdapter1.buildValues ws secrets !! "image"%string
    = Some (VMap {[ "repository"%string := VString (DockerImage ws);
                    "tag"%string := VString (DockerImageTag ws) ]}).
Proof.
  intros ws'. split_and!; try reflexivity.
  - unfold HelmAdapter2.buildHelmValues, setUnlessNone.
    destruct (GitEnabled ws); case_decide; by simplify_map_eq.
  - unfold HelmAdapter2.buildHelmValues, setUnlessNone.
    destruct (GitEnabled ws); case_decide; by simplify_map_eq.
  - unfold HelmAdapter1.buildValues, setUnlessNone.
    destruct (GitEnabled ws); repeat case_decide; by simplify_map_eq.
Qed.

End values_order.

Section running_state.
Import helm orchestrator.

Lemma setRunning_state running values :
  ∃ state,
    HelmAdapter2.setRunning running values !! "state"%string = Some (VMap state)
    ∧ state !! "running"%string = Some (VBool running)
    ∧ ∀ key, key ≠ "running"%string → state !! key = state_entry values key.
Proof.
  unfold HelmAdapter2.setRunning, state_entry, Values in *.
  destruct (values !! "state"%string) as [[s|b|state]|] eqn:Hstate;
    (eexists; split_and!; [apply lookup_insert_eq| |]);
    try (by simplify_map_eq); intros key Hne; by simplify_map_eq.
Qed.

(** X25. Stop and start of helm.go change one entry of the release's
    values.  [setWorkspaceRunning] upgrades the release with the values it
    has read from it, in which [state.running] is set to the flag and every
    other entry, inside and outside [state], is as it was; setting the flag
    twice is the same as setting it to the last value.  When the action
    configuration, the values or the chart cannot be had, the cluster is
    left as it is and an error is returned. *)
Theorem set_running_changes_one_entry {K} (e : Engine K) (chartPath : string)
    (ws : Workspace) (running : bool) (k : K) :
  let namespace := ("workspace-" +:+ ID ws)%string in
  let releaseName := ("hld-" +:+ ID ws)%string in
  (∀ values,
     (∀ key, key ≠ "state"%string →
        HelmAdapter2.setRunning running values !! key = values !! key)
     ∧ state_entry (HelmAdapter2.setRunning running values) "running"
       = Some (VBool running)
     ∧ (∀ key, key ≠ "running"%string →
          state_entry (HelmAdapter2.setRunning running values) key
          = state_entry values key)
     ∧ (∀ before,
          HelmAdapter2.setRunning running (HelmAdapter2.setRunning before values)
          = HelmAdapter2.setRunning running values))
  ∧ (∀ existingValues,
       getActionConfig (cluster e) namespace k = None →
       getValuesRun e namespace releaseName k = inl existingValues →
       loaderLoad e chartPath k = None →
       (HelmAdapter2.setWorkspaceRunning e chartPath ws running k).1
       = (upgradeRun e namespace releaseName false
            (HelmAdapter2.setRunning running existingValues) k).1
       ∧ ((HelmAdapter2.setWorkspaceRunning e chartPath ws running k).2 = None
          ↔ (upgradeRun e namespace releaseName false
               (HelmAdapter2.setRunning running existingValues) k).2 = None))
  ∧ (is_Some (getActionConfig (cluster e) namespace k)
     ∨ (∃ err, getValuesRun e namespace releaseName k = inr err)
     ∨ is_Some (loaderLoad e chartPath k) →
     (HelmAdapter2.setWorkspaceRunning e chartPath ws running k).1 = k
     ∧ is_Some (HelmAdapter2.setWorkspaceRunning e chartPath ws running k).2).
Proof.
  intros namespace releaseName. split_and!.
  - intros values. split_and!.
    + intros key Hne. unfold HelmAdapter2.setRunning, Values in *.
      destruct (values !! "state"%string) as [[s|b|state]|];
        by rewrite lookup_insert_ne.
    + destruct (setRunning_state running values) as (state & Hs & Hr & _).
      unfold state_entry. by rewrite Hs.
    + intros key Hne. destruct (setRunning_state running values) as (state & Hs & _ & Ho).
      unfold state_entry at 1. rewrite Hs. by apply Ho.
    + intros before. unfold HelmAdapter2.setRunning, Values in *.
      destruct (values !! "state"%string) as [[s|b|state]|];
        rewrite lookup_insert_eq, insert_insert_eq;
        try (by rewrite insert_singleton_eq).
      by rewrite insert_insert_eq.
  - intros existingValues Hinit Hvalues Hload.
    unfold HelmAdapter2.setWorkspaceRunning. fold namespace releaseName.
    rewrite Hinit, Hvalues, Hload.
    destruct (upgradeRun e namespace releaseName false _ k) as [k1 [err|]]; done.
  - intros Hfail. unfold HelmAdapter2.setWorkspaceRunning. fold namespace releaseName.
    destruct (getActionConfig (cluster e) namespace k) as [err|]; [eauto|].
    destruct (getValuesRun e namespace releaseName k) as [values|err]; [|eauto].
    destruct (loaderLoad e chartPath k) as [err|]; [eauto|].
    destruct Hfail as [[? [=]]|[[? [=]]|[? [=]]]].
Qed.

End running_state.

Section running_state_witness.
Import helm orchestrator.

Lemma set_running_changes_one_entry_witness :
  let ws := demo_workspace "a1b2c3d4" "hld-a1b2c3d4" "workspace-a1b2c3d4" in
  let existing := HelmAdapter2.buildHelmValues ws [] in
  let e := helm_doubles.RecordingEngine (inl existing) (inl StatusDeployed) (inl []) in
  (HelmAdapter2.StopWorkspace e "/charts/hld" ws []).1
  = [("workspace-a1b2c3d4"%string, "hld-a1b2c3d4"%string,
      HelmAdapter2.setRunning false existing)].
Proof.
  intros ws existing e.
  destruct (set_running_changes_one_entry e "/charts/hld" ws false []) as (_ & H & _).
  destruct (H existing) as [Hk _]; [reflexivity..|]. exact Hk.
Defined.

End running_state_witness.

Section status.
Import helm orchestrator.
Context {K : Type}.
Variable e : Engine K.

Lemma anyReady_spec conditions :
  HelmAdapter1.anyReady conditions = true
  ↔ ∃ cond, cond ∈ conditions ∧ Type_ cond = PodReady ∧ Status_ cond = ConditionTrue.
Proof.
  induction conditions as [|cond rest IH]; cbn [HelmAdapter1.anyReady].
  - split; [done|]. by intros (? & ?%elem_of_nil & _).
  - case_decide as Hc.
    + split; [|done]. intros _. exists cond. split; [left|done].
    + rewrite IH. split.
      * intros (c & Hin & Hty). exists c. split; [by right|done].
      * intros (c & Hin & Hty). apply elem_of_cons in Hin as [->|Hin]; [done|eauto].
Qed.

Lemma readiness_spec conditions message :
  (HelmAdapter2.readiness conditions (false, message)).1 = true
  ↔ ∃ before cond after,
      conditions = before ++ cond :: after
      ∧ Forall (λ c, Type_ c ≠ PodReady) before
      ∧ Type_ cond = PodReady ∧ Status_ cond = ConditionTrue.
Proof.
  induction conditions as [|cond rest IH]; cbn [HelmAdapter2.readiness].
  - split; [done|]. intros (before & c & after & Heq & _). by destruct before.
  - case_decide as Hc.
    + cbn [fst]. rewrite bool_decide_eq_true. split.
      * intros Ht. exists [], cond, rest. by split_and!.
      * intros (before & c & after & Heq & Hb & Hty & Hst).
        destruct before as [|b before]; cbn in Heq; [by simplify_eq|].
        simplify_eq. by apply Forall_cons in Hb as [? _].
    + rewrite IH. split.
      * intros (before & c & after & -> & Hb & Hty & Hst).
        exists (cond :: before), c, after. split_and!; [done| |done..].
        by constructor.
      * intros (before & c & after & Heq & Hb & Hty & Hst).
        destruct before as [|b before]; cbn in Heq; [by simplify_eq|].
        simplify_eq. apply Forall_cons in Hb as [_ Hb]. eauto 10.
Qed.

(** X26. When a workspace is reported ready, and when the status call
    fails.  The version with stored names returns an error exactly when the
    action configuration cannot be initialised and a status in every other
    case; it reports ready only if the release status could be read, pods
    were listed, and the first pod has some condition of type [Ready] with
    status [True].  The version of helm.go returns an error exactly
    when the pods cannot be listed; it reports ready if and only if pods
    were listed and the first condition of type [Ready] of the first pod has
    status [True]. *)
Theorem status_ready_only_for_a_ready_pod (ws : Workspace) (k : K) :
  ((∀ err, (HelmAdapter1.GetWorkspaceStatus e ws k).2 = Some err
           ↔ getActionConfig (cluster e) (Namespace ws) k = Some err)
   ∧ (is_Some (HelmAdapter1.GetWorkspaceStatus e ws k).1
      ↔ getActionConfig (cluster e) (Namespace ws) k = None)
   ∧ (∀ status, (HelmAdapter1.GetWorkspaceStatus e ws k).1 = Some status →
        Ready status = true →
        (∃ released, statusRun e (Namespace ws) (HelmReleaseName ws) k = inl released)
        ∧ ∃ pod pods cond,
            podsList e (Namespace ws)
              ("app.kubernetes.io/instance=" +:+ HelmReleaseName ws) k = inl (pod :: pods)
            ∧ cond ∈ Conditions pod
            ∧ Type_ cond = PodReady ∧ Status_ cond = ConditionTrue))
  ∧ ((∀ err, (HelmAdapter2.GetWorkspaceStatus e ws k).2 = Some err
             ↔ ∃ cause, podsList e ("workspace-" +:+ ID ws)
                          ("app.kubernetes.io/instance=hld-" +:+ ID ws) k = inr cause
                        ∧ err = ("failed to list pods: " +:+ cause)%string)
     ∧ ((∃ status, (HelmAdapter2.GetWorkspaceStatus e ws k).1 = Some status
                   ∧ Ready status = true)
        ↔ ∃ pod pods before cond after,
            podsList e ("workspace-" +:+ ID ws)
              ("app.kubernetes.io/instance=hld-" +:+ ID ws) k = inl (pod :: pods)
            ∧ Conditions pod = before ++ cond :: after
            ∧ Forall (λ c, Type_ c ≠ PodReady) before
            ∧ Type_ cond = PodReady ∧ Status_ cond = ConditionTrue)).
Proof.
  split.
  - unfold HelmAdapter1.GetWorkspaceStatus.
    destruct (getActionConfig (cluster e) (Namespace ws) k) as [ierr|].
    { split_and!.
      - intros err. cbn. split; congruence.
      - cbn. split; [intros [? ?]; done|done].
      - done. }
    destruct (statusRun e (Namespace ws) (HelmReleaseName ws) k) as [released|serr].
    2:{ cbn [fst snd]. split_and!; [done|split; eauto|]. by intros status [= <-]. }
    destruct (podsList e (Namespace ws) _ k) as [[|pod pods]|perr].
    + cbn [fst snd]. split_and!; [done|split; eauto|]. by intros status [= <-].
    + cbn [fst snd]. split_and!; [done|split; eauto|]. intros status [= <-]. cbn [Ready].
      unfold HelmAdapter1.isPodReady. rewrite anyReady_spec.
      intros (cond & Hin & Hty & Hst). split; [eauto|]. eauto 10.
    + cbn [fst snd]. split_and!; [done|split; eauto|]. by intros status [= <-].
  - unfold HelmAdapter2.GetWorkspaceStatus.
    destruct (podsList e ("workspace-" +:+ ID ws) _ k) as [[|pod pods]|perr].
    + split.
      * intros err. cbn. split; [done|]. by intros (? & [=] & _).
      * split; [by intros (status & [= <-] & ?)|]. by intros (? & ? & ? & ? & ? & [=] & _).
    + pose proof (readiness_spec (Conditions pod) "") as Hr.
      destruct (HelmAdapter2.readiness (Conditions pod) (false, ""%string))
        as [ready message]. cbn [fst] in Hr. split.
      * intros err. cbn. split; [done|]. by intros (? & [=] & _).
      * split.
        -- intros (status & [= <-] & Hready). cbn [Ready] in Hready.
           apply Hr in Hready as (before & cond & after & ?). eauto 10.
        -- intros (pod' & pods' & before & cond & after & [= <- <-] & Hc).
           eexists. split; [reflexivity|]. cbn [Ready]. apply Hr. eauto 10.
    + split.
      * intros err. cbn. split; [intros [= <-]; eauto|]. by intros (? & [= <-] & ->).
      * split; [by intros (status & [=] & _)|]. by intros (? & ? & ? & ? & ? & [=] & _).
Qed.

End status.

Section more_witnesses.
Import sqlite.

Lemma events_handlers_limits_witness :
  let ws := demo_workspace "a1b2c3d4" "ws-a1b2c3d4" "ws-a1b2c3d4" in
  let db :=
    (calls SQLiteStore1.impl
       [CallCreateWorkspace ws;
        CallLogEvent (mkEvent 0 "a1b2c3d4" "created" "Workspace created" "" 0);
        CallLogEvent (mkEvent 0 "a1b2c3d4" "started" "Workspace started" "" 0)] empty).1 in
  ∃ events,
    WorkspaceHandler.Events SQLiteStore1.impl "a1b2c3d4" "1" db
    = JSON http.StatusOK (api.EventListResponse events None)
    ∧ (Z.of_nat (length events) ≤ 1)%Z.
Proof.
  intros ws db.
  destruct (proj1 (events_handlers_limits "a1b2c3d4" "1" db)) as (events & H1 & _ & H2 & _).
  - vm_compute. eauto.
  - exists events. split; [exact H1|]. apply (H2 1%Z); [reflexivity|lia].
Defined.

Lemma list_handlers_attach_status_to_running_witness :
  let ws := demo_workspace "a1b2c3d4" "ws-a1b2c3d4" "ws-a1b2c3d4" in
  let db := (SQLiteStore1.CreateWorkspace ws empty).1.1 in
  ∃ dtos,
    WorkspaceHandler.List SQLiteStore1.impl (Some (doubles.MockOrchestrator None)) db tt
    = JSON http.StatusOK (api.WorkspaceListResponse dtos None)
    ∧ api.Fields <$> dtos = [ws].
Proof.
  intros ws db.
  destruct (list_handlers_attach_status_to_running (C:=unit) DB SQLiteStore1.impl db tt [ws])
    as [H _].
  - vm_compute. reflexivity.
  - destruct (H (Some (doubles.MockOrchestrator None))) as (dtos & H1 & H2 & _).
    exists dtos. split; [exact H1|exact H2].
Defined.

Lemma create_with_a_taken_id_witness :
  let ws := demo_workspace "a1b2c3d4" "hld-a1b2c3d4" "workspace-a1b2c3d4" in
  let db := (SQLiteStore2.CreateWorkspace ws empty).1.1 in
  WorkspaceHandlers.CreateWorkspace SQLiteStore2.impl (doubles.MockOrchestrator None)
    "a1b2c3d4" (inr (named "demo")) db tt
  = (db, tt, JSON http.StatusInternalServerError
               (api.WorkspaceResponse None (Some unique_failed))).
Proof.
  intros ws db.
  destruct (create_with_a_taken_id (C:=unit) "a1b2c3d4" (named "demo") db tt) as [_ H].
  - vm_compute. eauto.
  - apply H. vm_compute. discriminate.
Defined.

End more_witnesses.

Section status_witness.
Import helm orchestrator.

Lemma status_ready_only_for_a_ready_pod_witness :
  let ws := demo_workspace "a1b2c3d4" "hld-a1b2c3d4" "workspace-a1b2c3d4" in
  let pod :=
    mkPod "Running" "10.0.0.7" "la-nuc-1" None
      [mkCondition "Initialized" "True" "" ""; mkCondition "Ready" "True" "" ""] [] in
  let e := helm_doubles.RecordingEngine (inr "release: not found"%string)
             (inl StatusDeployed) (inl [pod]) in
  ∃ status, (HelmAdapter2.GetWorkspaceStatus e ws []).1 = Some status
            ∧ Ready status = true.
Proof.
  intros ws pod e.
  apply (proj2 (proj2 (status_ready_only_for_a_ready_pod e ws []))).
  exists pod, [], [mkCondition "Initialized" "True" "" ""],
    (mkCondition "Ready" "True" "" ""), [].
  split_and!; [reflexivity|reflexivity| |reflexivity|reflexivity].
  apply Forall_singleton. vm_compute. discriminate.
Defined.

End status_witness.

(** ** The handlers over the Helm adapters *)

Section reads_and_failures.
Import sqlite.

(** X27. Reading a stored workspace never fails on the orchestrator.  Over
    any store, for a workspace the store returns, both Get handlers answer
    200 with the stored workspace whatever the status call answers.  The
    first generation attaches a deployment status only when there is an
    orchestrator and its status call returned no error; the second attaches
    whatever status the call returned, error or not. *)
Theorem get_answers_whatever_the_status_call_does {S C : Type} (st : Store S)
    (id : string) (s : S) (c : C) (ws : Workspace) :
  GetWorkspace st id s = (Some ws, None) →
  (∀ orch : option (orchestrator.Orchestrator C),
     ∃ dto,
       WorkspaceHandler.Get st orch id s c
       = JSON http.StatusOK (api.WorkspaceResponse (Some dto) None)
       ∧ api.Fields dto = ws
       ∧ (∀ status, api.DeploymentStatus dto = Some status →
            ∃ o, orch = Some o
                 ∧ orchestrator.GetWorkspaceStatus o ws c = (Some status, None)))
  ∧ (∀ orch : orchestrator.Orchestrator C,
       ∃ dto,
         WorkspaceHandlers.GetWorkspace st orch id s c
         = JSON http.StatusOK (api.WorkspaceResponse (Some dto) None)
         ∧ api.Fields dto = ws
         ∧ api.DeploymentStatus dto = (orchestrator.GetWorkspaceStatus orch ws c).1).
Proof.
  intros Hget. split; intros orch.
  - unfold WorkspaceHandler.Get. rewrite Hget.
    destruct orch as [o|].
    + destruct (orchestrator.GetWorkspaceStatus o ws c) as [status [err|]] eqn:Hst.
      * eexists. split_and!; [reflexivity|reflexivity|]. by intros ? [=].
      * eexists. split_and!; [reflexivity|reflexivity|].
        intros status' [= ->]. eauto.
    + eexists. split_and!; [reflexivity|reflexivity|]. by intros ? [=].
  - unfold WorkspaceHandlers.GetWorkspace. rewrite Hget.
    destruct (orchestrator.GetWorkspaceStatus orch ws c) as [status err].
    eexists. by split_and!.
Qed.

Lemma get_answers_whatever_the_status_call_does_witness :
  let ws := demo_workspace "a1b2c3d4" "ws-a1b2c3d4" "ws-a1b2c3d4" in
  let db := (SQLiteStore1.CreateWorkspace ws empty).1.1 in
  let failing := doubles.FaultyOrchestrator None None None None in
  ∃ dto,
    WorkspaceHandler.Get SQLiteStore1.impl (Some failing) "a1b2c3d4" db tt
    = JSON http.StatusOK (api.WorkspaceResponse (Some dto) None)
    ∧ api.Fields dto = ws.
Proof.
  intros ws db failing.
  destruct (get_answers_whatever_the_status_call_does SQLiteStore1.impl
              "a1b2c3d4" db tt ws) as [H _].
  - vm_compute. reflexivity.
  - destruct (H (Some failing)) as (dto & H1 & H2 & _).
    exists dto. split; [exact H1|exact H2].
Defined.

End reads_and_failures.

Section deployment_failures.
Import sqlite helm.
Context {K : Type}.
Variable e : Engine K.
Variable chartPath : string.

(** X28. A chart that cannot be loaded, seen from the API.  Over the second
    [SQLiteStore] and the adapter of helm.go, for a fresh id and a request
    that binds: when the action configuration can be initialised and loading
    the chart fails, [CreateWorkspace] answers 500 with the loader's error
    behind [deployment failed: failed to load helm chart from <path>: ],
    nothing has been installed (the cluster is as it was), and the workspace
    stays in the registry with status [error] and an [error] event that
    carries the same text. *)
Theorem chart_load_failure_reaches_the_caller (id : string)
    (req : api.CreateWorkspaceRequest) (db : DB) (k : K) (err : string) :
  ¬ refused2 (inr req) →
  workspaces db !! id = None →
  orchestrator.getActionConfig (cluster e) ("workspace-" +:+ id) k = None →
  loaderLoad e chartPath k = Some err →
  let cause := ("failed to load helm chart from " +:+ chartPath +:+ ": " +:+ err)%string in
  let '(db', k', reply) :=
    WorkspaceHandlers.CreateWorkspace SQLiteStore2.impl (HelmAdapter2.impl e chartPath)
      id (inr req) db k in
  k' = k
  ∧ reply = JSON http.StatusInternalServerError
              (api.WorkspaceResponse None (Some ("deployment failed: " +:+ cause)))
  ∧ Status <$> workspaces db' !! id = Some StatusError
  ∧ last (workspace_events db')
    = Some (mkEvent (sqlite_sequence db + 2) id "error" ("Deployment failed: " +:+ cause)
              "" (clock db)).
Proof.
  intros Hbind Hfresh Hinit Hload cause.
  assert (WorkspaceHandlers.ShouldBindJSON (inr req) = inl req) as Hb.
  { unfold WorkspaceHandlers.ShouldBindJSON. by rewrite decide_False. }
  pose proof (Create2_result K (HelmAdapter2.impl e chartPath) id req db k Hb Hfresh)
    as Hres. cbn zeta in Hres.
  cbn [orchestrator.DeployWorkspace HelmAdapter2.impl] in Hres.
  unfold HelmAdapter2.DeployWorkspace in Hres. cbn [ID stamped WorkspaceHandlers.newWorkspace] in Hres.
  rewrite Hinit, Hload in Hres.
  destruct (WorkspaceHandlers.CreateWorkspace SQLiteStore2.impl _ id (inr req) db k)
    as [[db' k'] reply].
  destruct Hres as (-> & Hrows & Hevents & ->).
  split_and!; [done|done| |].
  - by rewrite Hrows, lookup_insert_eq.
  - rewrite Hevents. by rewrite last_app.
Qed.

End deployment_failures.

Section deployment_failures_witness.
Import sqlite helm.

Lemma chart_load_failure_reaches_the_caller_witness :
  let e :=
    mkEngine unit (orchestrator.mkCluster unit (λ _ _, None) (λ _ _ k, (k, None))
                     (λ _ k, (k, None)))
      (λ _ _, Some "no such file or directory"%string)
      (λ _ _ _ k, (k, None)) (λ _ _ _ _ k, (k, None))
      (λ _ _ _, inr "release: not found"%string)
      (λ _ _ _, inr "release: not found"%string) (λ _ _ _, inl []) in
  (WorkspaceHandlers.CreateWorkspace SQLiteStore2.impl (HelmAdapter2.impl e "/charts/hld")
     "a1b2c3d4" (inr (named "demo")) empty tt).2
  = JSON http.StatusInternalServerError
      (api.WorkspaceResponse None
         (Some "deployment failed: failed to load helm chart from /charts/hld: no such file or directory"%string)).
Proof.
  intros e.
  pose proof (chart_load_failure_reaches_the_caller e "/charts/hld" "a1b2c3d4"
                (named "demo") empty tt "no such file or directory") as H.
  cbn zeta in H.
  destruct (WorkspaceHandlers.CreateWorkspace SQLiteStore2.impl _ "a1b2c3d4"
              (inr (named "demo")) empty tt) as [[db' k'] reply].
  destruct H as (_ & -> & _); [vm_compute; discriminate|reflexivity..|].
  reflexivity.
Defined.

End deployment_failures_witness.
